(** * The window translation core of sommelier (sommelier-window.cc)

    A shallow embedding of the functions of [sommelier-window.cc]: the
    two-buffer configure/acknowledge machine, the xdg-shell listener
    callbacks, the application-id derivation and the reconciliation
    function [sl_window_update], followed by the properties established
    about them.

    Conventions of the embedding:
    - C [int] and [uint32_t] values are integers of [Z]; a store into an
      unsigned 32-bit field and a read of such a field into an [int] are
      written out with [to_u32] and [to_i32];
    - a nullable pointer is an [option]; windows and host surfaces live in
      two stores indexed by their address, so that a sibling reached through
      [ctx->windows] and the window under reconciliation alias correctly;
    - every outbound protocol call (xcb, xdg-shell, aura-shell) is appended
      to a chronological list of [request]s;
    - a failed [assert], the dereference of a null or dangling pointer and a
      store past the end of an array end the run in a [Crash]. *)

From stdpp Require Import base numbers option list gmap strings pretty.
From Stdlib Require Import ZArith Lia Ascii String.

Open Scope Z_scope.

(** ** Machine integers *)

Definition to_u32 (z : Z) : Z := z mod 2 ^ 32.
Definition to_i32 (z : Z) : Z := (z + 2 ^ 31) mod 2 ^ 32 - 2 ^ 31.
Definition to_u16 (z : Z) : Z := z mod 2 ^ 16.
Definition to_i16 (z : Z) : Z := (z + 2 ^ 15) mod 2 ^ 16 - 2 ^ 15.

(** C truth of an integer, and the integer of a C comparison. *)
Definition truthy (z : Z) : bool := negb (z =? 0).
Definition is_set {A} (p : option A) : bool :=
  match p with Some _ => true | None => false end.
Definition int_of_bool (b : bool) : Z := if b then 1 else 0.

(** ** Constants of the protocol headers

    The values below are those of the xcb, ICCCM, xdg-shell and aura-shell
    headers the source includes. *)

Definition XCB_WINDOW_NONE : Z := 0.
Definition XCB_CURRENT_TIME : Z := 0.
Definition XCB_CONFIG_WINDOW_X : Z := 1.
Definition XCB_CONFIG_WINDOW_Y : Z := 2.
Definition XCB_CONFIG_WINDOW_WIDTH : Z := 4.
Definition XCB_CONFIG_WINDOW_HEIGHT : Z := 8.
Definition XCB_CONFIG_WINDOW_BORDER_WIDTH : Z := 16.
Definition XCB_CONFIGURE_NOTIFY : Z := 22.
Definition XCB_CLIENT_MESSAGE : Z := 33.
Definition XCB_EVENT_MASK_NO_EVENT : Z := 0.
Definition XCB_EVENT_MASK_STRUCTURE_NOTIFY : Z := 131072.
Definition XCB_PROP_MODE_REPLACE : Z := 0.
Definition XCB_ATOM_ATOM : Z := 4.

Definition US_POSITION : Z := 1.
Definition P_POSITION : Z := 4.
Definition P_MIN_SIZE : Z := 16.
Definition P_MAX_SIZE : Z := 32.

Definition XDG_TOPLEVEL_STATE_MAXIMIZED : Z := 1.
Definition XDG_TOPLEVEL_STATE_FULLSCREEN : Z := 2.
Definition XDG_TOPLEVEL_STATE_RESIZING : Z := 3.
Definition XDG_TOPLEVEL_STATE_ACTIVATED : Z := 4.
Definition XDG_POSITIONER_ANCHOR_TOP_LEFT : Z := 5.
Definition XDG_POSITIONER_GRAVITY_BOTTOM_RIGHT : Z := 8.

Definition ZAURA_SURFACE_FRAME_TYPE_NONE : Z := 0.
Definition ZAURA_SURFACE_FRAME_TYPE_NORMAL : Z := 1.
Definition ZAURA_SURFACE_FRAME_TYPE_SHADOW : Z := 2.
Definition ZAURA_SURFACE_SET_FULLSCREEN_MODE_SINCE_VERSION : Z := 5.

(** The atoms the file looks up in [ctx->atoms]; their values are interned
    at run time and are a field of the context. *)
Inductive atom_name : Type :=
| ATOM_WM_PROTOCOLS
| ATOM_WM_DELETE_WINDOW
| ATOM_NET_WM_STATE
| ATOM_NET_WM_STATE_FULLSCREEN
| ATOM_NET_WM_STATE_MAXIMIZED_VERT
| ATOM_NET_WM_STATE_MAXIMIZED_HORZ
| ATOM_NET_WM_STATE_FOCUSED.

(** ** Addresses and protocol objects *)

(** Address of a [struct sl_window]. *)
Definition wptr : Type := nat.
(** Address of a [struct sl_host_surface]. *)
Definition sptr : Type := nat.
(** A compositor-side proxy object ([wl_surface], [xdg_surface], ...). *)
Definition proxy : Type := nat.

(** The events the file sends with [xcb_send_event]. *)
Inductive xcb_event : Type :=
| xcb_configure_notify_event
    (response_type event window above_sibling : Z)
    (x y width height border_width override_redirect : Z)
| xcb_client_message_event
    (response_type format window type data0 data1 : Z).

(** Outbound calls, in the order and with the arguments of the source. *)
Inductive request : Type :=
| xcb_configure_window (window value_mask : Z) (value_list : list Z)
| xcb_change_property
    (mode window property type format data_len : Z) (data : list Z)
| xcb_send_event (propagate destination event_mask : Z) (event : xcb_event)
| xcb_get_geometry (drawable : Z)
| xdg_surface_ack_configure (surface : proxy) (serial : Z)
| xdg_surface_destroy (surface : proxy)
| wl_surface_commit (surface : proxy)
| xdg_wm_base_get_xdg_surface (shell surface result : proxy)
| xdg_surface_add_listener (surface : proxy) (data : wptr)
| xdg_surface_get_toplevel (surface result : proxy)
| xdg_toplevel_add_listener (toplevel : proxy) (data : wptr)
| xdg_toplevel_set_parent (toplevel : proxy) (parent : option proxy)
| xdg_toplevel_set_title (toplevel : proxy) (title : string)
| xdg_toplevel_set_min_size (toplevel : proxy) (width height : Z)
| xdg_toplevel_set_max_size (toplevel : proxy) (width height : Z)
| xdg_toplevel_set_maximized (toplevel : proxy)
| xdg_toplevel_set_fullscreen (toplevel : proxy)
| xdg_toplevel_destroy (toplevel : proxy)
| xdg_wm_base_create_positioner (shell result : proxy)
| xdg_positioner_set_anchor (positioner : proxy) (anchor : Z)
| xdg_positioner_set_gravity (positioner : proxy) (gravity : Z)
| xdg_positioner_set_anchor_rect (positioner : proxy) (x y width height : Z)
| xdg_positioner_destroy (positioner : proxy)
| xdg_surface_get_popup
    (surface : proxy) (parent : option proxy) (positioner result : proxy)
| xdg_popup_add_listener (popup : proxy) (data : wptr)
| xdg_popup_destroy (popup : proxy)
| zaura_shell_get_aura_surface (shell surface result : proxy)
| zaura_surface_set_frame (surface : proxy) (type : Z)
| zaura_surface_set_frame_colors (surface : proxy) (active inactive : Z)
| zaura_surface_set_startup_id (surface : proxy) (startup_id : option string)
| zaura_surface_set_application_id (surface : proxy) (application_id : string)
| zaura_surface_set_fullscreen_mode (surface : proxy) (mode : Z)
| zaura_surface_set_parent
    (surface : proxy) (parent : option proxy) (x y : Z)
| zaura_surface_destroy (surface : proxy).

(** ** The structures *)

(** Modelled from the spec: the declarations of [struct sl_config],
    [struct sl_window], [struct sl_host_surface], [struct sl_host_output]
    and [struct sl_context] are in headers that are not part of the
    sources. The records carry the fields that [sommelier-window.cc] reads
    or writes; a configure buffer holds five geometry values and three
    state atoms, as the data model of the specification says. *)
Definition CONFIG_VALUES_CAPACITY : nat := 5.
Definition CONFIG_STATES_CAPACITY : nat := 3.

Record sl_host_output : Type := Build_sl_host_output {
  out_virt_x : Z;
  out_virt_y : Z;
  out_width : Z;
  out_height : Z
}.

Record sl_host_surface : Type := Build_sl_host_surface {
  surf_proxy : proxy;
  surf_contents_width : Z;
  surf_contents_height : Z;
  surf_has_role : Z;
  surf_has_own_scale : Z;
  surf_cached_logical_width : Z;
  surf_cached_logical_height : Z;
  surf_last_event_serial : Z;
  surf_output : option sl_host_output
}.

Record xcb_screen_t : Type := Build_xcb_screen_t {
  screen_width_in_pixels : Z;
  screen_height_in_pixels : Z
}.

Record sl_xdg_shell : Type := Build_sl_xdg_shell {
  xdg_shell_internal : option proxy
}.

Record sl_aura_shell : Type := Build_sl_aura_shell {
  aura_shell_version : Z;
  aura_shell_internal : proxy
}.

Record sl_config : Type := Build_sl_config {
  cfg_serial : Z;
  cfg_mask : Z;
  cfg_values : list Z;
  cfg_states_length : Z;
  cfg_states : list Z
}.

Definition set_cfg_serial (v : Z) (r : sl_config) : sl_config :=
  {| cfg_serial := v; cfg_mask := cfg_mask r; cfg_values := cfg_values r;
     cfg_states_length := cfg_states_length r; cfg_states := cfg_states r |}.
Definition set_cfg_mask (v : Z) (r : sl_config) : sl_config :=
  {| cfg_serial := cfg_serial r; cfg_mask := v; cfg_values := cfg_values r;
     cfg_states_length := cfg_states_length r; cfg_states := cfg_states r |}.
Definition set_cfg_values (v : list Z) (r : sl_config) : sl_config :=
  {| cfg_serial := cfg_serial r; cfg_mask := cfg_mask r; cfg_values := v;
     cfg_states_length := cfg_states_length r; cfg_states := cfg_states r |}.
Definition set_cfg_states_length (v : Z) (r : sl_config) : sl_config :=
  {| cfg_serial := cfg_serial r; cfg_mask := cfg_mask r;
     cfg_values := cfg_values r; cfg_states_length := v;
     cfg_states := cfg_states r |}.
Definition set_cfg_states (v : list Z) (r : sl_config) : sl_config :=
  {| cfg_serial := cfg_serial r; cfg_mask := cfg_mask r;
     cfg_values := cfg_values r; cfg_states_length := cfg_states_length r;
     cfg_states := v |}.

Record sl_window : Type := Build_sl_window {
  win_id : Z;
  win_frame_id : Z;
  win_host_surface_id : Z;
  win_unpaired : Z;
  win_x : Z;
  win_y : Z;
  win_width : Z;
  win_height : Z;
  win_border_width : Z;
  win_depth : Z;
  win_managed : Z;
  win_realized : Z;
  win_activated : Z;
  win_fullscreen : Z;
  win_compositor_fullscreen : Z;
  win_maximized : Z;
  win_allow_resize : Z;
  win_transient_for : Z;
  win_client_leader : Z;
  win_decorated : Z;
  win_name : option string;
  win_clazz : option string;
  win_startup_id : option string;
  win_app_id_property : string;
  win_dark_frame : Z;
  win_size_flags : Z;
  win_min_width : Z;
  win_min_height : Z;
  win_max_width : Z;
  win_max_height : Z;
  win_next_config : sl_config;
  win_pending_config : sl_config;
  win_xdg_surface : option proxy;
  win_xdg_toplevel : option proxy;
  win_xdg_popup : option proxy;
  win_aura_surface : option proxy;
  win_paired_surface : option sptr
}.

Definition set_win_unpaired (v : Z) (r : sl_window) : sl_window :=
  {| win_id := win_id r; win_frame_id := win_frame_id r;
     win_host_surface_id := win_host_surface_id r; win_unpaired := v;
     win_x := win_x r; win_y := win_y r; win_width := win_width r;
     win_height := win_height r; win_border_width := win_border_width r;
     win_depth := win_depth r; win_managed := win_managed r;
     win_realized := win_realized r; win_activated := win_activated r;
     win_fullscreen := win_fullscreen r;
     win_compositor_fullscreen := win_compositor_fullscreen r;
     win_maximized := win_maximized r;
     win_allow_resize := win_allow_resize r;
     win_transient_for := win_transient_for r;
     win_client_leader := win_client_leader r;
     win_decorated := win_decorated r; win_name := win_name r;
     win_clazz := win_clazz r; win_startup_id := win_startup_id r;
     win_app_id_property := win_app_id_property r;
     win_dark_frame := win_dark_frame r; win_size_flags := win_size_flags r;
     win_min_width := win_min_width r; win_min_height := win_min_height r;
     win_max_width := win_max_width r; win_max_height := win_max_height r;
     win_next_config := win_next_config r;
     win_pending_config := win_pending_config r;
     win_xdg_surface := win_xdg_surface r;
     win_xdg_toplevel := win_xdg_toplevel r;
     win_xdg_popup := win_xdg_popup r;
     win_aura_surface := win_aura_surface r;
     win_paired_surface := win_paired_surface r |}.
Definition set_win_x (v : Z) (r : sl_window) : sl_window :=
  {| win_id := win_id r; win_frame_id := win_frame_id r;
     win_host_surface_id := win_host_surface_id r;
     win_unpaired := win_unpaired r; win_x := v; win_y := win_y r;
     win_width := win_width r; win_height := win_height r;
     win_border_width := win_border_width r; win_depth := win_depth r;
     win_managed := win_managed r; win_realized := win_realized r;
     win_activated := win_activated r; win_fullscreen := win_fullscreen r;
     win_compositor_fullscreen := win_compositor_fullscreen r;
     win_maximized := win_maximized r;
     win_allow_resize := win_allow_resize r;
     win_transient_for := win_transient_for r;
     win_client_leader := win_client_leader r;
     win_decorated := win_decorated r; win_name := win_name r;
     win_clazz := win_clazz r; win_startup_id := win_startup_id r;
     win_app_id_property := win_app_id_property r;
     win_dark_frame := win_dark_frame r; win_size_flags := win_size_flags r;
     win_min_width := win_min_width r; win_min_height := win_min_height r;
     win_max_width := win_max_width r; win_max_height := win_max_height r;
     win_next_config := win_next_config r;
     win_pending_config := win_pending_config r;
     win_xdg_surface := win_xdg_surface r;
     win_xdg_toplevel := win_xdg_toplevel r;
     win_xdg_popup := win_xdg_popup r;
     win_aura_surface := win_aura_surface r;
     win_paired_surface := win_paired_surface r |}.
Definition set_win_y (v : Z) (r : sl_window) : sl_window :=
  {| win_id := win_id r; win_frame_id := win_frame_id r;
     win_host_surface_id := win_host_surface_id r;
     win_unpaired := win_unpaired r; win_x := win_x r; win_y := v;
     win_width := win_width r; win_height := win_height r;
     win_border_width := win_border_width r; win_depth := win_depth r;
     win_managed := win_managed r; win_realized := win_realized r;
     win_activated := win_activated r; win_fullscreen := win_fullscreen r;
     win_compositor_fullscreen := win_compositor_fullscreen r;
     win_maximized := win_maximized r;
     win_allow_resize := win_allow_resize r;
     win_transient_for := win_transient_for r;
     win_client_leader := win_client_leader r;
     win_decorated := win_decorated r; win_name := win_name r;
     win_clazz := win_clazz r; win_startup_id := win_startup_id r;
     win_app_id_property := win_app_id_property r;
     win_dark_frame := win_dark_frame r; win_size_flags := win_size_flags r;
     win_min_width := win_min_width r; win_min_height := win_min_height r;
     win_max_width := win_max_width r; win_max_height := win_max_height r;
     win_next_config := win_next_config r;
     win_pending_config := win_pending_config r;
     win_xdg_surface := win_xdg_surface r;
     win_xdg_toplevel := win_xdg_toplevel r;
     win_xdg_popup := win_xdg_popup r;
     win_aura_surface := win_aura_surface r;
     win_paired_surface := win_paired_surface r |}.
Definition set_win_width (v : Z) (r : sl_window) : sl_window :=
  {| win_id := win_id r; win_frame_id := win_frame_id r;
     win_host_surface_id := win_host_surface_id r;
     win_unpaired := win_unpaired r; win_x := win_x r; win_y := win_y r;
     win_width := v; win_height := win_height r;
     win_border_width := win_border_width r; win_depth := win_depth r;
     win_managed := win_managed r; win_realized := win_realized r;
     win_activated := win_activated r; win_fullscreen := win_fullscreen r;
     win_compositor_fullscreen := win_compositor_fullscreen r;
     win_maximized := win_maximized r;
     win_allow_resize := win_allow_resize r;
     win_transient_for := win_transient_for r;
     win_client_leader := win_client_leader r;
     win_decorated := win_decorated r; win_name := win_name r;
     win_clazz := win_clazz r; win_startup_id := win_startup_id r;
     win_app_id_property := win_app_id_property r;
     win_dark_frame := win_dark_frame r; win_size_flags := win_size_flags r;
     win_min_width := win_min_width r; win_min_height := win_min_height r;
     win_max_width := win_max_width r; win_max_height := win_max_height r;
     win_next_config := win_next_config r;
     win_pending_config := win_pending_config r;
     win_xdg_surface := win_xdg_surface r;
     win_xdg_toplevel := win_xdg_toplevel r;
     win_xdg_popup := win_xdg_popup r;
     win_aura_surface := win_aura_surface r;
     win_paired_surface := win_paired_surface r |}.
Definition set_win_height (v : Z) (r : sl_window) : sl_window :=
  {| win_id := win_id r; win_frame_id := win_frame_id r;
     win_host_surface_id := win_host_surface_id r;
     win_unpaired := win_unpaired r; win_x := win_x r; win_y := win_y r;
     win_width := win_width r; win_height := v;
     win_border_width := win_border_width r; win_depth := win_depth r;
     win_managed := win_managed r; win_realized := win_realized r;
     win_activated := win_activated r; win_fullscreen := win_fullscreen r;
     win_compositor_fullscreen := win_compositor_fullscreen r;
     win_maximized := win_maximized r;
     win_allow_resize := win_allow_resize r;
     win_transient_for := win_transient_for r;
     win_client_leader := win_client_leader r;
     win_decorated := win_decorated r; win_name := win_name r;
     win_clazz := win_clazz r; win_startup_id := win_startup_id r;
     win_app_id_property := win_app_id_property r;
     win_dark_frame := win_dark_frame r; win_size_flags := win_size_flags r;
     win_min_width := win_min_width r; win_min_height := win_min_height r;
     win_max_width := win_max_width r; win_max_height := win_max_height r;
     win_next_config := win_next_config r;
     win_pending_config := win_pending_config r;
     win_xdg_surface := win_xdg_surface r;
     win_xdg_toplevel := win_xdg_toplevel r;
     win_xdg_popup := win_xdg_popup r;
     win_aura_surface := win_aura_surface r;
     win_paired_surface := win_paired_surface r |}.
Definition set_win_border_width (v : Z) (r : sl_window) : sl_window :=
  {| win_id := win_id r; win_frame_id := win_frame_id r;
     win_host_surface_id := win_host_surface_id r;
     win_unpaired := win_unpaired r; win_x := win_x r; win_y := win_y r;
     win_width := win_width r; win_height := win_height r;
     win_border_width := v; win_depth := win_depth r;
     win_managed := win_managed r; win_realized := win_realized r;
     win_activated := win_activated r; win_fullscreen := win_fullscreen r;
     win_compositor_fullscreen := win_compositor_fullscreen r;
     win_maximized := win_maximized r;
     win_allow_resize := win_allow_resize r;
     win_transient_for := win_transient_for r;
     win_client_leader := win_client_leader r;
     win_decorated := win_decorated r; win_name := win_name r;
     win_clazz := win_clazz r; win_startup_id := win_startup_id r;
     win_app_id_property := win_app_id_property r;
     win_dark_frame := win_dark_frame r; win_size_flags := win_size_flags r;
     win_min_width := win_min_width r; win_min_height := win_min_height r;
     win_max_width := win_max_width r; win_max_height := win_max_height r;
     win_next_config := win_next_config r;
     win_pending_config := win_pending_config r;
     win_xdg_surface := win_xdg_surface r;
     win_xdg_toplevel := win_xdg_toplevel r;
     win_xdg_popup := win_xdg_popup r;
     win_aura_surface := win_aura_surface r;
     win_paired_surface := win_paired_surface r |}.
Definition set_win_depth (v : Z) (r : sl_window) : sl_window :=
  {| win_id := win_id r; win_frame_id := win_frame_id r;
     win_host_surface_id := win_host_surface_id r;
     win_unpaired := win_unpaired r; win_x := win_x r; win_y := win_y r;
     win_width := win_width r; win_height := win_height r;
     win_border_width := win_border_width r; win_depth := v;
     win_managed := win_managed r; win_realized := win_realized r;
     win_activated := win_activated r; win_fullscreen := win_fullscreen r;
     win_compositor_fullscreen := win_compositor_fullscreen r;
     win_maximized := win_maximized r;
     win_allow_resize := win_allow_resize r;
     win_transient_for := win_transient_for r;
     win_client_leader := win_client_leader r;
     win_decorated := win_decorated r; win_name := win_name r;
     win_clazz := win_clazz r; win_startup_id := win_startup_id r;
     win_app_id_property := win_app_id_property r;
     win_dark_frame := win_dark_frame r; win_size_flags := win_size_flags r;
     win_min_width := win_min_width r; win_min_height := win_min_height r;
     win_max_width := win_max_width r; win_max_height := win_max_height r;
     win_next_config := win_next_config r;
     win_pending_config := win_pending_config r;
     win_xdg_surface := win_xdg_surface r;
     win_xdg_toplevel := win_xdg_toplevel r;
     win_xdg_popup := win_xdg_popup r;
     win_aura_surface := win_aura_surface r;
     win_paired_surface := win_paired_surface r |}.
Definition set_win_realized (v : Z) (r : sl_window) : sl_window :=
  {| win_id := win_id r; win_frame_id := win_frame_id r;
     win_host_surface_id := win_host_surface_id r;
     win_unpaired := win_unpaired r; win_x := win_x r; win_y := win_y r;
     win_width := win_width r; win_height := win_height r;
     win_border_width := win_border_width r; win_depth := win_depth r;
     win_managed := win_managed r; win_realized := v;
     win_activated := win_activated r; win_fullscreen := win_fullscreen r;
     win_compositor_fullscreen := win_compositor_fullscreen r;
     win_maximized := win_maximized r;
     win_allow_resize := win_allow_resize r;
     win_transient_for := win_transient_for r;
     win_client_leader := win_client_leader r;
     win_decorated := win_decorated r; win_name := win_name r;
     win_clazz := win_clazz r; win_startup_id := win_startup_id r;
     win_app_id_property := win_app_id_property r;
     win_dark_frame := win_dark_frame r; win_size_flags := win_size_flags r;
     win_min_width := win_min_width r; win_min_height := win_min_height r;
     win_max_width := win_max_width r; win_max_height := win_max_height r;
     win_next_config := win_next_config r;
     win_pending_config := win_pending_config r;
     win_xdg_surface := win_xdg_surface r;
     win_xdg_toplevel := win_xdg_toplevel r;
     win_xdg_popup := win_xdg_popup r;
     win_aura_surface := win_aura_surface r;
     win_paired_surface := win_paired_surface r |}.
Definition set_win_activated (v : Z) (r : sl_window) : sl_window :=
  {| win_id := win_id r; win_frame_id := win_frame_id r;
     win_host_surface_id := win_host_surface_id r;
     win_unpaired := win_unpaired r; win_x := win_x r; win_y := win_y r;
     win_width := win_width r; win_height := win_height r;
     win_border_width := win_border_width r; win_depth := win_depth r;
     win_managed := win_managed r; win_realized := win_realized r;
     win_activated := v; win_fullscreen := win_fullscreen r;
     win_compositor_fullscreen := win_compositor_fullscreen r;
     win_maximized := win_maximized r;
     win_allow_resize := win_allow_resize r;
     win_transient_for := win_transient_for r;
     win_client_leader := win_client_leader r;
     win_decorated := win_decorated r; win_name := win_name r;
     win_clazz := win_clazz r; win_startup_id := win_startup_id r;
     win_app_id_property := win_app_id_property r;
     win_dark_frame := win_dark_frame r; win_size_flags := win_size_flags r;
     win_min_width := win_min_width r; win_min_height := win_min_height r;
     win_max_width := win_max_width r; win_max_height := win_max_height r;
     win_next_config := win_next_config r;
     win_pending_config := win_pending_config r;
     win_xdg_surface := win_xdg_surface r;
     win_xdg_toplevel := win_xdg_toplevel r;
     win_xdg_popup := win_xdg_popup r;
     win_aura_surface := win_aura_surface r;
     win_paired_surface := win_paired_surface r |}.
Definition set_win_compositor_fullscreen (v : Z) (r : sl_window) : sl_window :=
  {| win_id := win_id r; win_frame_id := win_frame_id r;
     win_host_surface_id := win_host_surface_id r;
     win_unpaired := win_unpaired r; win_x := win_x r; win_y := win_y r;
     win_width := win_width r; win_height := win_height r;
     win_border_width := win_border_width r; win_depth := win_depth r;
     win_managed := win_managed r; win_realized := win_realized r;
     win_activated := win_activated r; win_fullscreen := win_fullscreen r;
     win_compositor_fullscreen := v; win_maximized := win_maximized r;
     win_allow_resize := win_allow_resize r;
     win_transient_for := win_transient_for r;
     win_client_leader := win_client_leader r;
     win_decorated := win_decorated r; win_name := win_name r;
     win_clazz := win_clazz r; win_startup_id := win_startup_id r;
     win_app_id_property := win_app_id_property r;
     win_dark_frame := win_dark_frame r; win_size_flags := win_size_flags r;
     win_min_width := win_min_width r; win_min_height := win_min_height r;
     win_max_width := win_max_width r; win_max_height := win_max_height r;
     win_next_config := win_next_config r;
     win_pending_config := win_pending_config r;
     win_xdg_surface := win_xdg_surface r;
     win_xdg_toplevel := win_xdg_toplevel r;
     win_xdg_popup := win_xdg_popup r;
     win_aura_surface := win_aura_surface r;
     win_paired_surface := win_paired_surface r |}.
Definition set_win_allow_resize (v : Z) (r : sl_window) : sl_window :=
  {| win_id := win_id r; win_frame_id := win_frame_id r;
     win_host_surface_id := win_host_surface_id r;
     win_unpaired := win_unpaired r; win_x := win_x r; win_y := win_y r;
     win_width := win_width r; win_height := win_height r;
     win_border_width := win_border_width r; win_depth := win_depth r;
     win_managed := win_managed r; win_realized := win_realized r;
     win_activated := win_activated r; win_fullscreen := win_fullscreen r;
     win_compositor_fullscreen := win_compositor_fullscreen r;
     win_maximized := win_maximized r; win_allow_resize := v;
     win_transient_for := win_transient_for r;
     win_client_leader := win_client_leader r;
     win_decorated := win_decorated r; win_name := win_name r;
     win_clazz := win_clazz r; win_startup_id := win_startup_id r;
     win_app_id_property := win_app_id_property r;
     win_dark_frame := win_dark_frame r; win_size_flags := win_size_flags r;
     win_min_width := win_min_width r; win_min_height := win_min_height r;
     win_max_width := win_max_width r; win_max_height := win_max_height r;
     win_next_config := win_next_config r;
     win_pending_config := win_pending_config r;
     win_xdg_surface := win_xdg_surface r;
     win_xdg_toplevel := win_xdg_toplevel r;
     win_xdg_popup := win_xdg_popup r;
     win_aura_surface := win_aura_surface r;
     win_paired_surface := win_paired_surface r |}.
Definition set_win_next_config (v : sl_config) (r : sl_window) : sl_window :=
  {| win_id := win_id r; win_frame_id := win_frame_id r;
     win_host_surface_id := win_host_surface_id r;
     win_unpaired := win_unpaired r; win_x := win_x r; win_y := win_y r;
     win_width := win_width r; win_height := win_height r;
     win_border_width := win_border_width r; win_depth := win_depth r;
     win_managed := win_managed r; win_realized := win_realized r;
     win_activated := win_activated r; win_fullscreen := win_fullscreen r;
     win_compositor_fullscreen := win_compositor_fullscreen r;
     win_maximized := win_maximized r;
     win_allow_resize := win_allow_resize r;
     win_transient_for := win_transient_for r;
     win_client_leader := win_client_leader r;
     win_decorated := win_decorated r; win_name := win_name r;
     win_clazz := win_clazz r; win_startup_id := win_startup_id r;
     win_app_id_property := win_app_id_property r;
     win_dark_frame := win_dark_frame r; win_size_flags := win_size_flags r;
     win_min_width := win_min_width r; win_min_height := win_min_height r;
     win_max_width := win_max_width r; win_max_height := win_max_height r;
     win_next_config := v; win_pending_config := win_pending_config r;
     win_xdg_surface := win_xdg_surface r;
     win_xdg_toplevel := win_xdg_toplevel r;
     win_xdg_popup := win_xdg_popup r;
     win_aura_surface := win_aura_surface r;
     win_paired_surface := win_paired_surface r |}.
Definition set_win_pending_config (v : sl_config) (r : sl_window) : sl_window :=
  {| win_id := win_id r; win_frame_id := win_frame_id r;
     win_host_surface_id := win_host_surface_id r;
     win_unpaired := win_unpaired r; win_x := win_x r; win_y := win_y r;
     win_width := win_width r; win_height := win_height r;
     win_border_width := win_border_width r; win_depth := win_depth r;
     win_managed := win_managed r; win_realized := win_realized r;
     win_activated := win_activated r; win_fullscreen := win_fullscreen r;
     win_compositor_fullscreen := win_compositor_fullscreen r;
     win_maximized := win_maximized r;
     win_allow_resize := win_allow_resize r;
     win_transient_for := win_transient_for r;
     win_client_leader := win_client_leader r;
     win_decorated := win_decorated r; win_name := win_name r;
     win_clazz := win_clazz r; win_startup_id := win_startup_id r;
     win_app_id_property := win_app_id_property r;
     win_dark_frame := win_dark_frame r; win_size_flags := win_size_flags r;
     win_min_width := win_min_width r; win_min_height := win_min_height r;
     win_max_width := win_max_width r; win_max_height := win_max_height r;
     win_next_config := win_next_config r; win_pending_config := v;
     win_xdg_surface := win_xdg_surface r;
     win_xdg_toplevel := win_xdg_toplevel r;
     win_xdg_popup := win_xdg_popup r;
     win_aura_surface := win_aura_surface r;
     win_paired_surface := win_paired_surface r |}.
Definition set_win_xdg_surface (v : option proxy) (r : sl_window) : sl_window :=
  {| win_id := win_id r; win_frame_id := win_frame_id r;
     win_host_surface_id := win_host_surface_id r;
     win_unpaired := win_unpaired r; win_x := win_x r; win_y := win_y r;
     win_width := win_width r; win_height := win_height r;
     win_border_width := win_border_width r; win_depth := win_depth r;
     win_managed := win_managed r; win_realized := win_realized r;
     win_activated := win_activated r; win_fullscreen := win_fullscreen r;
     win_compositor_fullscreen := win_compositor_fullscreen r;
     win_maximized := win_maximized r;
     win_allow_resize := win_allow_resize r;
     win_transient_for := win_transient_for r;
     win_client_leader := win_client_leader r;
     win_decorated := win_decorated r; win_name := win_name r;
     win_clazz := win_clazz r; win_startup_id := win_startup_id r;
     win_app_id_property := win_app_id_property r;
     win_dark_frame := win_dark_frame r; win_size_flags := win_size_flags r;
     win_min_width := win_min_width r; win_min_height := win_min_height r;
     win_max_width := win_max_width r; win_max_height := win_max_height r;
     win_next_config := win_next_config r;
     win_pending_config := win_pending_config r; win_xdg_surface := v;
     win_xdg_toplevel := win_xdg_toplevel r;
     win_xdg_popup := win_xdg_popup r;
     win_aura_surface := win_aura_surface r;
     win_paired_surface := win_paired_surface r |}.
Definition set_win_xdg_toplevel (v : option proxy) (r : sl_window) : sl_window :=
  {| win_id := win_id r; win_frame_id := win_frame_id r;
     win_host_surface_id := win_host_surface_id r;
     win_unpaired := win_unpaired r; win_x := win_x r; win_y := win_y r;
     win_width := win_width r; win_height := win_height r;
     win_border_width := win_border_width r; win_depth := win_depth r;
     win_managed := win_managed r; win_realized := win_realized r;
     win_activated := win_activated r; win_fullscreen := win_fullscreen r;
     win_compositor_fullscreen := win_compositor_fullscreen r;
     win_maximized := win_maximized r;
     win_allow_resize := win_allow_resize r;
     win_transient_for := win_transient_for r;
     win_client_leader := win_client_leader r;
     win_decorated := win_decorated r; win_name := win_name r;
     win_clazz := win_clazz r; win_startup_id := win_startup_id r;
     win_app_id_property := win_app_id_property r;
     win_dark_frame := win_dark_frame r; win_size_flags := win_size_flags r;
     win_min_width := win_min_width r; win_min_height := win_min_height r;
     win_max_width := win_max_width r; win_max_height := win_max_height r;
     win_next_config := win_next_config r;
     win_pending_config := win_pending_config r;
     win_xdg_surface := win_xdg_surface r; win_xdg_toplevel := v;
     win_xdg_popup := win_xdg_popup r;
     win_aura_surface := win_aura_surface r;
     win_paired_surface := win_paired_surface r |}.
Definition set_win_xdg_popup (v : option proxy) (r : sl_window) : sl_window :=
  {| win_id := win_id r; win_frame_id := win_frame_id r;
     win_host_surface_id := win_host_surface_id r;
     win_unpaired := win_unpaired r; win_x := win_x r; win_y := win_y r;
     win_width := win_width r; win_height := win_height r;
     win_border_width := win_border_width r; win_depth := win_depth r;
     win_managed := win_managed r; win_realized := win_realized r;
     win_activated := win_activated r; win_fullscreen := win_fullscreen r;
     win_compositor_fullscreen := win_compositor_fullscreen r;
     win_maximized := win_maximized r;
     win_allow_resize := win_allow_resize r;
     win_transient_for := win_transient_for r;
     win_client_leader := win_client_leader r;
     win_decorated := win_decorated r; win_name := win_name r;
     win_clazz := win_clazz r; win_startup_id := win_startup_id r;
     win_app_id_property := win_app_id_property r;
     win_dark_frame := win_dark_frame r; win_size_flags := win_size_flags r;
     win_min_width := win_min_width r; win_min_height := win_min_height r;
     win_max_width := win_max_width r; win_max_height := win_max_height r;
     win_next_config := win_next_config r;
     win_pending_config := win_pending_config r;
     win_xdg_surface := win_xdg_surface r;
     win_xdg_toplevel := win_xdg_toplevel r; win_xdg_popup := v;
     win_aura_surface := win_aura_surface r;
     win_paired_surface := win_paired_surface r |}.
Definition set_win_aura_surface (v : option proxy) (r : sl_window) : sl_window :=
  {| win_id := win_id r; win_frame_id := win_frame_id r;
     win_host_surface_id := win_host_surface_id r;
     win_unpaired := win_unpaired r; win_x := win_x r; win_y := win_y r;
     win_width := win_width r; win_height := win_height r;
     win_border_width := win_border_width r; win_depth := win_depth r;
     win_managed := win_managed r; win_realized := win_realized r;
     win_activated := win_activated r; win_fullscreen := win_fullscreen r;
     win_compositor_fullscreen := win_compositor_fullscreen r;
     win_maximized := win_maximized r;
     win_allow_resize := win_allow_resize r;
     win_transient_for := win_transient_for r;
     win_client_leader := win_client_leader r;
     win_decorated := win_decorated r; win_name := win_name r;
     win_clazz := win_clazz r; win_startup_id := win_startup_id r;
     win_app_id_property := win_app_id_property r;
     win_dark_frame := win_dark_frame r; win_size_flags := win_size_flags r;
     win_min_width := win_min_width r; win_min_height := win_min_height r;
     win_max_width := win_max_width r; win_max_height := win_max_height r;
     win_next_config := win_next_config r;
     win_pending_config := win_pending_config r;
     win_xdg_surface := win_xdg_surface r;
     win_xdg_toplevel := win_xdg_toplevel r;
     win_xdg_popup := win_xdg_popup r; win_aura_surface := v;
     win_paired_surface := win_paired_surface r |}.
Definition set_win_paired_surface (v : option sptr) (r : sl_window) : sl_window :=
  {| win_id := win_id r; win_frame_id := win_frame_id r;
     win_host_surface_id := win_host_surface_id r;
     win_unpaired := win_unpaired r; win_x := win_x r; win_y := win_y r;
     win_width := win_width r; win_height := win_height r;
     win_border_width := win_border_width r; win_depth := win_depth r;
     win_managed := win_managed r; win_realized := win_realized r;
     win_activated := win_activated r; win_fullscreen := win_fullscreen r;
     win_compositor_fullscreen := win_compositor_fullscreen r;
     win_maximized := win_maximized r;
     win_allow_resize := win_allow_resize r;
     win_transient_for := win_transient_for r;
     win_client_leader := win_client_leader r;
     win_decorated := win_decorated r; win_name := win_name r;
     win_clazz := win_clazz r; win_startup_id := win_startup_id r;
     win_app_id_property := win_app_id_property r;
     win_dark_frame := win_dark_frame r; win_size_flags := win_size_flags r;
     win_min_width := win_min_width r; win_min_height := win_min_height r;
     win_max_width := win_max_width r; win_max_height := win_max_height r;
     win_next_config := win_next_config r;
     win_pending_config := win_pending_config r;
     win_xdg_surface := win_xdg_surface r;
     win_xdg_toplevel := win_xdg_toplevel r;
     win_xdg_popup := win_xdg_popup r;
     win_aura_surface := win_aura_surface r; win_paired_surface := v |}.

Record sl_context : Type := Build_sl_context {
  ctx_xwayland : Z;
  ctx_application_id : option string;
  ctx_vm_id : string;
  ctx_screen : xcb_screen_t;
  ctx_xdg_shell : option sl_xdg_shell;
  ctx_aura_shell : option sl_aura_shell;
  ctx_frame_color : Z;
  ctx_dark_frame_color : Z;
  ctx_fullscreen_mode : Z;
  ctx_atoms : atom_name -> Z;
  ctx_host_focus_window : option wptr;
  ctx_needs_set_input_focus : Z;
  ctx_windows : list wptr;
  ctx_unpaired_windows : list wptr;
  ctx_client_objects : gmap Z (option sptr)
}.

Definition set_ctx_host_focus_window (v : option wptr) (r : sl_context) : sl_context :=
  {| ctx_xwayland := ctx_xwayland r;
     ctx_application_id := ctx_application_id r; ctx_vm_id := ctx_vm_id r;
     ctx_screen := ctx_screen r; ctx_xdg_shell := ctx_xdg_shell r;
     ctx_aura_shell := ctx_aura_shell r;
     ctx_frame_color := ctx_frame_color r;
     ctx_dark_frame_color := ctx_dark_frame_color r;
     ctx_fullscreen_mode := ctx_fullscreen_mode r; ctx_atoms := ctx_atoms r;
     ctx_host_focus_window := v;
     ctx_needs_set_input_focus := ctx_needs_set_input_focus r;
     ctx_windows := ctx_windows r;
     ctx_unpaired_windows := ctx_unpaired_windows r;
     ctx_client_objects := ctx_client_objects r |}.
Definition set_ctx_needs_set_input_focus (v : Z) (r : sl_context) : sl_context :=
  {| ctx_xwayland := ctx_xwayland r;
     ctx_application_id := ctx_application_id r; ctx_vm_id := ctx_vm_id r;
     ctx_screen := ctx_screen r; ctx_xdg_shell := ctx_xdg_shell r;
     ctx_aura_shell := ctx_aura_shell r;
     ctx_frame_color := ctx_frame_color r;
     ctx_dark_frame_color := ctx_dark_frame_color r;
     ctx_fullscreen_mode := ctx_fullscreen_mode r; ctx_atoms := ctx_atoms r;
     ctx_host_focus_window := ctx_host_focus_window r;
     ctx_needs_set_input_focus := v; ctx_windows := ctx_windows r;
     ctx_unpaired_windows := ctx_unpaired_windows r;
     ctx_client_objects := ctx_client_objects r |}.
Definition set_ctx_windows (v : list wptr) (r : sl_context) : sl_context :=
  {| ctx_xwayland := ctx_xwayland r;
     ctx_application_id := ctx_application_id r; ctx_vm_id := ctx_vm_id r;
     ctx_screen := ctx_screen r; ctx_xdg_shell := ctx_xdg_shell r;
     ctx_aura_shell := ctx_aura_shell r;
     ctx_frame_color := ctx_frame_color r;
     ctx_dark_frame_color := ctx_dark_frame_color r;
     ctx_fullscreen_mode := ctx_fullscreen_mode r; ctx_atoms := ctx_atoms r;
     ctx_host_focus_window := ctx_host_focus_window r;
     ctx_needs_set_input_focus := ctx_needs_set_input_focus r;
     ctx_windows := v; ctx_unpaired_windows := ctx_unpaired_windows r;
     ctx_client_objects := ctx_client_objects r |}.
Definition set_ctx_unpaired_windows (v : list wptr) (r : sl_context) : sl_context :=
  {| ctx_xwayland := ctx_xwayland r;
     ctx_application_id := ctx_application_id r; ctx_vm_id := ctx_vm_id r;
     ctx_screen := ctx_screen r; ctx_xdg_shell := ctx_xdg_shell r;
     ctx_aura_shell := ctx_aura_shell r;
     ctx_frame_color := ctx_frame_color r;
     ctx_dark_frame_color := ctx_dark_frame_color r;
     ctx_fullscreen_mode := ctx_fullscreen_mode r; ctx_atoms := ctx_atoms r;
     ctx_host_focus_window := ctx_host_focus_window r;
     ctx_needs_set_input_focus := ctx_needs_set_input_focus r;
     ctx_windows := ctx_windows r; ctx_unpaired_windows := v;
     ctx_client_objects := ctx_client_objects r |}.

Record world : Type := Build_world {
  st_ctx : sl_context;
  st_windows : gmap wptr sl_window;
  st_surfaces : gmap sptr sl_host_surface;
  st_requests : list request;
  st_next_proxy : proxy
}.

Definition set_st_ctx (v : sl_context) (r : world) : world :=
  {| st_ctx := v; st_windows := st_windows r; st_surfaces := st_surfaces r;
     st_requests := st_requests r; st_next_proxy := st_next_proxy r |}.
Definition set_st_windows (v : gmap wptr sl_window) (r : world) : world :=
  {| st_ctx := st_ctx r; st_windows := v; st_surfaces := st_surfaces r;
     st_requests := st_requests r; st_next_proxy := st_next_proxy r |}.
Definition set_st_surfaces (v : gmap sptr sl_host_surface) (r : world) : world :=
  {| st_ctx := st_ctx r; st_windows := st_windows r; st_surfaces := v;
     st_requests := st_requests r; st_next_proxy := st_next_proxy r |}.
Definition set_st_requests (v : list request) (r : world) : world :=
  {| st_ctx := st_ctx r; st_windows := st_windows r;
     st_surfaces := st_surfaces r; st_requests := v;
     st_next_proxy := st_next_proxy r |}.
Definition set_st_next_proxy (v : proxy) (r : world) : world :=
  {| st_ctx := st_ctx r; st_windows := st_windows r;
     st_surfaces := st_surfaces r; st_requests := st_requests r;
     st_next_proxy := v |}.

(** ** The state and error monad *)

Inductive fault : Type :=
| AssertionFailed
| InvalidPointer
| OutOfBounds.

Inductive result (A : Type) : Type :=
| Ok (a : A) (s : world)
| Crash (f : fault) (s : world).
Arguments Ok {A} a s.
Arguments Crash {A} f s.

Definition M (A : Type) : Type := world -> result A.

#[global] Instance M_ret : MRet M := fun A a s => Ok a s.
#[global] Instance M_bind : MBind M := fun A B k m s =>
  match m s with
  | Ok a s' => k a s'
  | Crash f s' => Crash f s'
  end.

(** The state a run ends in, whether it returns or not. *)
Definition final {A} (r : result A) : world :=
  match r with Ok _ s => s | Crash _ s => s end.

Definition crash {A} (f : fault) : M A := fun s => Crash f s.

Definition assert (b : bool) : M unit :=
  if b then mret tt else crash AssertionFailed.

Definition deref {A} (p : option A) : M A :=
  match p with Some a => mret a | None => crash InvalidPointer end.

Definition get_ctx : M sl_context := fun s => Ok (st_ctx s) s.

Definition modify_ctx (f : sl_context -> sl_context) : M unit :=
  fun s => Ok tt (set_st_ctx (f (st_ctx s)) s).

Definition get_window (p : wptr) : M sl_window := fun s =>
  match st_windows s !! p with
  | Some w => Ok w s
  | None => Crash InvalidPointer s
  end.

Definition modify_window (p : wptr) (f : sl_window -> sl_window) : M unit :=
  fun s =>
  match st_windows s !! p with
  | Some w => Ok tt (set_st_windows (<[p := f w]> (st_windows s)) s)
  | None => Crash InvalidPointer s
  end.

Definition get_surface (p : sptr) : M sl_host_surface := fun s =>
  match st_surfaces s !! p with
  | Some h => Ok h s
  | None => Crash InvalidPointer s
  end.

Definition put_surface (p : sptr) (h : sl_host_surface) : M unit :=
  fun s => Ok tt (set_st_surfaces (<[p := h]> (st_surfaces s)) s).

(** An outbound call is appended to the log. *)
Definition send (r : request) : M unit :=
  fun s => Ok tt (set_st_requests (st_requests s ++ [r]) s).

(** A constructor request of the compositor protocol returns a new proxy. *)
Definition new_proxy : M proxy :=
  fun s => Ok (st_next_proxy s) (set_st_next_proxy (S (st_next_proxy s)) s).

Definition when (b : bool) (m : M unit) : M unit :=
  if b then m else mret tt.

(** [wl_client_get_object] followed by [wl_resource_get_user_data]: the
    outer option is the resource, the inner one its user data. *)
Definition wl_client_get_object (id : Z) : M (option (option sptr)) :=
  c ← get_ctx; mret (ctx_client_objects c !! id).

(** [mask & bit], as a C condition. *)
Definition has_bit (mask bit : Z) : bool := truthy (Z.land mask bit).

(** [a[i]] for an index inside the array. *)
Definition array_get (a : list Z) (i : nat) : Z := default 0 (a !! i).

(** ** [sl_xasprintf] on the templates of the file *)

Inductive printf_arg : Type :=
| arg_s (s : string)
| arg_d (z : Z).

(** A [printf] restricted to the directives the templates use: [%s] copies
    a string argument and [%d] prints an argument as a signed 32-bit
    decimal number. *)
Fixpoint sl_xasprintf (format : string) (args : list printf_arg) : string :=
  match format with
  | EmptyString => EmptyString
  | String "%"%char (String "s"%char rest) =>
      match args with
      | arg_s s :: args' => s +:+ sl_xasprintf rest args'
      | _ => sl_xasprintf rest (tail args)
      end
  | String "%"%char (String "d"%char rest) =>
      match args with
      | arg_d z :: args' => pretty (to_i32 z) +:+ sl_xasprintf rest args'
      | _ => sl_xasprintf rest (tail args)
      end
  | String c rest => String c (sl_xasprintf rest args)
  end.

Definition APPLICATION_ID_FORMAT_PREFIX : string := "org.chromium.guest_os.%s".
Definition XID_APPLICATION_ID_FORMAT : string :=
  APPLICATION_ID_FORMAT_PREFIX +:+ ".xid.%d".
Definition WM_CLIENT_LEADER_APPLICATION_ID_FORMAT : string :=
  APPLICATION_ID_FORMAT_PREFIX +:+ ".wmclientleader.%d".
Definition WM_CLASS_APPLICATION_ID_FORMAT : string :=
  APPLICATION_ID_FORMAT_PREFIX +:+ ".wmclass.%s".
Definition X11_PROPERTY_APPLICATION_ID_FORMAT : string :=
  APPLICATION_ID_FORMAT_PREFIX +:+ ".xprop.%s".

(** ** The functions of [sommelier-window.cc] *)

Section Sommelier.

(** Whether the build defines [COMMIT_LOOP_FIX]. *)
Variable COMMIT_LOOP_FIX : bool.

(** The coordinate transform of [sommelier-transform.cc], which is not part
    of the sources: the two conversions are functions of the context, the
    surface (null or not) and a pair of integers; the rescale request
    updates the surface it is given. *)
Variable sl_transform_host_to_guest :
  sl_context -> option sl_host_surface -> Z -> Z -> Z * Z.
Variable sl_transform_guest_to_host :
  sl_context -> option sl_host_surface -> Z -> Z -> Z * Z.
Variable sl_transform_try_window_scale :
  sl_context -> sl_host_surface -> Z -> Z -> sl_host_surface.

(** The depth in the reply of the X server to [xcb_get_geometry] on a
    window, [None] when there is no reply. *)
Variable xcb_get_geometry_reply : Z -> option Z.

(** The surface behind a nullable [sl_host_surface*]. *)
Definition surface_at (p : option sptr) : M (option sl_host_surface) :=
  match p with
  | None => mret None
  | Some sp => h ← get_surface sp; mret (Some h)
  end.

Definition transform_host_to_guest
    (window : wptr) (a b : Z) : M (Z * Z) :=
  w ← get_window window;
  c ← get_ctx;
  h ← surface_at (win_paired_surface w);
  mret (sl_transform_host_to_guest c h a b).

Definition transform_guest_to_host
    (window : wptr) (a b : Z) : M (Z * Z) :=
  w ← get_window window;
  c ← get_ctx;
  h ← surface_at (win_paired_surface w);
  mret (sl_transform_guest_to_host c h a b).

Definition transform_try_window_scale
    (surface : sptr) (width height : Z) : M unit :=
  c ← get_ctx;
  h ← get_surface surface;
  put_surface surface (sl_transform_try_window_scale c h width height).

(** [sl_send_configure_notify], lines 112-130. *)
Definition sl_send_configure_notify (window : wptr) : M unit :=
  w ← get_window window;
  send (xcb_send_event 0 (win_id w) XCB_EVENT_MASK_STRUCTURE_NOTIFY
          (xcb_configure_notify_event
             XCB_CONFIGURE_NOTIFY (win_id w) (win_id w) XCB_WINDOW_NONE
             (to_i16 (win_x w)) (to_i16 (win_y w))
             (to_u16 (win_width w)) (to_u16 (win_height w))
             (to_u16 (win_border_width w)) 0)).

(** [sl_configure_window], lines 55-110. The locals [x], [y] and [i] are
    threaded through the five masked reads. [xcb_configure_window] takes its
    mask as a [uint16_t]: the 32-bit [next_config.mask] reaches the frame
    request truncated, while the tests of the mask are on the full value. *)
Definition sl_configure_window (window : wptr) : M unit :=
  w ← get_window window;
  assert (negb (truthy (cfg_serial (win_pending_config w))));;
  when (truthy (cfg_mask (win_next_config w))) (
    let next := win_next_config w in
    let mask := cfg_mask next in
    let i := 0%nat in
    send (xcb_configure_window (win_frame_id w) (to_u16 mask)
            (cfg_values next));;
    let '(x, i) :=
      if has_bit mask XCB_CONFIG_WINDOW_X
      then (to_i32 (array_get (cfg_values next) i), S i) else (win_x w, i) in
    let '(y, i) :=
      if has_bit mask XCB_CONFIG_WINDOW_Y
      then (to_i32 (array_get (cfg_values next) i), S i) else (win_y w, i) in
    i ← (if has_bit mask XCB_CONFIG_WINDOW_WIDTH
         then modify_window window
                (set_win_width (to_i32 (array_get (cfg_values next) i)));;
              mret (S i)
         else mret i);
    i ← (if has_bit mask XCB_CONFIG_WINDOW_HEIGHT
         then modify_window window
                (set_win_height (to_i32 (array_get (cfg_values next) i)));;
              mret (S i)
         else mret i);
    when (has_bit mask XCB_CONFIG_WINDOW_BORDER_WIDTH)
      (modify_window window
         (set_win_border_width (to_i32 (array_get (cfg_values next) i))));;
    w ← get_window window;
    assert (truthy (win_managed w));;
    send (xcb_configure_window (win_id w)
            (Z.lor XCB_CONFIG_WINDOW_X (Z.lor XCB_CONFIG_WINDOW_Y
               (Z.lor XCB_CONFIG_WINDOW_WIDTH (Z.lor XCB_CONFIG_WINDOW_HEIGHT
                  XCB_CONFIG_WINDOW_BORDER_WIDTH))))
            [0; 0; win_width w; win_height w; win_border_width w]);;
    when (negb (x =? win_x w) || negb (y =? win_y w)) (
      modify_window window (set_win_x x);;
      modify_window window (set_win_y y);;
      sl_send_configure_notify window));;
  w ← get_window window;
  c ← get_ctx;
  when (truthy (win_managed w))
    (send (xcb_change_property XCB_PROP_MODE_REPLACE (win_id w)
             (ctx_atoms c ATOM_NET_WM_STATE) XCB_ATOM_ATOM 32
             (cfg_states_length (win_next_config w))
             (cfg_states (win_next_config w))));;
  modify_window window (fun w => set_win_pending_config (win_next_config w) w);;
  modify_window window
    (fun w => set_win_next_config (set_cfg_serial 0 (win_next_config w)) w);;
  modify_window window
    (fun w => set_win_next_config (set_cfg_mask 0 (win_next_config w)) w);;
  modify_window window
    (fun w =>
       set_win_next_config (set_cfg_states_length 0 (win_next_config w)) w).

(** [sl_process_pending_configure_acks], lines 132-167; the result is the
    returned [int]. *)
Definition sl_process_pending_configure_acks
    (window : wptr) (host_surface : option sptr) : M Z :=
  w ← get_window window;
  if negb (truthy (cfg_serial (win_pending_config w))) then mret 0
  else if COMMIT_LOOP_FIX
          && negb (truthy (cfg_mask (win_pending_config w)))
          && (cfg_states_length (win_pending_config w) =? 0)
  then mret 0
  else
    mismatch ←
      (match host_surface with
       | Some hp =>
           if truthy (win_managed w) then
             h ← get_surface hp;
             let width := to_u32 (win_width w + win_border_width w * 2) in
             let height := to_u32 (win_height w + win_border_width w * 2) in
             mret (negb (width =? surf_contents_width h)
                   || negb (height =? surf_contents_height h))
           else mret false
       | None => mret false
       end);
    if (mismatch : bool) then mret 0
    else
      match win_xdg_surface w with
      | Some xdg_surface =>
          send (xdg_surface_ack_configure xdg_surface
                  (cfg_serial (win_pending_config w)))
      | None => mret tt
      end;;
      modify_window window
        (fun w =>
           set_win_pending_config (set_cfg_serial 0 (win_pending_config w)) w);;
      w ← get_window window;
      when (truthy (cfg_serial (win_next_config w)))
        (sl_configure_window window);;
      mret 1.

(** [sl_commit], lines 169-174. *)
Definition sl_commit (window : wptr) (host_surface : option sptr) : M unit :=
  acked ← sl_process_pending_configure_acks window host_surface;
  when (truthy acked)
    (match host_surface with
     | Some hp => h ← get_surface hp; send (wl_surface_commit (surf_proxy h))
     | None => mret tt
     end).

(** The popup listener, lines 176-187: both callbacks are empty. *)
Definition sl_internal_xdg_popup_configure
    (window : wptr) (x y width height : Z) : M unit := mret tt.
Definition sl_internal_xdg_popup_done (window : wptr) : M unit := mret tt.

(** [sl_internal_xdg_surface_configure], lines 189-210; [window] is the
    user data of the shell surface. *)
Definition sl_internal_xdg_surface_configure
    (window : wptr) (serial : Z) : M unit :=
  modify_window window
    (fun w => set_win_next_config (set_cfg_serial serial (win_next_config w)) w);;
  w ← get_window window;
  when (negb (truthy (cfg_serial (win_pending_config w)))) (
    host_resource ← wl_client_get_object (win_host_surface_id w);
    let host_surface :=
      match host_resource with
      | Some user_data => user_data
      | None => None
      end in
    sl_configure_window window;;
    sl_commit window host_surface).

(** [window->next_config.values[i] = v] and
    [window->next_config.states[i] = v]. The source does not test the index.
    A store past the end of the array is undefined behaviour in C, and what
    it overwrites depends on the layout of the structure; the embedding does
    not follow the run past such a store: it ends it there in
    [Crash OutOfBounds]. A run that ends so is a run of the code that makes
    a store past the end of the array, whatever the code does after it; a
    run that does not is a run all of whose stores are inside the arrays. *)
Definition store_value (window : wptr) (i : nat) (v : Z) : M unit :=
  if (i <? CONFIG_VALUES_CAPACITY)%nat then
    modify_window window (fun w =>
      set_win_next_config
        (set_cfg_values (<[i := to_u32 v]> (cfg_values (win_next_config w)))
           (win_next_config w)) w)
  else crash OutOfBounds.

Definition store_state (window : wptr) (i : nat) (v : Z) : M unit :=
  if (i <? CONFIG_STATES_CAPACITY)%nat then
    modify_window window (fun w =>
      set_win_next_config
        (set_cfg_states (<[i := to_u32 v]> (cfg_states (win_next_config w)))
           (win_next_config w)) w)
  else crash OutOfBounds.

(** The size block of the toplevel configure callback, lines 231-276. *)
Definition toplevel_configure_size
    (window : wptr) (width height : Z) : M unit :=
  w ← get_window window;
  let i := 0%nat in
  paired ← surface_at (win_paired_surface w);
  match win_paired_surface w, paired with
  | Some sp, Some h =>
      when (truthy (surf_has_own_scale h)
            && (negb (width =? surf_cached_logical_width h)
                || negb (height =? surf_cached_logical_height h)))
        (transform_try_window_scale sp (win_width w) (win_height w))
  | _, _ => mret tt
  end;;
  '(width_in_pixels, height_in_pixels) ←
    transform_host_to_guest window width height;
  modify_window window (fun w =>
    set_win_next_config
      (set_cfg_mask
         (Z.lor XCB_CONFIG_WINDOW_WIDTH
            (Z.lor XCB_CONFIG_WINDOW_HEIGHT XCB_CONFIG_WINDOW_BORDER_WIDTH))
         (win_next_config w)) w);;
  i ← (if negb (has_bit (win_size_flags w) (Z.lor US_POSITION P_POSITION))
       then
         modify_window window (fun w =>
           set_win_next_config
             (set_cfg_mask
                (Z.lor (cfg_mask (win_next_config w))
                   (Z.lor XCB_CONFIG_WINDOW_X XCB_CONFIG_WINDOW_Y))
                (win_next_config w)) w);;
         w ← get_window window;
         paired ← surface_at (win_paired_surface w);
         c ← get_ctx;
         match paired ≫= surf_output with
         | Some output =>
             store_value window i
               (out_virt_x output
                + (out_width output - width_in_pixels) `quot` 2);;
             store_value window (S i)
               (out_virt_y output
                + (out_height output - height_in_pixels) `quot` 2)
         | None =>
             store_value window i
               (screen_width_in_pixels (ctx_screen c) `quot` 2
                - width_in_pixels `quot` 2);;
             store_value window (S i)
               (screen_height_in_pixels (ctx_screen c) `quot` 2
                - height_in_pixels `quot` 2)
         end;;
         mret (S (S i))
       else mret i);
  store_value window i width_in_pixels;;
  store_value window (S i) height_in_pixels;;
  store_value window (S (S i)) 0.

(** The loop over the proposed states, lines 280-301; [i] and [activated]
    are the locals of the callback. *)
Fixpoint toplevel_configure_states
    (window : wptr) (states : list Z) (i : nat) (activated : Z)
    : M (nat * Z) :=
  match states with
  | [] => mret (i, activated)
  | state :: states' =>
      c ← get_ctx;
      i ← (if state =? XDG_TOPLEVEL_STATE_FULLSCREEN then
             modify_window window (set_win_allow_resize 0);;
             store_state window i (ctx_atoms c ATOM_NET_WM_STATE_FULLSCREEN);;
             modify_window window (set_win_compositor_fullscreen 1);;
             mret (S i)
           else mret i);
      i ← (if state =? XDG_TOPLEVEL_STATE_MAXIMIZED then
             modify_window window (set_win_allow_resize 0);;
             store_state window i
               (ctx_atoms c ATOM_NET_WM_STATE_MAXIMIZED_VERT);;
             store_state window (S i)
               (ctx_atoms c ATOM_NET_WM_STATE_MAXIMIZED_HORZ);;
             mret (S (S i))
           else mret i);
      '(i, activated) ←
          (if state =? XDG_TOPLEVEL_STATE_ACTIVATED then
             store_state window i (ctx_atoms c ATOM_NET_WM_STATE_FOCUSED);;
             mret (S i, 1)
           else mret (i, activated));
      when (state =? XDG_TOPLEVEL_STATE_RESIZING)
        (modify_window window (set_win_allow_resize 0));;
      toplevel_configure_states window states' i activated
  end.

(** [sl_internal_xdg_toplevel_configure], lines 215-312; [window] is the
    user data of the toplevel. *)
Definition sl_internal_xdg_toplevel_configure
    (window : wptr) (width height : Z) (states : list Z) : M unit :=
  w ← get_window window;
  if negb (truthy (win_managed w)) then mret tt
  else
    when (truthy width && truthy height)
      (toplevel_configure_size window width height);;
    modify_window window (set_win_allow_resize 1);;
    modify_window window (set_win_compositor_fullscreen 0);;
    '(i, activated) ← toplevel_configure_states window states 0%nat 0;
    w ← get_window window;
    when (negb (activated =? win_activated w)) (
      c ← get_ctx;
      when (negb (activated
                  =? int_of_bool
                       (bool_decide (ctx_host_focus_window c = Some window))))
        (modify_ctx (set_ctx_host_focus_window
                       (if truthy activated then Some window else None));;
         modify_ctx (set_ctx_needs_set_input_focus 1));;
      modify_window window (set_win_activated activated));;
    modify_window window (fun w =>
      set_win_next_config
        (set_cfg_states_length (Z.of_nat i) (win_next_config w)) w).

(** [sl_internal_xdg_toplevel_close], lines 314-329. *)
Definition sl_internal_xdg_toplevel_close (window : wptr) : M unit :=
  w ← get_window window;
  c ← get_ctx;
  send (xcb_send_event 0 (win_id w) XCB_EVENT_MASK_NO_EVENT
          (xcb_client_message_event XCB_CLIENT_MESSAGE 32 (win_id w)
             (ctx_atoms c ATOM_WM_PROTOCOLS)
             (ctx_atoms c ATOM_WM_DELETE_WINDOW) XCB_CURRENT_TIME)).

(** [sl_update_application_id], lines 333-365. *)
Definition sl_update_application_id (window : wptr) : M unit :=
  w ← get_window window;
  c ← get_ctx;
  match win_aura_surface w with
  | None => mret tt
  | Some aura_surface =>
      match ctx_application_id c with
      | Some application_id =>
          send (zaura_surface_set_application_id aura_surface application_id)
      | None =>
          when (negb (truthy (ctx_xwayland c)) || truthy (win_managed w)) (
            let application_id_str :=
              if negb (String.eqb (win_app_id_property w) "") then
                sl_xasprintf X11_PROPERTY_APPLICATION_ID_FORMAT
                  [arg_s (ctx_vm_id c); arg_s (win_app_id_property w)]
              else
                match win_clazz w with
                | Some clazz =>
                    sl_xasprintf WM_CLASS_APPLICATION_ID_FORMAT
                      [arg_s (ctx_vm_id c); arg_s clazz]
                | None =>
                    if negb (win_client_leader w =? XCB_WINDOW_NONE) then
                      sl_xasprintf WM_CLIENT_LEADER_APPLICATION_ID_FORMAT
                        [arg_s (ctx_vm_id c); arg_d (win_client_leader w)]
                    else
                      sl_xasprintf XID_APPLICATION_ID_FORMAT
                        [arg_s (ctx_vm_id c); arg_d (win_id w)]
                end in
            send (zaura_surface_set_application_id
                    aura_surface application_id_str))
      end
  end.

(** [wl_list_remove(&window->link)] and [wl_list_insert(list, &window->link)]
    on the two window lists of the context. *)
Definition wl_list_remove (window : wptr) : M unit :=
  modify_ctx (fun c =>
    set_ctx_windows (filter (fun q => q ≠ window) (ctx_windows c))
      (set_ctx_unpaired_windows
         (filter (fun q => q ≠ window) (ctx_unpaired_windows c)) c)).

Definition wl_list_insert_windows (window : wptr) : M unit :=
  modify_ctx (fun c => set_ctx_windows (window :: ctx_windows c) c).

Definition wl_list_insert_unpaired_windows (window : wptr) : M unit :=
  modify_ctx (fun c =>
    set_ctx_unpaired_windows (window :: ctx_unpaired_windows c) c).

(** The storage of a destroyed window is released. *)
Definition free_window (window : wptr) : M unit :=
  fun s => Ok tt (set_st_windows (delete window (st_windows s)) s).

(** The destructor, lines 42-53. *)
Definition sl_window_destroy (window : wptr) : M unit :=
  c ← get_ctx;
  when (bool_decide (ctx_host_focus_window c = Some window)) (
    modify_ctx (set_ctx_host_focus_window None);;
    modify_ctx (set_ctx_needs_set_input_focus 1));;
  wl_list_remove window;;
  free_window window.

(** [sl_window_update], lines 374-386: the pairing transition. The result
    is [host_resource], given by its user data. *)
Definition window_update_pairing
    (window : wptr) : M (option (option sptr)) :=
  w ← get_window window;
  if truthy (win_host_surface_id w) then
    host_resource ← wl_client_get_object (win_host_surface_id w);
    when (is_set host_resource && truthy (win_unpaired w)) (
      wl_list_remove window;;
      wl_list_insert_windows window;;
      modify_window window (set_win_unpaired 0));;
    mret host_resource
  else
    when (negb (truthy (win_unpaired w))) (
      wl_list_remove window;;
      wl_list_insert_unpaired_windows window;;
      modify_window window (set_win_unpaired 1);;
      modify_window window (set_win_paired_surface None));;
    mret None.

(** Lines 388-407: without a host resource every compositor-side handle is
    destroyed and [realized] is cleared. *)
Definition window_update_teardown (window : wptr) : M unit :=
  w ← get_window window;
  match win_aura_surface w with
  | Some aura_surface =>
      send (zaura_surface_destroy aura_surface);;
      modify_window window (set_win_aura_surface None)
  | None => mret tt
  end;;
  match win_xdg_toplevel w with
  | Some toplevel =>
      send (xdg_toplevel_destroy toplevel);;
      modify_window window (set_win_xdg_toplevel None)
  | None => mret tt
  end;;
  match win_xdg_popup w with
  | Some popup =>
      send (xdg_popup_destroy popup);;
      modify_window window (set_win_xdg_popup None)
  | None => mret tt
  end;;
  match win_xdg_surface w with
  | Some surface =>
      send (xdg_surface_destroy surface);;
      modify_window window (set_win_xdg_surface None)
  | None => mret tt
  end;;
  modify_window window (set_win_realized 0).

(** Lines 409-421: the surface behind the resource and the asserts. *)
Definition window_update_bind
    (window : wptr) (user_data : option sptr) : M sptr :=
  assert (is_set user_data);;
  host_surface ← deref user_data;
  h ← get_surface host_surface;
  assert (negb (truthy (surf_has_role h)));;
  w ← get_window window;
  when (negb (truthy (win_unpaired w))) (
    modify_window window (set_win_paired_surface (Some host_surface));;
    transform_try_window_scale host_surface (win_width w) (win_height w));;
  c ← get_ctx;
  assert (is_set (ctx_xdg_shell c));;
  assert (is_set (ctx_xdg_shell c ≫= xdg_shell_internal));;
  mret host_surface.

(** Lines 427-433: the first window of the list whose id is
    [transient_for] ends the scan, and is the parent if it has a toplevel. *)
Fixpoint find_transient_for
    (transient_for : Z) (siblings : list wptr) : M (option wptr) :=
  match siblings with
  | [] => mret None
  | sibling :: siblings' =>
      sw ← get_window sibling;
      if win_id sw =? transient_for then
        mret (if is_set (win_xdg_toplevel sw) then Some sibling else None)
      else find_transient_for transient_for siblings'
  end.

(** Lines 447-471: the realized sibling with the latest event serial. *)
Fixpoint find_last_event_parent
    (window : wptr) (siblings : list wptr)
    (parent : option wptr) (parent_last_event_serial : Z)
    : M (option wptr) :=
  match siblings with
  | [] => mret parent
  | sibling :: siblings' =>
      sw ← get_window sibling;
      if negb (truthy (win_realized sw)) then
        find_last_event_parent window siblings' parent parent_last_event_serial
      else
        sibling_host_resource ← wl_client_get_object (win_host_surface_id sw);
        match sibling_host_resource with
        | None =>
            find_last_event_parent window siblings'
              parent parent_last_event_serial
        | Some user_data =>
            sibling_host_surface ← deref user_data;
            sh ← get_surface sibling_host_surface;
            w ← get_window window;
            if parent_last_event_serial >? surf_last_event_serial sh then
              find_last_event_parent window siblings'
                parent parent_last_event_serial
            else if win_host_surface_id sw =? win_host_surface_id w then
              find_last_event_parent window siblings'
                parent parent_last_event_serial
            else
              find_last_event_parent window siblings'
                (Some sibling) (surf_last_event_serial sh)
        end
  end.

(** Lines 423-472: parent resolution. *)
Definition window_update_parent (window : wptr) : M (option wptr) :=
  w ← get_window window;
  c ← get_ctx;
  parent ←
    (if truthy (win_managed w)
        && negb (win_transient_for w =? XCB_WINDOW_NONE)
     then find_transient_for (win_transient_for w) (ctx_windows c)
     else mret None);
  if negb (truthy (win_managed w))
     || (negb (is_set parent)
         && negb (win_transient_for w =? XCB_WINDOW_NONE))
  then find_last_event_parent window (ctx_windows c) parent 0
  else mret parent.

(** Lines 474-488: the depth query and the shell surface. *)
Definition window_update_shell_surface
    (window : wptr) (host_surface : sptr) : M unit :=
  w ← get_window window;
  when (negb (truthy (win_depth w))) (
    send (xcb_get_geometry (win_id w));;
    match xcb_get_geometry_reply (win_id w) with
    | Some depth => modify_window window (set_win_depth depth)
    | None => mret tt
    end);;
  when (negb (is_set (win_xdg_surface w))) (
    c ← get_ctx;
    internal ← deref (ctx_xdg_shell c ≫= xdg_shell_internal);
    h ← get_surface host_surface;
    surface ← new_proxy;
    send (xdg_wm_base_get_xdg_surface internal (surf_proxy h) surface);;
    modify_window window (set_win_xdg_surface (Some surface));;
    send (xdg_surface_add_listener surface window)).

(** Lines 490-516: the aura-shell decoration. *)
Definition window_update_aura
    (window : wptr) (host_surface : sptr) : M unit :=
  c ← get_ctx;
  match ctx_aura_shell c with
  | None => mret tt
  | Some aura_shell =>
      w ← get_window window;
      when (negb (is_set (win_aura_surface w))) (
        h ← get_surface host_surface;
        surface ← new_proxy;
        send (zaura_shell_get_aura_surface
                (aura_shell_internal aura_shell) (surf_proxy h) surface);;
        modify_window window (set_win_aura_surface (Some surface)));;
      w ← get_window window;
      aura_surface ← deref (win_aura_surface w);
      send (zaura_surface_set_frame aura_surface
              (if truthy (win_decorated w) then ZAURA_SURFACE_FRAME_TYPE_NORMAL
               else if win_depth w =? 32 then ZAURA_SURFACE_FRAME_TYPE_NONE
               else ZAURA_SURFACE_FRAME_TYPE_SHADOW));;
      let frame_color :=
        if truthy (win_dark_frame w)
        then ctx_dark_frame_color c else ctx_frame_color c in
      send (zaura_surface_set_frame_colors
              aura_surface frame_color frame_color);;
      send (zaura_surface_set_startup_id aura_surface (win_startup_id w));;
      sl_update_application_id window;;
      when (aura_shell_version aura_shell
            >=? ZAURA_SURFACE_SET_FULLSCREEN_MODE_SINCE_VERSION)
        (send (zaura_surface_set_fullscreen_mode
                 aura_surface (ctx_fullscreen_mode c)))
  end.

(** Lines 521-551: the toplevel role. *)
Definition window_update_toplevel
    (window : wptr) (parent : option wptr) : M unit :=
  w ← get_window window;
  when (negb (is_set (win_xdg_toplevel w))) (
    surface ← deref (win_xdg_surface w);
    toplevel ← new_proxy;
    send (xdg_surface_get_toplevel surface toplevel);;
    modify_window window (set_win_xdg_toplevel (Some toplevel));;
    send (xdg_toplevel_add_listener toplevel window));;
  w ← get_window window;
  toplevel ← deref (win_xdg_toplevel w);
  match parent with
  | Some parent =>
      pw ← get_window parent;
      send (xdg_toplevel_set_parent toplevel (win_xdg_toplevel pw))
  | None => mret tt
  end;;
  match win_name w with
  | Some name => send (xdg_toplevel_set_title toplevel name)
  | None => mret tt
  end;;
  when (has_bit (win_size_flags w) P_MIN_SIZE) (
    '(minw, minh) ←
      transform_guest_to_host window (win_min_width w) (win_min_height w);
    send (xdg_toplevel_set_min_size toplevel minw minh));;
  when (has_bit (win_size_flags w) P_MAX_SIZE) (
    '(maxw, maxh) ←
      transform_guest_to_host window (win_max_width w) (win_max_height w);
    send (xdg_toplevel_set_max_size toplevel maxw maxh));;
  when (truthy (win_maximized w)) (send (xdg_toplevel_set_maximized toplevel));;
  when (truthy (win_fullscreen w))
    (send (xdg_toplevel_set_fullscreen toplevel)).

(** Lines 552-572: the popup role, positioned against [parent]. *)
Definition window_update_popup (window parent : wptr) : M unit :=
  w ← get_window window;
  pw ← get_window parent;
  c ← get_ctx;
  internal ← deref (ctx_xdg_shell c ≫= xdg_shell_internal);
  positioner ← new_proxy;
  send (xdg_wm_base_create_positioner internal positioner);;
  '(diffx, diffy) ←
    transform_guest_to_host window
      (win_x w - win_x pw) (win_y w - win_y pw);
  send (xdg_positioner_set_anchor positioner XDG_POSITIONER_ANCHOR_TOP_LEFT);;
  send (xdg_positioner_set_gravity
          positioner XDG_POSITIONER_GRAVITY_BOTTOM_RIGHT);;
  send (xdg_positioner_set_anchor_rect positioner diffx diffy 1 1);;
  surface ← deref (win_xdg_surface w);
  popup ← new_proxy;
  send (xdg_surface_get_popup surface (win_xdg_surface pw) positioner popup);;
  modify_window window (set_win_xdg_popup (Some popup));;
  send (xdg_popup_add_listener popup window);;
  send (xdg_positioner_destroy positioner).

(** Lines 518-572: role assignment. *)
Definition window_update_role
    (window : wptr) (parent : option wptr) : M unit :=
  c ← get_ctx;
  w ← get_window window;
  match parent with
  | Some p =>
      if truthy (ctx_xwayland c) then window_update_toplevel window parent
      else when (negb (is_set (win_xdg_popup w)))
             (window_update_popup window p)
  | None => window_update_toplevel window parent
  end.

(** Lines 574-583: the parent-relative offset of the aura surface. *)
Definition window_update_aura_parent
    (window : wptr) (parent : option wptr) : M unit :=
  c ← get_ctx;
  w ← get_window window;
  match parent with
  | Some parent =>
      when (has_bit (win_size_flags w) (Z.lor US_POSITION P_POSITION)
            && is_set (ctx_aura_shell c)) (
        pw ← get_window parent;
        '(diffx, diffy) ←
          transform_guest_to_host window
            (win_x w - win_x pw) (win_y w - win_y pw);
        aura_surface ← deref (win_aura_surface w);
        send (zaura_surface_set_parent
                aura_surface (win_aura_surface pw) diffx diffy))
  | None => mret tt
  end.

(** Lines 585-592: the commit and the [realized] flag. *)
Definition window_update_commit
    (window : wptr) (host_surface : sptr) : M unit :=
  (if COMMIT_LOOP_FIX then sl_commit window (Some host_surface)
   else h ← get_surface host_surface; send (wl_surface_commit (surf_proxy h)));;
  h ← get_surface host_surface;
  when (truthy (surf_contents_width h) && truthy (surf_contents_height h))
    (modify_window window (set_win_realized 1)).

(** [sl_window_update], lines 367-593. *)
Definition sl_window_update (window : wptr) : M unit :=
  host_resource ← window_update_pairing window;
  match host_resource with
  | None => window_update_teardown window
  | Some user_data =>
      host_surface ← window_update_bind window user_data;
      parent ← window_update_parent window;
      window_update_shell_surface window host_surface;;
      window_update_aura window host_surface;;
      window_update_role window parent;;
      window_update_aura_parent window parent;;
      window_update_commit window host_surface
  end.

(** ** Runs of the entry points *)

(** The entry points of the file that act on a live window: the exported
    functions and the listener callbacks. *)
Inductive operation : Type :=
| op_configure_window (window : wptr)
| op_send_configure_notify (window : wptr)
| op_process_pending_configure_acks
    (window : wptr) (host_surface : option sptr)
| op_commit (window : wptr) (host_surface : option sptr)
| op_xdg_popup_configure (window : wptr) (x y width height : Z)
| op_xdg_popup_done (window : wptr)
| op_xdg_surface_configure (window : wptr) (serial : Z)
| op_xdg_toplevel_configure
    (window : wptr) (width height : Z) (states : list Z)
| op_xdg_toplevel_close (window : wptr)
| op_update_application_id (window : wptr)
| op_window_update (window : wptr).

Definition run_operation (o : operation) : M unit :=
  match o with
  | op_configure_window window => sl_configure_window window
  | op_send_configure_notify window => sl_send_configure_notify window
  | op_process_pending_configure_acks window host_surface =>
      sl_process_pending_configure_acks window host_surface;; mret tt
  | op_commit window host_surface => sl_commit window host_surface
  | op_xdg_popup_configure window x y width height =>
      sl_internal_xdg_popup_configure window x y width height
  | op_xdg_popup_done window => sl_internal_xdg_popup_done window
  | op_xdg_surface_configure window serial =>
      sl_internal_xdg_surface_configure window serial
  | op_xdg_toplevel_configure window width height states =>
      sl_internal_xdg_toplevel_configure window width height states
  | op_xdg_toplevel_close window => sl_internal_xdg_toplevel_close window
  | op_update_application_id window => sl_update_application_id window
  | op_window_update window => sl_window_update window
  end.

(** A sequence of shell-surface configure events for one window. *)
Fixpoint deliver_configures (window : wptr) (serials : list Z) : M unit :=
  match serials with
  | [] => mret tt
  | serial :: serials' =>
      sl_internal_xdg_surface_configure window serial;;
      deliver_configures window serials'
  end.

(** [n] successive calls of [sl_process_pending_configure_acks]. *)
Fixpoint ack_cycles
    (n : nat) (window : wptr) (host_surface : option sptr) : M unit :=
  match n with
  | O => mret tt
  | S n' =>
      sl_process_pending_configure_acks window host_surface;;
      ack_cycles n' window host_surface
  end.

(** [parent] is the parent that [sl_window_update] resolves for [window]
    from the state [s]: the result of lines 423-472 in the state that the
    steps before them leave, when a host resource is found. *)
Definition resolves_parent
    (window : wptr) (s : world) (parent : option wptr) : Prop :=
  exists user_data s1 host_surface s2 s3,
    window_update_pairing window s = Ok (Some user_data) s1
    /\ window_update_bind window user_data s1 = Ok host_surface s2
    /\ window_update_parent window s2 = Ok parent s3.

End Sommelier.

(** ** Observations on the request log *)

(** The serials acknowledged to the compositor, oldest first. *)
Definition acked_serial (r : request) : option Z :=
  match r with
  | xdg_surface_ack_configure _ serial => Some serial
  | _ => None
  end.
Definition acked_serials (rs : list request) : list Z := omap acked_serial rs.

(** The requests that create, set up or destroy a popup or its positioner. *)
Definition popup_request (r : request) : option request :=
  match r with
  | xdg_wm_base_create_positioner _ _
  | xdg_positioner_set_anchor _ _
  | xdg_positioner_set_gravity _ _
  | xdg_positioner_set_anchor_rect _ _ _ _ _
  | xdg_positioner_destroy _
  | xdg_surface_get_popup _ _ _ _
  | xdg_popup_add_listener _ _ => Some r
  | _ => None
  end.
Definition popup_requests (rs : list request) : list request :=
  omap popup_request rs.

(** The configure buffer once [sl_configure_window] has emptied it. *)
Definition cleared (c : sl_config) : sl_config :=
  set_cfg_states_length 0 (set_cfg_mask 0 (set_cfg_serial 0 c)).

(** The size guard of [sl_process_pending_configure_acks]: the window is
    unmanaged, or no surface is given, or the surface has the contents size
    of the window with its border. *)
Definition size_guard_passes
    (w : sl_window) (host_surface : option sl_host_surface) : Prop :=
  match host_surface with
  | Some h =>
      win_managed w = 0
      \/ (to_u32 (win_width w + 2 * win_border_width w)
          = surf_contents_width h
          /\ to_u32 (win_height w + 2 * win_border_width w)
             = surf_contents_height h)
  | None => True
  end.

(** The acknowledgment [sl_process_pending_configure_acks] sends for the
    pending buffer of [w]: none without a shell surface. *)
Definition ack_request (w : sl_window) : list request :=
  match win_xdg_surface w with
  | Some xdg_surface =>
      [xdg_surface_ack_configure xdg_surface
         (cfg_serial (win_pending_config w))]
  | None => []
  end.

(** The early return of the [COMMIT_LOOP_FIX] build: the pending buffer
    carries neither geometry nor states. *)
Definition commit_loop_skip (commit_loop_fix : bool) (w : sl_window) : bool :=
  commit_loop_fix
  && negb (truthy (cfg_mask (win_pending_config w)))
  && (cfg_states_length (win_pending_config w) =? 0).

(** No host resource is registered for the window: [host_surface_id] is 0
    or names no object of the client. *)
Definition host_resource_absent (s : world) (w : sl_window) : Prop :=
  win_host_surface_id w = 0
  \/ ctx_client_objects (st_ctx s) !! win_host_surface_id w = None.

(** The two role handles of a window. *)
Definition role_handles (w : sl_window) : option proxy * option proxy :=
  (win_xdg_toplevel w, win_xdg_popup w).

(** The geometry part of the queued configure buffer. *)
Definition next_values (w : sl_window) : Z * list Z :=
  (cfg_mask (win_next_config w), cfg_values (win_next_config w)).

(** Both relations hold. *)
Definition both (R1 R2 : relation world) : relation world :=
  fun s s' => R1 s s' /\ R2 s s'.

(** The surface behind a nullable pointer, in a given state. *)
Definition surface_of (s : world) (host_surface : option sptr)
    : option sl_host_surface :=
  host_surface ≫= fun hp => st_surfaces s !! hp.

(** A non-null host surface pointer points to a surface. *)
Definition valid_surface (s : world) (host_surface : option sptr) : Prop :=
  forall hp, host_surface = Some hp -> is_Some (st_surfaces s !! hp).

(** [s'] is [s] with the window at [p] replaced by [w'] and the requests
    [rs] sent. *)
Definition updates_window
    (p : wptr) (w' : sl_window) (rs : list request) (s s' : world) : Prop :=
  s' = {| st_ctx := st_ctx s; st_windows := <[p := w']> (st_windows s);
          st_surfaces := st_surfaces s;
          st_requests := st_requests s ++ rs;
          st_next_proxy := st_next_proxy s |}.

(** ** Reasoning about runs *)

(** [wp m s Q]: the run of [m] from [s] ends in a result satisfying [Q]. *)
Definition wp {A} (m : M A) (s : world) (Q : result A -> Prop) : Prop :=
  Q (m s).
Arguments wp : simpl never.

(** [keeps R m]: every run of [m], returning or not, relates its first state
    to its last by [R]. *)
Definition keeps {A} (R : relation world) (m : M A) : Prop :=
  forall s, R s (final (m s)).

(** The windows agree on the field [f]. *)
Definition same_field {T} (f : sl_window -> T) : relation world :=
  fun s s' => forall q, f <$> st_windows s !! q = f <$> st_windows s' !! q.

(** The windows other than [p] agree on the field [f]. *)
Definition same_field_except {T} (p : wptr) (f : sl_window -> T)
    : relation world :=
  fun s s' =>
    forall q, q <> p -> f <$> st_windows s !! q = f <$> st_windows s' !! q.

(** The logs agree on the observation [obs]. *)
Definition same_log {T} (obs : request -> option T) : relation world :=
  fun s s' => omap obs (st_requests s) = omap obs (st_requests s').

(** The contexts agree on the field [f]. *)
Definition same_ctx_field {T} (f : sl_context -> T) : relation world :=
  fun s s' => f (st_ctx s) = f (st_ctx s').

Definition same_surfaces : relation world :=
  fun s s' => st_surfaces s = st_surfaces s'.

(** What every step of [sl_window_update] but role assignment keeps: the
    role handles of the windows, the Xwayland flag and the popup requests. *)
Definition role_frame : relation world :=
  both (same_field role_handles)
    (both (same_ctx_field ctx_xwayland) (same_log popup_request)).

(** ** Example states *)

Definition example_config : sl_config :=
  {| cfg_serial := 0; cfg_mask := 0; cfg_values := [0; 0; 0; 0; 0];
     cfg_states_length := 0; cfg_states := [0; 0; 0] |}.

(** An unpaired 640x480 window without handles. *)
Definition example_window
    (id host_surface_id managed transient_for size_flags : Z) : sl_window :=
  {| win_id := id; win_frame_id := id + 1;
     win_host_surface_id := host_surface_id;
     win_unpaired := 1; win_x := 0; win_y := 0; win_width := 640;
     win_height := 480; win_border_width := 0; win_depth := 24;
     win_managed := managed; win_realized := 0; win_activated := 0;
     win_fullscreen := 0; win_compositor_fullscreen := 0;
     win_maximized := 0; win_allow_resize := 1;
     win_transient_for := transient_for;
     win_client_leader := 0; win_decorated := 0; win_name := None;
     win_clazz := None; win_startup_id := None; win_app_id_property := "";
     win_dark_frame := 0; win_size_flags := size_flags; win_min_width := 0;
     win_min_height := 0; win_max_width := 0; win_max_height := 0;
     win_next_config := example_config;
     win_pending_config := example_config; win_xdg_surface := None;
     win_xdg_toplevel := None; win_xdg_popup := None;
     win_aura_surface := None; win_paired_surface := None |}.

Definition example_atoms (a : atom_name) : Z :=
  match a with
  | ATOM_WM_PROTOCOLS => 300
  | ATOM_WM_DELETE_WINDOW => 301
  | ATOM_NET_WM_STATE => 302
  | ATOM_NET_WM_STATE_FULLSCREEN => 303
  | ATOM_NET_WM_STATE_MAXIMIZED_VERT => 304
  | ATOM_NET_WM_STATE_MAXIMIZED_HORZ => 305
  | ATOM_NET_WM_STATE_FOCUSED => 306
  end.

(** A context with a 1920x1080 screen, an xdg shell and no aura shell. *)
Definition example_context
    (xwayland : Z) (objects : gmap Z (option sptr)) (windows : list wptr)
    : sl_context :=
  {| ctx_xwayland := xwayland; ctx_application_id := None;
     ctx_vm_id := "termina";
     ctx_screen := {| screen_width_in_pixels := 1920;
                      screen_height_in_pixels := 1080 |};
     ctx_xdg_shell := Some {| xdg_shell_internal := Some 1%nat |};
     ctx_aura_shell := None; ctx_frame_color := 0;
     ctx_dark_frame_color := 0; ctx_fullscreen_mode := 0;
     ctx_atoms := example_atoms; ctx_host_focus_window := None;
     ctx_needs_set_input_focus := 0; ctx_windows := windows;
     ctx_unpaired_windows := []; ctx_client_objects := objects |}.

Definition example_surface
    (contents_width contents_height last_event_serial : Z)
    : sl_host_surface :=
  {| surf_proxy := 2%nat; surf_contents_width := contents_width;
     surf_contents_height := contents_height; surf_has_role := 0;
     surf_has_own_scale := 0; surf_cached_logical_width := 0;
     surf_cached_logical_height := 0;
     surf_last_event_serial := last_event_serial; surf_output := None |}.

(** A transform that leaves sizes as they are, a rescale request that
    leaves the surface as it is, and an X server that answers depth 24. *)
Definition identity_transform
    (c : sl_context) (h : option sl_host_surface) (a b : Z) : Z * Z := (a, b).
Definition no_rescale
    (c : sl_context) (h : sl_host_surface) (width height : Z)
    : sl_host_surface := h.
Definition depth_24 (drawable : Z) : option Z := Some 24.

(** A window at address 5 with a configure of serial [serial] pending, in
    a world whose surface at address 9 has the given contents size. *)
Definition pending_window
    (managed : Z) (xdg_surface : option proxy) (serial : Z) : sl_window :=
  set_win_xdg_surface xdg_surface
    (set_win_pending_config (set_cfg_serial serial example_config)
       (example_window 70 0 managed 0 P_POSITION)).

Definition pending_world
    (managed : Z) (xdg_surface : option proxy) (serial : Z)
    (contents_width contents_height : Z) : world :=
  {| st_ctx := example_context 1 ∅ [];
     st_windows := {[ 5%nat := pending_window managed xdg_surface serial ]};
     st_surfaces :=
       {[ 9%nat := example_surface contents_width contents_height 0 ]};
     st_requests := []; st_next_proxy := 10%nat |}.

(** An unmanaged window at address 5 whose queued configure carries a
    width. *)
Definition queued_geometry_window : sl_window :=
  set_win_next_config (set_cfg_mask XCB_CONFIG_WINDOW_WIDTH example_config)
    (example_window 70 0 0 0 P_POSITION).

Definition queued_geometry_world : world :=
  {| st_ctx := example_context 1 ∅ [];
     st_windows := {[ 5%nat := queued_geometry_window ]};
     st_surfaces := ∅; st_requests := []; st_next_proxy := 10%nat |}.

(** A managed window at address 5 without a position hint and without a
    paired surface. *)
Definition unplaced_window : sl_window := example_window 70 0 1 0 0.

Definition unplaced_world : world :=
  {| st_ctx := example_context 1 ∅ [];
     st_windows := {[ 5%nat := unplaced_window ]};
     st_surfaces := ∅; st_requests := []; st_next_proxy := 10%nat |}.

(** A managed window at address 5 with an aura surface. *)
Definition decorated_window : sl_window :=
  set_win_aura_surface (Some 4%nat) (example_window 70 0 1 0 P_POSITION).

Definition decorated_world : world :=
  {| st_ctx := example_context 1 ∅ [];
     st_windows := {[ 5%nat := decorated_window ]};
     st_surfaces := ∅; st_requests := []; st_next_proxy := 10%nat |}.

(** A realized window at address 5 that has lost its host surface. *)
Definition orphaned_window : sl_window :=
  set_win_realized 1
    (set_win_unpaired 0 (example_window 70 0 1 0 P_POSITION)).

Definition orphaned_world : world :=
  {| st_ctx := example_context 1 ∅ [5%nat];
     st_windows := {[ 5%nat := orphaned_window ]};
     st_surfaces := ∅; st_requests := []; st_next_proxy := 10%nat |}.

(** A window at address 5 (id 70, host surface id 4, transient for 80) and
    a realized sibling at address 6 (id 80, host surface id 8) that has a
    toplevel and a shell surface; the surfaces of both have contents. *)
Definition sibling_window : sl_window :=
  set_win_realized 1
    (set_win_unpaired 0
       (set_win_xdg_surface (Some 30%nat)
          (set_win_xdg_toplevel (Some 31%nat)
             (example_window 80 8 1 0 P_POSITION)))).

Definition transient_world (xwayland managed : Z) : world :=
  {| st_ctx :=
       set_ctx_unpaired_windows [5%nat]
         (example_context xwayland
            {[ 4 := Some 9%nat; 8 := Some 11%nat ]} [6%nat]);
     st_windows :=
       {[ 5%nat := example_window 70 4 managed 80 P_POSITION;
          6%nat := sibling_window ]};
     st_surfaces :=
       {[ 9%nat := example_surface 640 480 0;
          11%nat := example_surface 640 480 3 ]};
     st_requests := []; st_next_proxy := 40%nat |}.

(** ** Further observations *)

(** The fields of a configure value list, in the order of their bits. *)
Definition config_window_bits : list Z :=
  [XCB_CONFIG_WINDOW_X; XCB_CONFIG_WINDOW_Y; XCB_CONFIG_WINDOW_WIDTH;
   XCB_CONFIG_WINDOW_HEIGHT; XCB_CONFIG_WINDOW_BORDER_WIDTH].

(** The position of the value of the field [bit] in a value list for
    [mask]: the number of fields of lower bit that the mask selects. *)
Definition value_index (mask bit : Z) : nat :=
  List.length
    (List.filter (fun b => has_bit mask b && (b <? bit)) config_window_bits).

(** The field [bit] after a configure buffer is applied to the value
    [old]. *)
Definition masked_value (c : sl_config) (bit old : Z) : Z :=
  if has_bit (cfg_mask c) bit
  then to_i32 (array_get (cfg_values c) (value_index (cfg_mask c) bit))
  else old.

(** The synthetic configure notify for a window of the given geometry. *)
Definition configure_notify (id x y width height border_width : Z) : request :=
  xcb_send_event 0 id XCB_EVENT_MASK_STRUCTURE_NOTIFY
    (xcb_configure_notify_event XCB_CONFIGURE_NOTIFY id id XCB_WINDOW_NONE
       (to_i16 x) (to_i16 y) (to_u16 width) (to_u16 height)
       (to_u16 border_width) 0).

(** The property write of the state atoms of a configure buffer. *)
Definition net_wm_state_request
    (c : sl_context) (id : Z) (next : sl_config) : request :=
  xcb_change_property XCB_PROP_MODE_REPLACE id (ctx_atoms c ATOM_NET_WM_STATE)
    XCB_ATOM_ATOM 32 (cfg_states_length next) (cfg_states next).

(** The surface commits in a log. *)
Definition committed_surface (r : request) : option proxy :=
  match r with
  | wl_surface_commit surface => Some surface
  | _ => None
  end.


(** The atoms the loop of [sl_internal_xdg_toplevel_configure] stores for
    one proposed state, in the order of its four tests, and for a list. *)
Definition state_atoms (c : sl_context) (state : Z) : list Z :=
  (if state =? XDG_TOPLEVEL_STATE_FULLSCREEN
   then [ctx_atoms c ATOM_NET_WM_STATE_FULLSCREEN] else [])
  ++ (if state =? XDG_TOPLEVEL_STATE_MAXIMIZED
      then [ctx_atoms c ATOM_NET_WM_STATE_MAXIMIZED_VERT;
            ctx_atoms c ATOM_NET_WM_STATE_MAXIMIZED_HORZ]
      else [])
  ++ (if state =? XDG_TOPLEVEL_STATE_ACTIVATED
      then [ctx_atoms c ATOM_NET_WM_STATE_FOCUSED] else []).

Definition proposed_atoms (c : sl_context) (states : list Z) : list Z :=
  flat_map (state_atoms c) states.

(** The states that clear [allow_resize]. *)
Definition is_fullscreen (state : Z) : bool :=
  state =? XDG_TOPLEVEL_STATE_FULLSCREEN.

Definition is_activated (state : Z) : bool :=
  state =? XDG_TOPLEVEL_STATE_ACTIVATED.

Definition restricts_resize (state : Z) : bool :=
  (state =? XDG_TOPLEVEL_STATE_FULLSCREEN)
  || (state =? XDG_TOPLEVEL_STATE_MAXIMIZED)
  || (state =? XDG_TOPLEVEL_STATE_RESIZING).

(** The window after the loop has run over [states] from index [i]. *)
Definition after_states
    (c : sl_context) (states : list Z) (i : nat) (w : sl_window) : sl_window :=
  set_win_allow_resize
    (if existsb restricts_resize states then 0 else win_allow_resize w)
    (set_win_compositor_fullscreen
       (if existsb is_fullscreen states
        then 1 else win_compositor_fullscreen w)
       (set_win_next_config
          (set_cfg_states
             (list_inserts i (to_u32 <$> proposed_atoms c states)
                (cfg_states (win_next_config w)))
             (win_next_config w))
          w)).

(** The focus fields after the callback has seen [activated]. *)
Definition after_activation
    (window : wptr) (activated old_activated : Z) (c : sl_context)
    : sl_context :=
  if (activated =? old_activated)
     || (activated
         =? int_of_bool (bool_decide (ctx_host_focus_window c = Some window)))
  then c
  else set_ctx_needs_set_input_focus 1
         (set_ctx_host_focus_window
            (if truthy activated then Some window else None) c).

(** The fields of a window that [sl_configure_window] owns. *)
Definition geometry (w : sl_window) : Z * Z * Z * Z * Z :=
  (win_x w, win_y w, win_width w, win_height w, win_border_width w).

(** The window after [sl_internal_xdg_toplevel_configure] has run its part
    after the size block on [w]. *)
Definition after_toplevel_states
    (c : sl_context) (states : list Z) (w : sl_window) : sl_window :=
  let staged :=
    after_states c states 0
      (set_win_compositor_fullscreen 0 (set_win_allow_resize 1 w)) in
  set_win_next_config
    (set_cfg_states_length
       (Z.of_nat (List.length (proposed_atoms c states)))
       (win_next_config staged))
    (set_win_activated (int_of_bool (existsb is_activated states)) staged).

(** What the size block of the callback leaves alone and its state part
    reads. *)
Definition states_input (w : sl_window) : Z * Z * list Z :=
  (win_managed w, win_activated w, cfg_states (win_next_config w)).

(** What the callback only stages changes for: the fields owned by
    [sl_configure_window] and [sl_window_update]. *)
Definition applied_state (w : sl_window)
    : (Z * Z * Z * Z * Z) * sl_config * Z * Z
      * (option proxy * option proxy * option proxy * option proxy) :=
  (geometry w, win_pending_config w, win_realized w, win_unpaired w,
   (win_xdg_surface w, win_xdg_toplevel w, win_xdg_popup w,
    win_aura_surface w)).

(** The position the size block of the callback stores for a window without
    a position hint: centred on the output of the paired surface, or on the
    screen. *)
Definition centred_position
    (c : sl_context) (paired : option sl_host_surface) (size : Z * Z)
    : Z * Z :=
  match paired ≫= surf_output with
  | Some output =>
      (out_virt_x output + (out_width output - size.1) `quot` 2,
       out_virt_y output + (out_height output - size.2) `quot` 2)
  | None =>
      (screen_width_in_pixels (ctx_screen c) `quot` 2 - size.1 `quot` 2,
       screen_height_in_pixels (ctx_screen c) `quot` 2 - size.2 `quot` 2)
  end.

(** The window has a position of its own ([US_POSITION] or [P_POSITION]). *)
Definition has_position_hint (w : sl_window) : bool :=
  has_bit (win_size_flags w) (Z.lor US_POSITION P_POSITION).

(** Mask and values of [next_config] after the size block. *)
Definition staged_mask (w : sl_window) : Z :=
  if has_position_hint w then 28 else 31.

Definition staged_values
    (c : sl_context) (paired : option sl_host_surface) (size : Z * Z)
    (w : sl_window) : list Z :=
  if has_position_hint w
  then [to_u32 size.1; to_u32 size.2; 0]
       ++ drop 3 (cfg_values (win_next_config w))
  else [to_u32 (centred_position c paired size).1;
        to_u32 (centred_position c paired size).2;
        to_u32 size.1; to_u32 size.2; 0].

(** The requests that destroy the handles of a window, in the order of
    lines 389-404 of [sl_window_update]. *)
Definition destroy_requests (w : sl_window) : list request :=
  match win_aura_surface w with
  | Some aura_surface => [zaura_surface_destroy aura_surface]
  | None => []
  end
  ++ match win_xdg_toplevel w with
     | Some toplevel => [xdg_toplevel_destroy toplevel]
     | None => []
     end
  ++ match win_xdg_popup w with
     | Some popup => [xdg_popup_destroy popup]
     | None => []
     end
  ++ match win_xdg_surface w with
     | Some surface => [xdg_surface_destroy surface]
     | None => []
     end.

(** The two window lists of the context. *)
Definition window_lists (c : sl_context) : list wptr * list wptr :=
  (ctx_windows c, ctx_unpaired_windows c).

(** Every live window is on the list its [unpaired] flag names, and not on
    the other. *)
Definition lists_consistent (s : world) : Prop :=
  forall q w,
    st_windows s !! q = Some w ->
    if truthy (win_unpaired w)
    then q ∈ ctx_unpaired_windows (st_ctx s) /\ q ∉ ctx_windows (st_ctx s)
    else q ∈ ctx_windows (st_ctx s) /\ q ∉ ctx_unpaired_windows (st_ctx s).

(** What leaves the lists and the flags alone. *)
Definition lists_frame : relation world :=
  both (same_ctx_field window_lists) (same_field win_unpaired).

(** The fallback scan of parent resolution can pick [q] for [w]: [q] is a
    realized window whose host resource has a surface, with last event
    serial [serial], and is not registered under the host surface id of
    [w]. *)
Definition eligible_parent
    (s : world) (w : sl_window) (q : wptr) (serial : Z) : Prop :=
  exists qw hp h,
    st_windows s !! q = Some qw
    /\ win_realized qw <> 0
    /\ ctx_client_objects (st_ctx s) !! win_host_surface_id qw
       = Some (Some hp)
    /\ st_surfaces s !! hp = Some h
    /\ surf_last_event_serial h = serial
    /\ win_host_surface_id qw <> win_host_surface_id w.

(** The serials of the two configure buffers of a window. *)
Definition serials (w : sl_window) : Z * Z :=
  (cfg_serial (win_pending_config w), cfg_serial (win_next_config w)).

(** A configure is queued only behind a pending one: no window has a serial
    in [next_config] while [pending_config] has none. *)
Definition serials_ordered (s : world) : Prop :=
  map_Forall
    (fun _ w =>
       cfg_serial (win_pending_config w) = 0 ->
       cfg_serial (win_next_config w) = 0)
    (st_windows s).

(** The four compositor-side handles of a window. *)
Definition handles (w : sl_window)
    : option proxy * option proxy * option proxy * option proxy :=
  (win_xdg_surface w, win_xdg_toplevel w, win_xdg_popup w,
   win_aura_surface w).

(** A handle that is set stays as it is. *)
Definition handle_kept (before after : option proxy) : Prop :=
  forall x, before = Some x -> after = Some x.

Definition window_handles_kept (w w' : sl_window) : Prop :=
  handle_kept (win_xdg_surface w) (win_xdg_surface w')
  /\ handle_kept (win_xdg_toplevel w) (win_xdg_toplevel w')
  /\ handle_kept (win_xdg_popup w) (win_xdg_popup w')
  /\ handle_kept (win_aura_surface w) (win_aura_surface w').

(** Every window is still there, with the handles it had. *)
Definition handles_kept : relation world :=
  fun s s' =>
    forall q w,
      st_windows s !! q = Some w ->
      exists w', st_windows s' !! q = Some w' /\ window_handles_kept w w'.

(** The run makes a store past the end of [next_config.values] or
    [next_config.states]: it ends at [store_value] or [store_state] with an
    index outside the array. *)
Definition stores_out_of_bounds {A} (r : result A) : Prop :=
  exists s, r = Crash OutOfBounds s.

(** The [xdg_toplevel_set_parent] requests in a log: the toplevel and the
    parent handle given for it. *)
Definition set_parent_request (r : request) : option (proxy * option proxy) :=
  match r with
  | xdg_toplevel_set_parent toplevel parent => Some (toplevel, parent)
  | _ => None
  end.
Definition set_parent_requests (rs : list request)
    : list (proxy * option proxy) :=
  omap set_parent_request rs.

(** The state in which [sl_process_pending_configure_acks] tests
    [next_config.serial], lines 161-166: the acknowledgment of the pending
    serial of [w] is sent, if the window has a shell surface, and
    [pending_config.serial] is 0. *)
Definition acknowledged (window : wptr) (w : sl_window) (s : world) : world :=
  set_st_windows
    (<[window := set_win_pending_config
                   (set_cfg_serial 0 (win_pending_config w)) w]>
       (st_windows s))
    (set_st_requests (st_requests s ++ ack_request w) s).

(** The window with the size that [sl_configure_window] gives it when it
    applies the queued buffer: the width, height and border width that the
    mask of [next_config] selects are replaced. *)
Definition with_queued_size (w : sl_window) : sl_window :=
  let next := win_next_config w in
  set_win_width (masked_value next XCB_CONFIG_WINDOW_WIDTH (win_width w))
    (set_win_height
       (masked_value next XCB_CONFIG_WINDOW_HEIGHT (win_height w))
       (set_win_border_width
          (masked_value next XCB_CONFIG_WINDOW_BORDER_WIDTH
             (win_border_width w))
          w)).

(** ** Further example states *)

(** A managed window at address 5 whose queued configure moves it to
    x = 30 and gives it a width of 800. *)
Definition staged_window : sl_window :=
  set_win_next_config
    (set_cfg_values [30; 800; 0; 0; 0]
       (set_cfg_mask (Z.lor XCB_CONFIG_WINDOW_X XCB_CONFIG_WINDOW_WIDTH)
          example_config))
    (example_window 70 0 1 0 P_POSITION).

Definition staged_world : world :=
  {| st_ctx := example_context 1 ∅ [];
     st_windows := {[ 5%nat := staged_window ]};
     st_surfaces := ∅; st_requests := []; st_next_proxy := 10%nat |}.

(** A managed window at address 5 whose queued configure gives it a width
    of 800 with a mask that has a bit above the low 16 set. *)
Definition wide_mask_window : sl_window :=
  set_win_next_config
    (set_cfg_values [800; 0; 0; 0; 0]
       (set_cfg_mask (Z.lor 65536 XCB_CONFIG_WINDOW_WIDTH) example_config))
    (example_window 70 0 1 0 P_POSITION).

Definition wide_mask_world : world :=
  {| st_ctx := example_context 1 ∅ [];
     st_windows := {[ 5%nat := wide_mask_window ]};
     st_surfaces := ∅; st_requests := []; st_next_proxy := 10%nat |}.

(** The managed window of [pending_world] with a width in the mask of its
    pending buffer, in front of a surface with the contents size of the
    window. *)
Definition carrying_window (serial : Z) : sl_window :=
  set_win_pending_config
    (set_cfg_mask XCB_CONFIG_WINDOW_WIDTH
       (win_pending_config (pending_window 1 (Some 3%nat) serial)))
    (pending_window 1 (Some 3%nat) serial).

Definition carrying_world (serial : Z) : world :=
  set_st_windows {[ 5%nat := carrying_window serial ]}
    (pending_world 1 (Some 3%nat) serial 640 480).

(** The world of [transient_world] in which the host surface of the window
    at address 5 already has a role. *)
Definition taken_surface : sl_host_surface :=
  {| surf_proxy := 2%nat; surf_contents_width := 640;
     surf_contents_height := 480; surf_has_role := 1;
     surf_has_own_scale := 0; surf_cached_logical_width := 0;
     surf_cached_logical_height := 0; surf_last_event_serial := 0;
     surf_output := None |}.

Definition taken_surface_world : world :=
  set_st_surfaces
    (<[9%nat := taken_surface]> (st_surfaces (transient_world 1 1)))
    (transient_world 1 1).
(** * Properties *)

Section Properties.

Variable COMMIT_LOOP_FIX : bool.
Variable sl_transform_host_to_guest :
  sl_context -> option sl_host_surface -> Z -> Z -> Z * Z.
Variable sl_transform_guest_to_host :
  sl_context -> option sl_host_surface -> Z -> Z -> Z * Z.
Variable sl_transform_try_window_scale :
  sl_context -> sl_host_surface -> Z -> Z -> sl_host_surface.
Variable xcb_get_geometry_reply : Z -> option Z.

(** ** C truth values *)

Lemma truthy_false z : truthy z = false <-> z = 0.
Proof. unfold truthy. rewrite negb_false_iff. apply Z.eqb_eq. Qed.

Lemma truthy_true z : truthy z = true <-> z <> 0.
Proof. unfold truthy. rewrite negb_true_iff. apply Z.eqb_neq. Qed.

(** ** Rules of symbolic execution *)

Lemma wp_bind {A B} (m : M B) (k : B -> M A) s (Q : result A -> Prop) :
  wp m s (fun r => match r with
                   | Ok a s1 => wp (k a) s1 Q
                   | Crash f s1 => Q (Crash f s1)
                   end) ->
  wp (m ≫= k) s Q.
Proof. unfold wp, mbind, M_bind. destruct (m s); auto. Qed.

Lemma wp_ret {A} (a : A) s (Q : result A -> Prop) :
  Q (Ok a s) -> wp (mret a) s Q.
Proof. auto. Qed.

Lemma wp_crash {A} f s (Q : result A -> Prop) :
  Q (Crash f s) -> wp (crash f) s Q.
Proof. auto. Qed.

Lemma wp_eq {A} (m : M A) s r (Q : result A -> Prop) :
  m s = r -> Q r -> wp m s Q.
Proof. unfold wp. intros ->. auto. Qed.

Lemma wp_consequence {A} (m : M A) s (Q Q' : result A -> Prop) :
  wp m s Q' -> (forall r, Q' r -> Q r) -> wp m s Q.
Proof. unfold wp. auto. Qed.

Section wp_primitives.
Context (c : sl_context) (ws : gmap wptr sl_window)
        (ss : gmap sptr sl_host_surface) (rq : list request) (np : proxy).
Let s := Build_world c ws ss rq np.

Lemma wp_get_ctx Q : Q (Ok c s) -> wp get_ctx s Q.
Proof. auto. Qed.

Lemma wp_modify_ctx f Q :
  Q (Ok tt (Build_world (f c) ws ss rq np)) -> wp (modify_ctx f) s Q.
Proof. auto. Qed.

Lemma wp_get_window p w Q :
  ws !! p = Some w -> Q (Ok w s) -> wp (get_window p) s Q.
Proof. unfold wp, get_window. cbn. intros ->. auto. Qed.

Lemma wp_modify_window p f w Q :
  ws !! p = Some w ->
  Q (Ok tt (Build_world c (<[p := f w]> ws) ss rq np)) ->
  wp (modify_window p f) s Q.
Proof. unfold wp, modify_window. cbn. intros ->. auto. Qed.

Lemma wp_get_window_dangling p Q :
  ws !! p = None -> Q (Crash InvalidPointer s) -> wp (get_window p) s Q.
Proof. unfold wp, get_window. cbn. intros ->. auto. Qed.

Lemma wp_get_surface p h Q :
  ss !! p = Some h -> Q (Ok h s) -> wp (get_surface p) s Q.
Proof. unfold wp, get_surface. cbn. intros ->. auto. Qed.

Lemma wp_get_surface_dangling p Q :
  ss !! p = None -> Q (Crash InvalidPointer s) -> wp (get_surface p) s Q.
Proof. unfold wp, get_surface. cbn. intros ->. auto. Qed.

Lemma wp_put_surface p h Q :
  Q (Ok tt (Build_world c ws (<[p := h]> ss) rq np)) ->
  wp (put_surface p h) s Q.
Proof. auto. Qed.

Lemma wp_send r Q :
  Q (Ok tt (Build_world c ws ss (rq ++ [r]) np)) -> wp (send r) s Q.
Proof. auto. Qed.

Lemma wp_new_proxy Q :
  Q (Ok np (Build_world c ws ss rq (S np))) -> wp new_proxy s Q.
Proof. auto. Qed.
End wp_primitives.

Lemma wp_get_window_any p s w Q :
  st_windows s !! p = Some w -> Q (Ok w s) -> wp (get_window p) s Q.
Proof. unfold wp, get_window. intros ->. auto. Qed.

Ltac wp_lookup :=
  first [ eassumption | apply lookup_insert_eq
        | rewrite lookup_insert_ne by congruence; eassumption ].

(** One step of symbolic execution, in program order. *)
Ltac wp_step :=
  lazymatch goal with
  | |- wp (mbind _ _) _ _ => apply wp_bind
  | |- wp (mret _) _ _ => apply wp_ret
  | |- wp (crash _) _ _ => apply wp_crash
  | |- wp get_ctx _ _ => apply wp_get_ctx
  | |- wp (modify_ctx _) _ _ => apply wp_modify_ctx
  | |- wp (get_window ?p) (Build_world _ ?ws _ _ _) _ =>
      first [ eapply wp_get_window; [ wp_lookup | ]
            | eapply wp_get_window_dangling; [ wp_lookup | ]
            | destruct (ws !! p) eqn:?;
              [ eapply wp_get_window; [ eassumption | ]
              | eapply wp_get_window_dangling; [ eassumption | ] ] ]
  | |- wp (modify_window _ _) _ _ =>
      eapply wp_modify_window; [ wp_lookup | rewrite ?insert_insert_eq ]
  | |- wp (get_surface ?p) (Build_world _ _ ?ss _ _) _ =>
      first [ eapply wp_get_surface; [ wp_lookup | ]
            | eapply wp_get_surface_dangling; [ wp_lookup | ]
            | destruct (ss !! p) eqn:?;
              [ eapply wp_get_surface; [ eassumption | ]
              | eapply wp_get_surface_dangling; [ eassumption | ] ] ]
  | |- wp (put_surface _ _) _ _ => apply wp_put_surface
  | |- wp (send _) _ _ => apply wp_send
  | |- wp new_proxy _ _ => apply wp_new_proxy
  | |- wp (assert _) _ _ => unfold assert
  | |- wp (when _ _) _ _ => unfold when
  | |- wp (deref _) _ _ => unfold deref
  | |- wp (surface_at _) _ _ => unfold surface_at
  | |- wp (wl_client_get_object _) _ _ => unfold wl_client_get_object
  | |- wp (match (if ?c then _ else _) with _ => _ end) _ _ => destruct c eqn:?
  | |- wp (if ?c then _ else _) _ _ => destruct c eqn:?
  | |- wp (match ?x with _ => _ end) _ _ => destruct x eqn:?
  end; cbn.

(** Turns a goal about [m s] into [wp m s Q]. *)
Ltac wp_start :=
  match goal with
  | |- context [ ?m ?s ] =>
      lazymatch type of m with
      | M _ => pattern (m s);
               lazymatch goal with |- ?Q (m s) => change (wp m s Q) end
      end
  end.

Ltac wp_init s :=
  let c := fresh "c" in let ws := fresh "ws" in let ss := fresh "ss" in
  let rq := fresh "rq" in let np := fresh "np" in
  destruct s as [c ws ss rq np]; cbn in *.

(** [rq' = rq ++ ?rs] for a log [rq'] grown from [rq]. *)
Ltac solve_requests :=
  rewrite <- ?app_assoc;
  first [ reflexivity | symmetry; apply app_nil_r ].

Lemma updates_window_intro p w' rs c ws ss rq np ws' rq' :
  ws' = <[p := w']> ws -> rq' = rq ++ rs ->
  updates_window p w' rs (Build_world c ws ss rq np)
    (Build_world c ws' ss rq' np).
Proof. intros -> ->. reflexivity. Qed.

Lemma acked_serials_app rs rs' :
  acked_serials (rs ++ rs') = acked_serials rs ++ acked_serials rs'.
Proof. apply omap_app. Qed.

(** ** Rules for frames *)

Section keeps_rules.
Context (R : relation world) `{!PreOrder R}.

Lemma keeps_bind {A B} (m : M A) (k : A -> M B) :
  keeps R m -> (forall a, keeps R (k a)) -> keeps R (m ≫= k).
Proof.
  intros Hm Hk s. specialize (Hm s). unfold mbind, M_bind.
  destruct (m s) as [a s1|f s1]; cbn in *; [|done].
  etrans; [exact Hm|apply Hk].
Qed.

Lemma keeps_ret {A} (a : A) : keeps R (mret a).
Proof. intros s. reflexivity. Qed.

Lemma keeps_crash {A} f : keeps R (@crash A f).
Proof. intros s. reflexivity. Qed.

Lemma keeps_assert b : keeps R (assert b).
Proof. intros s. destruct b; reflexivity. Qed.

Lemma keeps_deref {A} (p : option A) : keeps R (deref p).
Proof. intros s. destruct p; reflexivity. Qed.

Lemma keeps_when b m : keeps R m -> keeps R (when b m).
Proof. intros Hm. destruct b; [exact Hm|apply keeps_ret]. Qed.

Lemma keeps_get_ctx : keeps R get_ctx.
Proof. intros s. reflexivity. Qed.

Lemma keeps_get_window p : keeps R (get_window p).
Proof. intros s. unfold get_window. destruct (_ !! _); reflexivity. Qed.

Lemma keeps_get_surface p : keeps R (get_surface p).
Proof. intros s. unfold get_surface. destruct (_ !! _); reflexivity. Qed.

Lemma keeps_wl_client_get_object id : keeps R (wl_client_get_object id).
Proof. intros s. reflexivity. Qed.

Lemma keeps_send r :
  (forall s, R s (set_st_requests (st_requests s ++ [r]) s)) ->
  keeps R (send r).
Proof. intros H s. apply H. Qed.

Lemma keeps_modify_ctx f :
  (forall s, R s (set_st_ctx (f (st_ctx s)) s)) -> keeps R (modify_ctx f).
Proof. intros H s. apply H. Qed.

Lemma keeps_modify_window p f :
  (forall s w, st_windows s !! p = Some w ->
     R s (set_st_windows (<[p := f w]> (st_windows s)) s)) ->
  keeps R (modify_window p f).
Proof.
  intros H s. unfold modify_window.
  destruct (_ !! _) eqn:E; [apply H, E|reflexivity].
Qed.

Lemma keeps_put_surface p h :
  (forall s, R s (set_st_surfaces (<[p := h]> (st_surfaces s)) s)) ->
  keeps R (put_surface p h).
Proof. intros H s. apply H. Qed.

Lemma keeps_new_proxy :
  (forall s, R s (set_st_next_proxy (S (st_next_proxy s)) s)) ->
  keeps R new_proxy.
Proof. intros H s. apply H. Qed.

(** A frame of the callee is a fact of symbolic execution. *)
Lemma wp_keeps {A} (m : M A) s (Q : result A -> Prop) :
  keeps R m -> (forall r, R s (final r) -> Q r) -> wp m s Q.
Proof. intros Hm HQ. apply HQ, Hm. Qed.
End keeps_rules.

Create HintDb keeps.

Ltac head_of t := lazymatch t with ?f _ => head_of f | _ => t end.

(** One syntax-directed step; [side] closes the condition of a primitive
    that changes the state. *)
Ltac keeps_step side :=
  lazymatch goal with
  | |- keeps _ (mbind _ _) => apply keeps_bind; [ try exact _ | | intros ? ]
  | |- keeps _ (mret _) => apply keeps_ret; exact _
  | |- keeps _ (crash _) => apply keeps_crash; exact _
  | |- keeps _ (assert _) => apply keeps_assert; exact _
  | |- keeps _ (deref _) => apply keeps_deref; exact _
  | |- keeps _ (when _ _) => apply keeps_when; [ exact _ | ]
  | |- keeps _ get_ctx => apply keeps_get_ctx; exact _
  | |- keeps _ (get_window _) => apply keeps_get_window; exact _
  | |- keeps _ (get_surface _) => apply keeps_get_surface; exact _
  | |- keeps _ (wl_client_get_object _) =>
      apply keeps_wl_client_get_object; exact _
  | |- keeps _ (send _) => apply keeps_send; first [ exact _ | side ]
  | |- keeps _ (modify_ctx _) =>
      apply keeps_modify_ctx; first [ exact _ | side ]
  | |- keeps _ (modify_window _ _) =>
      apply keeps_modify_window; first [ exact _ | side ]
  | |- keeps _ (put_surface _ _) =>
      apply keeps_put_surface; first [ exact _ | side ]
  | |- keeps _ new_proxy => apply keeps_new_proxy; first [ exact _ | side ]
  | |- keeps _ (match (if ?c then _ else _) with _ => _ end) => destruct c
  | |- keeps _ (if ?c then _ else _) => destruct c
  | |- keeps _ (match ?x with _ => _ end) => destruct x
  | |- keeps _ ?m =>
      first [ solve [ auto with keeps ]
            | let h := head_of m in unfold h ]
  end.

Ltac keeps_go side := repeat (keeps_step side).

#[local] Instance same_field_preorder {T} (f : sl_window -> T) :
  PreOrder (same_field f).
Proof.
  split; [intros s q; reflexivity|].
  intros s1 s2 s3 H1 H2 q. rewrite H1. apply H2.
Qed.

#[local] Instance same_field_except_preorder {T} p (f : sl_window -> T) :
  PreOrder (same_field_except p f).
Proof.
  split; [intros s q _; reflexivity|].
  intros s1 s2 s3 H1 H2 q Hq. rewrite H1 by done. apply H2, Hq.
Qed.

#[local] Instance same_log_preorder {T} (obs : request -> option T) :
  PreOrder (same_log obs).
Proof.
  split; [intros s; reflexivity|].
  intros s1 s2 s3 H1 H2. unfold same_log in *. congruence.
Qed.

#[local] Instance same_ctx_field_preorder {T} (f : sl_context -> T) :
  PreOrder (same_ctx_field f).
Proof.
  split; [intros s; reflexivity|].
  intros s1 s2 s3 H1 H2. unfold same_ctx_field in *. congruence.
Qed.

#[local] Instance same_surfaces_preorder : PreOrder same_surfaces.
Proof.
  split; [intros s; reflexivity|].
  intros s1 s2 s3 H1 H2. unfold same_surfaces in *. congruence.
Qed.

#[local] Instance both_preorder R1 R2 :
  PreOrder R1 -> PreOrder R2 -> PreOrder (both R1 R2).
Proof.
  intros H1 H2. split.
  - intros s. split; reflexivity.
  - intros s1 s2 s3 [A1 A2] [B1 B2]. split; etrans; eassumption.
Qed.

Lemma keeps_both {A} (R1 R2 : relation world) (m : M A) :
  keeps R1 m -> keeps R2 m -> keeps (both R1 R2) m.
Proof. intros H1 H2 s. split; [apply H1|apply H2]. Qed.

Lemma same_field_windows {T} (f : sl_window -> T) s s' :
  st_windows s' = st_windows s -> same_field f s s'.
Proof. intros E q. rewrite E. reflexivity. Qed.

Lemma same_field_insert {T} (f : sl_window -> T) s s' p w w' :
  st_windows s' = <[p := w']> (st_windows s) ->
  st_windows s !! p = Some w -> f w' = f w -> same_field f s s'.
Proof.
  intros E Hw Hf q. rewrite E. destruct (decide (p = q)) as [<-|Hne].
  - rewrite lookup_insert_eq, Hw. cbn. congruence.
  - rewrite lookup_insert_ne by done. reflexivity.
Qed.

Lemma same_field_except_insert {T} (f : sl_window -> T) s s' p w' :
  st_windows s' = <[p := w']> (st_windows s) -> same_field_except p f s s'.
Proof. intros E q Hq. rewrite E, lookup_insert_ne by done. reflexivity. Qed.

Lemma same_field_weaken {T} (f : sl_window -> T) p s s' :
  same_field f s s' -> same_field_except p f s s'.
Proof. intros H q _. apply H. Qed.

Lemma same_log_send {T} (obs : request -> option T) r s :
  obs r = None ->
  same_log obs s (set_st_requests (st_requests s ++ [r]) s).
Proof.
  intros Hr. unfold same_log. cbn. rewrite omap_app. cbn. rewrite Hr.
  cbn. rewrite app_nil_r. reflexivity.
Qed.

Ltac same_field_side :=
  intros;
  first [ apply same_field_windows; reflexivity
        | eapply same_field_insert; [reflexivity | eassumption | reflexivity] ].

Ltac same_field_except_side :=
  intros;
  first [ apply same_field_weaken; same_field_side
        | eapply same_field_except_insert; reflexivity ].

Ltac same_log_side :=
  intros; first [ reflexivity | apply same_log_send; reflexivity ].

Ltac same_ctx_side := intros; reflexivity.

(** ** [sl_send_configure_notify] and [sl_configure_window] *)

Lemma sl_send_configure_notify_returns s p w :
  st_windows s !! p = Some w ->
  exists r, sl_send_configure_notify p s
            = Ok tt (set_st_requests (st_requests s ++ [r]) s)
            /\ acked_serial r = None.
Proof.
  intros Hw. wp_init s. unfold sl_send_configure_notify.
  eexists. wp_start. repeat wp_step. split; reflexivity.
Qed.

(** When its two assertions hold, [sl_configure_window] returns: the pending
    buffer is the former next buffer, the next buffer is emptied, and no
    acknowledgment is sent. *)
Lemma sl_configure_window_returns s p w :
  st_windows s !! p = Some w ->
  cfg_serial (win_pending_config w) = 0 ->
  cfg_mask (win_next_config w) = 0 \/ win_managed w <> 0 ->
  exists s' w' rs,
    sl_configure_window p s = Ok tt s'
    /\ updates_window p w' rs s s'
    /\ win_pending_config w' = win_next_config w
    /\ win_next_config w' = cleared (win_next_config w)
    /\ win_xdg_surface w' = win_xdg_surface w
    /\ win_managed w' = win_managed w
    /\ acked_serials rs = [].
Proof.
  intros Hw Hs%truthy_false Hm. wp_init s.
  wp_start. unfold sl_configure_window.
  wp_step. wp_step. wp_step. rewrite Hs. cbn. wp_step. wp_step.
  destruct (truthy (cfg_mask (win_next_config w))) eqn:Em.
  - destruct Hm as [Hm | Hg%truthy_true]; [apply truthy_true in Em; lia|].
    repeat (wp_step; unfold sl_send_configure_notify; rewrite ?Hg; cbn).
    all: eexists _, _, _; split; [reflexivity|];
      (split; [apply updates_window_intro; [reflexivity|solve_requests]|]);
      repeat split; reflexivity.
  - repeat (wp_step; cbn).
    all: eexists _, _, _; split; [reflexivity|];
      (split; [apply updates_window_intro; [reflexivity|solve_requests]|]);
      repeat split; reflexivity.
Qed.

(** What [sl_configure_window] does with a nonzero mask on a managed
    window. *)
Lemma sl_configure_window_applies s window w :
  st_windows s !! window = Some w ->
  cfg_serial (win_pending_config w) = 0 ->
  cfg_mask (win_next_config w) <> 0 ->
  win_managed w <> 0 ->
  let next := win_next_config w in
  let x := masked_value next XCB_CONFIG_WINDOW_X (win_x w) in
  let y := masked_value next XCB_CONFIG_WINDOW_Y (win_y w) in
  let width := masked_value next XCB_CONFIG_WINDOW_WIDTH (win_width w) in
  let height := masked_value next XCB_CONFIG_WINDOW_HEIGHT (win_height w) in
  let border_width :=
    masked_value next XCB_CONFIG_WINDOW_BORDER_WIDTH (win_border_width w) in
  exists s' w',
    sl_configure_window window s = Ok tt s'
    /\ st_windows s' = <[window := w']> (st_windows s)
    /\ win_x w' = x /\ win_y w' = y /\ win_width w' = width
    /\ win_height w' = height /\ win_border_width w' = border_width
    /\ st_requests s'
       = st_requests s
         ++ [xcb_configure_window (win_frame_id w) (to_u16 (cfg_mask next))
               (cfg_values next);
             xcb_configure_window (win_id w) 31
               [0; 0; width; height; border_width]]
         ++ (if negb (x =? win_x w) || negb (y =? win_y w)
             then [configure_notify (win_id w) x y width height border_width]
             else [])
         ++ [net_wm_state_request (st_ctx s) (win_id w) next].
Proof.
  intros Hw Hs%truthy_false Hm%truthy_true Hg%truthy_true. cbv zeta.
  wp_init s. wp_start. unfold sl_configure_window.
  wp_step. wp_step. wp_step. rewrite Hs. cbn. wp_step. wp_step.
  rewrite Hm.
  unfold masked_value, value_index, config_window_bits, configure_notify,
    net_wm_state_request.
  unfold XCB_CONFIG_WINDOW_X, XCB_CONFIG_WINDOW_Y, XCB_CONFIG_WINDOW_WIDTH,
    XCB_CONFIG_WINDOW_HEIGHT, XCB_CONFIG_WINDOW_BORDER_WIDTH in *.
  destruct (has_bit (cfg_mask (win_next_config w)) 1) eqn:Ex;
  destruct (has_bit (cfg_mask (win_next_config w)) 2) eqn:Ey;
  destruct (has_bit (cfg_mask (win_next_config w)) 4) eqn:Ewidth;
  destruct (has_bit (cfg_mask (win_next_config w)) 8) eqn:Eheight;
  destruct (has_bit (cfg_mask (win_next_config w)) 16) eqn:Eborder;
  cbn;
  repeat (wp_step; unfold sl_send_configure_notify;
          rewrite ?Ex, ?Ey, ?Ewidth, ?Eheight, ?Eborder, ?Hg; cbn).
  all: eexists _, _; (split; [reflexivity|]); cbn;
    (split; [reflexivity|]);
    match goal with
    | H : _ || _ = true |- _ =>
        rewrite <- ?app_assoc; repeat split; reflexivity
    | H : _ || _ = false |- _ =>
        apply orb_false_iff in H as [H1 H2];
        apply negb_false_iff, Z.eqb_eq in H1;
        apply negb_false_iff, Z.eqb_eq in H2;
        rewrite <- ?app_assoc; repeat split;
        first [reflexivity | symmetry; assumption]
    end.
Qed.

(** With a zero mask [sl_configure_window] only writes the state atoms of
    a managed window and moves the buffer. *)
Lemma sl_configure_window_empty_mask s window w :
  st_windows s !! window = Some w ->
  cfg_serial (win_pending_config w) = 0 ->
  cfg_mask (win_next_config w) = 0 ->
  sl_configure_window window s
  = Ok tt
      {| st_ctx := st_ctx s;
         st_windows :=
           <[window := set_win_next_config (cleared (win_next_config w))
                         (set_win_pending_config (win_next_config w) w)]>
             (st_windows s);
         st_surfaces := st_surfaces s;
         st_requests :=
           st_requests s
           ++ (if truthy (win_managed w)
               then [net_wm_state_request (st_ctx s) (win_id w)
                       (win_next_config w)]
               else []);
         st_next_proxy := st_next_proxy s |}.
Proof.
  intros Hw Hs%truthy_false Hm%truthy_false. wp_init s. wp_start.
  unfold sl_configure_window.
  wp_step. wp_step. wp_step. rewrite Hs. cbn. wp_step. wp_step.
  rewrite Hm. cbn. repeat wp_step.
  - reflexivity.
  - rewrite app_nil_r. reflexivity.
Qed.

(** The buffers and the size of the window after [sl_configure_window],
    for any mask. *)
Lemma sl_configure_window_sized s p w :
  st_windows s !! p = Some w ->
  cfg_serial (win_pending_config w) = 0 ->
  cfg_mask (win_next_config w) = 0 \/ win_managed w <> 0 ->
  exists s' w' rs,
    sl_configure_window p s = Ok tt s'
    /\ updates_window p w' rs s s'
    /\ win_pending_config w' = win_next_config w
    /\ win_next_config w' = cleared (win_next_config w)
    /\ win_xdg_surface w' = win_xdg_surface w
    /\ win_managed w' = win_managed w
    /\ acked_serials rs = []
    /\ win_width w' = win_width (with_queued_size w)
    /\ win_height w' = win_height (with_queued_size w)
    /\ win_border_width w' = win_border_width (with_queued_size w).
Proof.
  intros Hw Hs Hm.
  destruct (sl_configure_window_returns s p w Hw Hs Hm)
    as (s' & w' & rs & E & Hupd & Hp & Hn & Hx & Hg & Hacks).
  exists s', w', rs. split; [exact E|]. split; [exact Hupd|].
  split; [exact Hp|]. split; [exact Hn|]. split; [exact Hx|].
  split; [exact Hg|]. split; [exact Hacks|].
  assert (Hw' : st_windows s' !! p = Some w')
    by (rewrite Hupd; cbn; apply lookup_insert_eq).
  destruct (decide (cfg_mask (win_next_config w) = 0)) as [Hmask|Hmask].
  - rewrite (sl_configure_window_empty_mask s p w Hw Hs Hmask) in E.
    injection E as E. rewrite <- E in Hw'. cbn in Hw'.
    rewrite lookup_insert_eq in Hw'. injection Hw' as <-.
    unfold with_queued_size, masked_value. rewrite Hmask. cbn.
    repeat split.
  - assert (Hmanaged : win_managed w <> 0) by (destruct Hm; [lia|assumption]).
    destruct (sl_configure_window_applies s p w Hw Hs Hmask Hmanaged)
      as (s'' & w'' & E' & Hwindows & _ & _ & Hwidth & Hheight & Hborder & _).
    rewrite E in E'. injection E' as <-.
    rewrite Hwindows, lookup_insert_eq in Hw'. injection Hw' as <-.
    unfold with_queued_size. cbn. repeat split; assumption.
Qed.

(** With geometry to apply and an unmanaged window the second assertion
    fails. *)
Lemma sl_configure_window_unmanaged s p w :
  st_windows s !! p = Some w ->
  cfg_serial (win_pending_config w) = 0 ->
  cfg_mask (win_next_config w) <> 0 ->
  win_managed w = 0 ->
  exists s', sl_configure_window p s = Crash AssertionFailed s'.
Proof.
  intros Hw Hs%truthy_false Hm%truthy_true Hg%truthy_false. wp_init s.
  wp_start. unfold sl_configure_window.
  wp_step. wp_step. wp_step. rewrite Hs. cbn. wp_step. wp_step.
  rewrite Hm.
  repeat (wp_step; rewrite ?Hg; cbn).
  all: eauto.
Qed.

(** C9: with [pending_config.serial == 0] and a nonzero [next_config.mask],
    [sl_configure_window] returns exactly when the window is managed; for an
    unmanaged window it stops at the assertion on [managed], and so does the
    shell-surface configure callback that finds such a queued buffer. *)
Theorem configure_window_asserts_managed s window w :
  st_windows s !! window = Some w ->
  cfg_serial (win_pending_config w) = 0 ->
  cfg_mask (win_next_config w) <> 0 ->
  (win_managed w <> 0 ->
     exists s', sl_configure_window window s = Ok tt s')
  /\ (win_managed w = 0 ->
        (exists s', sl_configure_window window s = Crash AssertionFailed s')
        /\ forall serial,
             exists s',
               sl_internal_xdg_surface_configure COMMIT_LOOP_FIX
                 window serial s
               = Crash AssertionFailed s').
Proof.
  intros Hw Hs Hm. split.
  - intros Hg.
    destruct (sl_configure_window_returns s window w Hw Hs (or_intror Hg))
      as (s' & _ & _ & E & _). eauto.
  - intros Hg. split; [eapply sl_configure_window_unmanaged; eauto|].
    intros serial.
    set (w1 := set_win_next_config
                 (set_cfg_serial serial (win_next_config w)) w).
    destruct (sl_configure_window_unmanaged
                (set_st_windows (<[window := w1]> (st_windows s)) s)
                window w1) as [s' E]; try done.
    { cbn. apply lookup_insert_eq. }
    exists s'. unfold sl_internal_xdg_surface_configure.
    wp_init s. wp_start.
    wp_step. wp_step. wp_step. wp_step.
    apply truthy_false in Hs. rewrite Hs. cbn.
    repeat wp_step.
    eapply wp_eq; [exact E|]. reflexivity.
Qed.

(** ** [sl_process_pending_configure_acks] and [sl_commit] *)

Lemma set_cfg_serial_same c : set_cfg_serial (cfg_serial c) c = c.
Proof. destruct c. reflexivity. Qed.

Lemma set_win_next_config_same w : set_win_next_config (win_next_config w) w = w.
Proof. destruct w. reflexivity. Qed.

Lemma set_st_windows_same s : set_st_windows (st_windows s) s = s.
Proof. destruct s. reflexivity. Qed.

Lemma process_acks_nothing_pending s window host_surface w :
  st_windows s !! window = Some w ->
  cfg_serial (win_pending_config w) = 0 ->
  sl_process_pending_configure_acks COMMIT_LOOP_FIX window host_surface s
  = Ok 0 s.
Proof.
  intros Hw Hs%truthy_false. wp_init s. wp_start.
  unfold sl_process_pending_configure_acks.
  wp_step. wp_step. rewrite Hs. cbn. wp_step. reflexivity.
Qed.

Lemma process_acks_commit_loop_skip s window host_surface w :
  st_windows s !! window = Some w ->
  commit_loop_skip COMMIT_LOOP_FIX w = true ->
  sl_process_pending_configure_acks COMMIT_LOOP_FIX window host_surface s
  = Ok 0 s.
Proof.
  intros Hw Hskip. wp_init s. wp_start.
  unfold sl_process_pending_configure_acks, commit_loop_skip in *.
  wp_step. wp_step. wp_step; [wp_step; reflexivity|].
  rewrite Hskip. wp_step. reflexivity.
Qed.

Lemma process_acks_size_mismatch s window hp w h :
  st_windows s !! window = Some w ->
  st_surfaces s !! hp = Some h ->
  win_managed w <> 0 ->
  to_u32 (win_width w + 2 * win_border_width w) <> surf_contents_width h
  \/ to_u32 (win_height w + 2 * win_border_width w) <> surf_contents_height h ->
  sl_process_pending_configure_acks COMMIT_LOOP_FIX window (Some hp) s
  = Ok 0 s.
Proof.
  intros Hw Hh Hg%truthy_true Hne. wp_init s. wp_start.
  unfold sl_process_pending_configure_acks.
  wp_step. wp_step. wp_step; [wp_step; reflexivity|].
  wp_step; [wp_step; reflexivity|].
  wp_step. rewrite Hg. cbn. wp_step. wp_step. wp_step.
  rewrite !(Z.mul_comm (win_border_width w) 2).
  destruct (_ || _) eqn:E; cbn.
  - wp_step. reflexivity.
  - apply orb_false_iff in E as [E1%negb_false_iff%Z.eqb_eq
                                   E2%negb_false_iff%Z.eqb_eq].
    destruct Hne; congruence.
Qed.

(** Past the guard the function sends the acknowledgment, clears the
    pending serial and, with a queued serial, calls [sl_configure_window];
    it returns 1 when the call returns. *)
Lemma process_acks_passes s window host_surface w :
  st_windows s !! window = Some w ->
  cfg_serial (win_pending_config w) <> 0 ->
  commit_loop_skip COMMIT_LOOP_FIX w = false ->
  valid_surface s host_surface ->
  size_guard_passes w (surface_of s host_surface) ->
  sl_process_pending_configure_acks COMMIT_LOOP_FIX window host_surface s
  = if truthy (cfg_serial (win_next_config w))
    then match sl_configure_window window (acknowledged window w s) with
         | Ok _ s' => Ok 1 s'
         | Crash f s' => Crash f s'
         end
    else Ok 1 (acknowledged window w s).
Proof.
  intros Hw Hs%truthy_true Hskip Hvalid Hguard. wp_init s.
  match goal with
  | |- ?m ?s = ?r => change (wp m s (fun x => x = r))
  end.
  unfold sl_process_pending_configure_acks, commit_loop_skip in *.
  wp_step. wp_step. rewrite Hs, Hskip. cbn. wp_step.
  assert (Hpass :
    wp (match host_surface with
        | Some hp =>
            if truthy (win_managed w)
            then get_surface hp ≫= fun h =>
                 mret (negb (to_u32 (win_width w + win_border_width w * 2)
                             =? surf_contents_width h)
                       || negb (to_u32 (win_height w + win_border_width w * 2)
                                =? surf_contents_height h))
            else mret false
        | None => mret false
        end) (Build_world c ws ss rq np)
       (fun r => r = Ok false (Build_world c ws ss rq np))).
  { destruct host_surface as [hp|]; [|reflexivity].
    destruct (Hvalid hp eq_refl) as [h Hh]. unfold surface_of in Hguard.
    cbn in Hh, Hguard. rewrite Hh in Hguard. cbn in Hguard.
    destruct (truthy (win_managed w)) eqn:Eg; [|reflexivity].
    destruct Hguard as [Hg|[E1 E2]]; [apply truthy_true in Eg; lia|].
    wp_step. wp_step. wp_step.
    rewrite !(Z.mul_comm (win_border_width w) 2), E1, E2, !Z.eqb_refl.
    reflexivity. }
  eapply wp_eq; [exact Hpass|]. cbn. clear Hpass.
  assert (Hack :
    wp (match win_xdg_surface w with
        | Some xdg_surface =>
            send (xdg_surface_ack_configure xdg_surface
                    (cfg_serial (win_pending_config w)))
        | None => mret ()
        end) (Build_world c ws ss rq np)
       (fun r => r = Ok tt (Build_world c ws ss (rq ++ ack_request w) np))).
  { unfold ack_request. destruct (win_xdg_surface w); cbn.
    - reflexivity.
    - rewrite app_nil_r. reflexivity. }
  wp_step. eapply wp_eq; [exact Hack|]. cbn. clear Hack.
  wp_step. wp_step. wp_step. wp_step.
  unfold acknowledged. cbn.
  destruct (truthy (cfg_serial (win_next_config w))); cbn.
  - wp_step. unfold wp.
    destruct (sl_configure_window window _) as [[] s'|f s']; reflexivity.
  - wp_step. wp_step. reflexivity.
Qed.

(** Past the guard the function acknowledges, clears the pending serial and
    chains to the queued configure. *)
Lemma process_acks_acknowledges s window host_surface w :
  st_windows s !! window = Some w ->
  cfg_serial (win_pending_config w) <> 0 ->
  commit_loop_skip COMMIT_LOOP_FIX w = false ->
  valid_surface s host_surface ->
  size_guard_passes w (surface_of s host_surface) ->
  cfg_serial (win_next_config w) = 0
  \/ cfg_mask (win_next_config w) = 0 \/ win_managed w <> 0 ->
  exists s' w' rs,
    sl_process_pending_configure_acks COMMIT_LOOP_FIX window host_surface s
    = Ok 1 s'
    /\ updates_window window w' (ack_request w ++ rs) s s'
    /\ acked_serials rs = []
    /\ win_xdg_surface w' = win_xdg_surface w
    /\ win_managed w' = win_managed w
    /\ (cfg_serial (win_next_config w) = 0 ->
          win_pending_config w' = set_cfg_serial 0 (win_pending_config w)
          /\ win_next_config w' = win_next_config w /\ rs = [])
    /\ (cfg_serial (win_next_config w) <> 0 ->
          win_pending_config w' = win_next_config w
          /\ win_next_config w' = cleared (win_next_config w)).
Proof.
  intros Hw Hs%truthy_true Hskip Hvalid Hguard Hchain. wp_init s. wp_start.
  unfold sl_process_pending_configure_acks, commit_loop_skip in *.
  wp_step. wp_step. rewrite Hs, Hskip. cbn. wp_step.
  (* the guard *)
  assert (Hpass :
    wp (match host_surface with
        | Some hp =>
            if truthy (win_managed w)
            then get_surface hp ≫= fun h =>
                 mret (negb (to_u32 (win_width w + win_border_width w * 2)
                             =? surf_contents_width h)
                       || negb (to_u32 (win_height w + win_border_width w * 2)
                                =? surf_contents_height h))
            else mret false
        | None => mret false
        end) (Build_world c ws ss rq np)
       (fun r => r = Ok false (Build_world c ws ss rq np))).
  { destruct host_surface as [hp|]; [|reflexivity].
    destruct (Hvalid hp eq_refl) as [h Hh]. unfold surface_of in Hguard.
    cbn in Hh, Hguard. rewrite Hh in Hguard. cbn in Hguard.
    destruct (truthy (win_managed w)) eqn:Eg; [|reflexivity].
    destruct Hguard as [Hg|[E1 E2]]; [apply truthy_true in Eg; lia|].
    wp_step. wp_step. wp_step.
    rewrite !(Z.mul_comm (win_border_width w) 2), E1, E2, !Z.eqb_refl.
    reflexivity. }
  eapply wp_eq; [exact Hpass|]. cbn. clear Hpass.
  set (w1 := set_win_pending_config
               (set_cfg_serial 0 (win_pending_config w)) w).
  assert (Hack :
    wp (match win_xdg_surface w with
        | Some xdg_surface =>
            send (xdg_surface_ack_configure xdg_surface
                    (cfg_serial (win_pending_config w)))
        | None => mret ()
        end) (Build_world c ws ss rq np)
       (fun r => r = Ok tt (Build_world c ws ss (rq ++ ack_request w) np))).
  { unfold ack_request. destruct (win_xdg_surface w); cbn.
    - reflexivity.
    - rewrite app_nil_r. reflexivity. }
  wp_step. eapply wp_eq; [exact Hack|]. cbn. clear Hack.
  wp_step. wp_step. wp_step. wp_step. fold w1.
  destruct (truthy (cfg_serial (win_next_config w))) eqn:En; cbn.
  - apply truthy_true in En.
    destruct (sl_configure_window_returns
                (Build_world c (<[window := w1]> ws) ss
                   (rq ++ ack_request w) np) window w1)
      as (s' & w' & rs & E & Hupd & Hp & Hn & Hx & Hm & Hacks).
    { apply lookup_insert_eq. }
    { reflexivity. }
    { cbn. destruct Hchain as [?|[?|?]]; [lia|auto..]. }
    wp_step. eapply wp_eq; [exact E|]. cbn. wp_step.
    exists s', w', rs. split; [reflexivity|]. split.
    { rewrite Hupd. unfold updates_window. cbn.
      rewrite insert_insert_eq, app_assoc. reflexivity. }
    repeat split; auto; lia.
  - apply truthy_false in En. wp_step. wp_step.
    exists (Build_world c (<[window := w1]> ws) ss
              (rq ++ ack_request w ++ []) np), w1, [].
    rewrite app_nil_r. repeat split; auto; lia.
Qed.

Lemma acks_sl_configure_window p :
  keeps (same_log acked_serial) (sl_configure_window p).
Proof. keeps_go same_log_side. Qed.
#[local] Hint Resolve acks_sl_configure_window : keeps.

Lemma to_u32_in_range z : 0 <= z < 2 ^ 32 -> to_u32 z = z.
Proof. intros H. unfold to_u32. apply Z.mod_small. exact H. Qed.

(** C1: [sl_process_pending_configure_acks] changes nothing and returns 0
    when [pending_config.serial] is 0, and also when the window is managed,
    a host surface is given and [width + 2 * border_width] or
    [height + 2 * border_width], as the unsigned 32-bit value the code
    compares, differs from the contents size of the surface (for sizes in
    range, the plain sums). Whenever a run is anything else than this no-op,
    a serial was pending and the size guard passed; and a run past the guard
    (in the [COMMIT_LOOP_FIX] build, of a buffer that carries something)
    acknowledges exactly the pending serial through the shell surface. Such
    a run returns 1 when the assertions of [sl_configure_window] hold for
    the queued buffer: the acknowledgment is the first request it sends and
    the only acknowledgment, and it leaves [pending_config.serial] 0 with
    the rest of the window as it was when nothing is queued, and else the
    queued buffer as the pending one. *)
Theorem process_pending_ack_size_guard s window host_surface w :
  st_windows s !! window = Some w ->
  valid_surface s host_surface ->
  let run :=
    sl_process_pending_configure_acks COMMIT_LOOP_FIX window host_surface s in
  (cfg_serial (win_pending_config w) = 0 -> run = Ok 0 s)
  /\ (forall h,
        surface_of s host_surface = Some h ->
        win_managed w <> 0 ->
        to_u32 (win_width w + 2 * win_border_width w)
          <> surf_contents_width h
        \/ to_u32 (win_height w + 2 * win_border_width w)
             <> surf_contents_height h ->
        run = Ok 0 s)
  /\ (forall h,
        surface_of s host_surface = Some h ->
        win_managed w <> 0 ->
        0 <= win_width w + 2 * win_border_width w < 2 ^ 32 ->
        0 <= win_height w + 2 * win_border_width w < 2 ^ 32 ->
        win_width w + 2 * win_border_width w <> surf_contents_width h
        \/ win_height w + 2 * win_border_width w <> surf_contents_height h ->
        run = Ok 0 s)
  /\ (run <> Ok 0 s ->
        cfg_serial (win_pending_config w) <> 0
        /\ size_guard_passes w (surface_of s host_surface))
  /\ (cfg_serial (win_pending_config w) <> 0 ->
      commit_loop_skip COMMIT_LOOP_FIX w = false ->
      size_guard_passes w (surface_of s host_surface) ->
      acked_serials (st_requests (final run))
      = acked_serials (st_requests s) ++ acked_serials (ack_request w))
  /\ (cfg_serial (win_pending_config w) <> 0 ->
      commit_loop_skip COMMIT_LOOP_FIX w = false ->
      size_guard_passes w (surface_of s host_surface) ->
      cfg_serial (win_next_config w) = 0
      \/ cfg_mask (win_next_config w) = 0 \/ win_managed w <> 0 ->
      exists s' w' rs,
        run = Ok 1 s'
        /\ st_windows s' = <[window := w']> (st_windows s)
        /\ st_requests s' = st_requests s ++ ack_request w ++ rs
        /\ acked_serials rs = []
        /\ (cfg_serial (win_next_config w) = 0 ->
              w' = set_win_pending_config
                     (set_cfg_serial 0 (win_pending_config w)) w
              /\ rs = [])
        /\ (cfg_serial (win_next_config w) <> 0 ->
              win_pending_config w' = win_next_config w
              /\ win_next_config w' = cleared (win_next_config w))).
Proof.
  intros Hw Hvalid run.
  assert (Hnoop : cfg_serial (win_pending_config w) = 0 -> run = Ok 0 s).
  { intros Hs. eapply process_acks_nothing_pending; eauto. }
  assert (Hmis : forall h,
        surface_of s host_surface = Some h ->
        win_managed w <> 0 ->
        to_u32 (win_width w + 2 * win_border_width w)
          <> surf_contents_width h
        \/ to_u32 (win_height w + 2 * win_border_width w)
             <> surf_contents_height h ->
        run = Ok 0 s).
  { intros h Hh Hg Hne. unfold surface_of in Hh.
    destruct host_surface as [hp|]; [|discriminate]. cbn in Hh.
    eapply process_acks_size_mismatch; eauto. }
  split; [exact Hnoop|]. split; [exact Hmis|]. split; [|split; [|split]].
  4:{ intros Hs Hskip Hguard Hchain. subst run.
      destruct (decide (cfg_serial (win_next_config w) = 0)) as [Hn|Hn].
      - rewrite (process_acks_passes s window host_surface w Hw Hs Hskip
                   Hvalid Hguard).
        pose proof Hn as Hn'%truthy_false. rewrite Hn'.
        eexists _, _, []. split; [reflexivity|]. unfold acknowledged. cbn.
        split; [reflexivity|]. split; [rewrite app_nil_r; reflexivity|].
        split; [reflexivity|]. split; [intros _; split; reflexivity|].
        intros Hne. destruct (Hne Hn).
      - destruct (process_acks_acknowledges s window host_surface w)
          as (s' & w' & rs & E & Hupd & Hacks & _ & _ & H0 & H1); auto.
        exists s', w', rs. split; [exact E|]. rewrite Hupd. cbn.
        split; [reflexivity|]. split; [reflexivity|]. split; [exact Hacks|].
        split; [intros Hn0; destruct (Hn Hn0)|exact H1]. }
  - intros h Hh Hg Hw1 Hh1 Hne. apply (Hmis h Hh Hg).
    rewrite !to_u32_in_range by assumption. exact Hne.
  - intros Hrun.
    destruct (decide (cfg_serial (win_pending_config w) = 0)) as [Hs|Hs];
      [destruct (Hrun (Hnoop Hs))|].
    split; [exact Hs|]. unfold size_guard_passes.
    destruct (surface_of s host_surface) as [h|] eqn:Hh; [|exact I].
    destruct (decide (win_managed w = 0)) as [Hg|Hg]; [left; exact Hg|].
    right.
    destruct (decide (to_u32 (win_width w + 2 * win_border_width w)
                      = surf_contents_width h)) as [E1|E1];
      [|destruct (Hrun (Hmis h eq_refl Hg (or_introl E1)))].
    destruct (decide (to_u32 (win_height w + 2 * win_border_width w)
                      = surf_contents_height h)) as [E2|E2];
      [|destruct (Hrun (Hmis h eq_refl Hg (or_intror E2)))].
    split; assumption.
  - intros Hs%truthy_true Hskip Hguard. subst run.
    wp_init s. wp_start.
    unfold sl_process_pending_configure_acks, commit_loop_skip in *.
    wp_step. wp_step. rewrite Hs, Hskip. cbn. wp_step.
    assert (Hpass :
      wp (match host_surface with
          | Some hp =>
              if truthy (win_managed w)
              then get_surface hp ≫= fun h =>
                   mret (negb (to_u32 (win_width w + win_border_width w * 2)
                               =? surf_contents_width h)
                         || negb (to_u32
                                    (win_height w + win_border_width w * 2)
                                  =? surf_contents_height h))
              else mret false
          | None => mret false
          end) (Build_world c ws ss rq np)
         (fun r => r = Ok false (Build_world c ws ss rq np))).
    { destruct host_surface as [hp|]; [|reflexivity].
      destruct (Hvalid hp eq_refl) as [h Hh]. unfold surface_of in Hguard.
      cbn in Hh, Hguard. rewrite Hh in Hguard. cbn in Hguard.
      destruct (truthy (win_managed w)) eqn:Eg; [|reflexivity].
      destruct Hguard as [Hg|[E1 E2]]; [apply truthy_true in Eg; lia|].
      wp_step. wp_step. wp_step.
      rewrite !(Z.mul_comm (win_border_width w) 2), E1, E2, !Z.eqb_refl.
      reflexivity. }
    eapply wp_eq; [exact Hpass|]. cbn. clear Hpass.
    wp_step.
    assert (Hack :
      wp (match win_xdg_surface w with
          | Some xdg_surface =>
              send (xdg_surface_ack_configure xdg_surface
                      (cfg_serial (win_pending_config w)))
          | None => mret ()
          end) (Build_world c ws ss rq np)
         (fun r => r = Ok tt (Build_world c ws ss (rq ++ ack_request w) np))).
    { unfold ack_request. destruct (win_xdg_surface w); cbn.
      - reflexivity.
      - rewrite app_nil_r. reflexivity. }
    eapply wp_eq; [exact Hack|]. cbn. clear Hack.
    wp_step. wp_step. wp_step. wp_step. wp_step.
    eapply (wp_keeps (same_log acked_serial)).
    { keeps_go same_log_side. }
    intros [a s1|f s1] Hlog; unfold same_log in Hlog; cbn in Hlog.
    + wp_step. unfold acked_serials. cbn. rewrite <- Hlog. apply omap_app.
    + unfold acked_serials. cbn. rewrite <- Hlog. apply omap_app.
Qed.

(** ** The two configure buffers *)

Lemma surface_configure_queues s window w serial :
  st_windows s !! window = Some w ->
  cfg_serial (win_pending_config w) <> 0 ->
  sl_internal_xdg_surface_configure COMMIT_LOOP_FIX window serial s
  = Ok tt
      (set_st_windows
         (<[window := set_win_next_config
                        (set_cfg_serial serial (win_next_config w)) w]>
            (st_windows s)) s).
Proof.
  intros Hw Hs%truthy_true. wp_init s. wp_start.
  unfold sl_internal_xdg_surface_configure.
  wp_step. wp_step. wp_step. wp_step. rewrite Hs. cbn. wp_step. reflexivity.
Qed.

Lemma deliver_configures_queues serials : forall s window w,
  st_windows s !! window = Some w ->
  cfg_serial (win_pending_config w) <> 0 ->
  deliver_configures COMMIT_LOOP_FIX window serials s
  = Ok tt
      (set_st_windows
         (<[window := set_win_next_config
                        (set_cfg_serial
                           (default (cfg_serial (win_next_config w))
                              (last serials))
                           (win_next_config w)) w]>
            (st_windows s)) s).
Proof.
  induction serials as [|serial serials IH]; intros s window w Hw Hs.
  - cbn. rewrite set_cfg_serial_same, set_win_next_config_same.
    rewrite insert_id by exact Hw. rewrite set_st_windows_same. reflexivity.
  - cbn [deliver_configures]. unfold mbind, M_bind.
    rewrite (surface_configure_queues s window w serial Hw Hs).
    erewrite IH; [|apply lookup_insert_eq|exact Hs].
    replace (default (cfg_serial (win_next_config w))
               (last (serial :: serials)))
      with (default serial (last serials))
      by (rewrite last_cons; destruct (last serials); reflexivity).
    destruct s. cbn. rewrite insert_insert_eq. reflexivity.
Qed.

(** C2: a shell-surface configure that arrives while
    [pending_config.serial] is nonzero only stores its serial in
    [next_config]: the pending buffer, the rest of the window and the log are
    as before, for one callback and for every sequence of them. When
    [sl_configure_window] runs (nothing pending, its assertion on [managed]
    holding), the former [next_config] becomes [pending_config] and
    [next_config] is left with mask 0, states length 0 and serial 0. *)
Theorem configure_queues_while_pending s window w :
  st_windows s !! window = Some w ->
  (cfg_serial (win_pending_config w) <> 0 ->
     (forall serial,
        sl_internal_xdg_surface_configure COMMIT_LOOP_FIX window serial s
        = Ok tt
            (set_st_windows
               (<[window := set_win_next_config
                              (set_cfg_serial serial (win_next_config w)) w]>
                  (st_windows s)) s))
     /\ (forall serials,
           exists s' w',
             deliver_configures COMMIT_LOOP_FIX window serials s = Ok tt s'
             /\ st_windows s' !! window = Some w'
             /\ win_pending_config w' = win_pending_config w
             /\ win_next_config w'
                = set_cfg_serial
                    (default (cfg_serial (win_next_config w)) (last serials))
                    (win_next_config w)
             /\ st_requests s' = st_requests s))
  /\ (cfg_serial (win_pending_config w) = 0 ->
      cfg_mask (win_next_config w) = 0 \/ win_managed w <> 0 ->
      exists s' w',
        sl_configure_window window s = Ok tt s'
        /\ st_windows s' !! window = Some w'
        /\ win_pending_config w' = win_next_config w
        /\ cfg_serial (win_next_config w') = 0
        /\ cfg_mask (win_next_config w') = 0
        /\ cfg_states_length (win_next_config w') = 0).
Proof.
  intros Hw. split.
  - intros Hs. split.
    + intros serial. apply surface_configure_queues; assumption.
    + intros serials. eexists _, _. split.
      { apply deliver_configures_queues; eassumption. }
      cbn. split; [apply lookup_insert_eq|]. repeat split.
  - intros Hs Hm.
    destruct (sl_configure_window_returns s window w Hw Hs Hm)
      as (s' & w' & rs & E & Hupd & Hp & Hn & _).
    exists s', w'. split; [exact E|]. split.
    { rewrite Hupd. cbn. apply lookup_insert_eq. }
    split; [exact Hp|]. rewrite Hn. repeat split.
Qed.

Lemma ack_cycles_idle n : forall s window host_surface w,
  st_windows s !! window = Some w ->
  cfg_serial (win_pending_config w) = 0 ->
  ack_cycles COMMIT_LOOP_FIX n window host_surface s = Ok tt s.
Proof.
  induction n as [|n IH]; intros s window host_surface w Hw Hs.
  - reflexivity.
  - cbn [ack_cycles]. unfold mbind, M_bind.
    rewrite (process_acks_nothing_pending s window host_surface w Hw Hs).
    eapply IH; eassumption.
Qed.

Lemma ack_cycles_skipped n : forall s window host_surface w,
  st_windows s !! window = Some w ->
  commit_loop_skip COMMIT_LOOP_FIX w = true ->
  ack_cycles COMMIT_LOOP_FIX n window host_surface s = Ok tt s.
Proof.
  induction n as [|n IH]; intros s window host_surface w Hw Hskip.
  - reflexivity.
  - cbn [ack_cycles]. unfold mbind, M_bind.
    rewrite (process_acks_commit_loop_skip s window host_surface w Hw Hskip).
    eapply IH; eassumption.
Qed.

Lemma size_guard_passes_same w w' h :
  win_managed w' = win_managed w ->
  win_width w' = win_width w ->
  win_height w' = win_height w ->
  win_border_width w' = win_border_width w ->
  size_guard_passes w h -> size_guard_passes w' h.
Proof. unfold size_guard_passes. intros -> -> -> ->. auto. Qed.

Lemma set_cfg_serial_twice a b c :
  set_cfg_serial a (set_cfg_serial b c) = set_cfg_serial a c.
Proof. destruct c. reflexivity. Qed.

(** Past the guard with a queued serial: the call of [sl_configure_window]
    and what it leaves. *)
Lemma process_acks_chains s window host_surface w :
  st_windows s !! window = Some w ->
  cfg_serial (win_pending_config w) <> 0 ->
  commit_loop_skip COMMIT_LOOP_FIX w = false ->
  valid_surface s host_surface ->
  size_guard_passes w (surface_of s host_surface) ->
  cfg_serial (win_next_config w) <> 0 ->
  cfg_mask (win_next_config w) = 0 \/ win_managed w <> 0 ->
  exists s' w' rs,
    sl_process_pending_configure_acks COMMIT_LOOP_FIX window host_surface s
    = Ok 1 s'
    /\ sl_configure_window window (acknowledged window w s) = Ok tt s'
    /\ updates_window window w' (ack_request w ++ rs) s s'
    /\ acked_serials rs = []
    /\ win_pending_config w' = win_next_config w
    /\ win_next_config w' = cleared (win_next_config w)
    /\ win_xdg_surface w' = win_xdg_surface w
    /\ win_managed w' = win_managed w
    /\ win_width w' = win_width (with_queued_size w)
    /\ win_height w' = win_height (with_queued_size w)
    /\ win_border_width w' = win_border_width (with_queued_size w).
Proof.
  intros Hw Hs Hskip Hvalid Hguard Hn Hm.
  rewrite (process_acks_passes s window host_surface w Hw Hs Hskip Hvalid
             Hguard).
  apply truthy_true in Hn. rewrite Hn.
  set (w1 := set_win_pending_config
               (set_cfg_serial 0 (win_pending_config w)) w).
  destruct (sl_configure_window_sized (acknowledged window w s) window w1)
    as (s' & w' & rs & E & Hupd & Hp & Hq & Hx & Hg & Hacks & Hwidth
        & Hheight & Hborder).
  { unfold acknowledged. cbn. apply lookup_insert_eq. }
  { reflexivity. }
  { exact Hm. }
  exists s', w', rs. rewrite E. split; [reflexivity|].
  split; [reflexivity|]. split.
  { rewrite Hupd. unfold updates_window, acknowledged. cbn.
    rewrite insert_insert_eq, app_assoc. reflexivity. }
  repeat split; assumption.
Qed.

(** C3 (as amended): past its guard, [sl_process_pending_configure_acks]
    sends the acknowledgment of the pending serial through the shell
    surface of the window (without one it sends none), clears the serial
    and, if [next_config.serial] is nonzero, calls [sl_configure_window] at
    once on the queued buffer, which becomes the pending one when the
    assertion of that function holds (a zero mask or a managed window). The
    queue has one slot: of the configures that arrive while one is pending
    each overwrites the serial queued before it. So after any nonempty
    sequence of them, when the guard passes on the window and again on the
    size the queued buffer gives it, the acknowledgments of a window with a
    shell surface are the pending serial and then the last serial of the
    sequence, one per call, and later calls acknowledge nothing. In the
    [COMMIT_LOOP_FIX] build this needs a queued buffer with a mask or
    states: one with neither is applied and stays pending, and only the
    first serial is acknowledged. *)
Theorem pending_ack_chains_one_queued_configure s window w :
  st_windows s !! window = Some w ->
  cfg_serial (win_pending_config w) <> 0 ->
  let acknowledges (serials : list Z) :=
    match win_xdg_surface w with Some _ => serials | None => [] end in
  let queued_is_empty :=
    negb (truthy (cfg_mask (win_next_config w)))
    && (cfg_states_length (win_next_config w) =? 0) in
  (forall host_surface,
     commit_loop_skip COMMIT_LOOP_FIX w = false ->
     valid_surface s host_surface ->
     size_guard_passes w (surface_of s host_surface) ->
     let run :=
       sl_process_pending_configure_acks COMMIT_LOOP_FIX
         window host_surface s in
     acked_serials (st_requests (final run))
     = acked_serials (st_requests s)
       ++ acknowledges [cfg_serial (win_pending_config w)]
     /\ (cfg_serial (win_next_config w) = 0 ->
           run = Ok 1 (acknowledged window w s))
     /\ (cfg_serial (win_next_config w) <> 0 ->
           run = match sl_configure_window window (acknowledged window w s)
                 with
                 | Ok _ s' => Ok 1 s'
                 | Crash f s' => Crash f s'
                 end
           /\ (cfg_mask (win_next_config w) = 0 \/ win_managed w <> 0 ->
               exists s' w' rs,
                 run = Ok 1 s'
                 /\ sl_configure_window window (acknowledged window w s)
                    = Ok tt s'
                 /\ st_windows s' !! window = Some w'
                 /\ st_requests s' = st_requests s ++ ack_request w ++ rs
                 /\ acked_serials rs = []
                 /\ win_pending_config w' = win_next_config w
                 /\ win_next_config w' = cleared (win_next_config w))))
  /\ (forall host_surface serials last_serial k,
        last serials = Some last_serial ->
        last_serial <> 0 ->
        cfg_mask (win_next_config w) = 0 \/ win_managed w <> 0 ->
        commit_loop_skip COMMIT_LOOP_FIX w = false ->
        valid_surface s host_surface ->
        size_guard_passes w (surface_of s host_surface) ->
        let run :=
          (deliver_configures COMMIT_LOOP_FIX window serials;;
           ack_cycles COMMIT_LOOP_FIX (2 + k) window host_surface) s in
        (COMMIT_LOOP_FIX && queued_is_empty = false ->
         size_guard_passes (with_queued_size w)
           (surface_of s host_surface) ->
         exists s' w',
           run = Ok tt s'
           /\ st_windows s' !! window = Some w'
           /\ win_pending_config w'
              = set_cfg_serial 0 (win_next_config w)
           /\ win_next_config w' = cleared (win_next_config w)
           /\ acked_serials (st_requests s')
              = acked_serials (st_requests s)
                ++ acknowledges
                     [cfg_serial (win_pending_config w); last_serial])
        /\ (COMMIT_LOOP_FIX && queued_is_empty = true ->
            exists s' w',
              run = Ok tt s'
              /\ st_windows s' !! window = Some w'
              /\ win_pending_config w'
                 = set_cfg_serial last_serial (win_next_config w)
              /\ win_next_config w' = cleared (win_next_config w)
              /\ acked_serials (st_requests s')
                 = acked_serials (st_requests s)
                   ++ acknowledges [cfg_serial (win_pending_config w)])).
Proof.
  intros Hw Hs acknowledges queued_is_empty.
  assert (Hown : forall v : sl_window,
            win_xdg_surface v = win_xdg_surface w ->
            acked_serials (ack_request v)
            = acknowledges [cfg_serial (win_pending_config v)]).
  { intros v Hv. unfold ack_request, acknowledges. rewrite Hv.
    destruct (win_xdg_surface w); reflexivity. }
  split.
  - intros host_surface Hskip Hvalid Hguard run.
    pose proof (process_acks_passes s window host_surface w Hw Hs Hskip
                  Hvalid Hguard) as E.
    fold run in E.
    assert (Hlog : acked_serials (st_requests (acknowledged window w s))
                   = acked_serials (st_requests s)
                     ++ acknowledges [cfg_serial (win_pending_config w)]).
    { unfold acknowledged. cbn. rewrite acked_serials_app.
      rewrite (Hown w) by reflexivity. reflexivity. }
    destruct (decide (cfg_serial (win_next_config w) = 0)) as [Hn|Hn].
    + pose proof Hn as Hn'%truthy_false. rewrite Hn' in E.
      split; [rewrite E; exact Hlog|].
      split; [intros _; exact E|]. intros Hne. destruct (Hne Hn).
    + pose proof Hn as Hn'%truthy_true. rewrite Hn' in E.
      split.
      { rewrite E, <- Hlog.
        pose proof (acks_sl_configure_window window
                      (acknowledged window w s)) as K.
        unfold same_log in K. fold acked_serials in K.
        destruct (sl_configure_window window (acknowledged window w s))
          as [[] s'|f s']; cbn in K |- *; symmetry; exact K. }
      split; [intros Hn0; destruct (Hn Hn0)|].
      intros _. split; [exact E|]. intros Hm.
      destruct (process_acks_chains s window host_surface w)
        as (s' & w' & rs & E' & Hcall & Hupd & Hacks & Hp & Hq & _);
        [assumption..|].
      exists s', w', rs. split; [exact E'|]. split; [exact Hcall|].
      rewrite Hupd. cbn.
      split; [apply lookup_insert_eq|]. split; [reflexivity|].
      split; [exact Hacks|]. split; assumption.
  - intros host_surface serials n k Hlast Hn Hm Hskip Hvalid Hguard run.
    (* the queued configures *)
    pose proof (deliver_configures_queues serials s window w Hw Hs) as E1.
    rewrite Hlast in E1.
    change (default (cfg_serial (win_next_config w)) (Some n)) with n in E1.
    set (w1 := set_win_next_config (set_cfg_serial n (win_next_config w)) w)
      in E1.
    set (s1 := set_st_windows (<[window := w1]> (st_windows s)) s) in E1.
    assert (Hw1 : st_windows s1 !! window = Some w1)
      by (cbn; apply lookup_insert_eq).
    (* the first cycle *)
    destruct (process_acks_chains s1 window host_surface w1)
      as (s2 & w2 & rs & E2 & _ & Hupd2 & Hacks2 & Hp2 & Hq2 & Hx2 & Hg2
          & Hwidth2 & Hheight2 & Hborder2); try assumption.
    assert (Hw2 : st_windows s2 !! window = Some w2)
      by (rewrite Hupd2; cbn; apply lookup_insert_eq).
    assert (Hlog2 : acked_serials (st_requests s2)
                    = acked_serials (st_requests s)
                      ++ acknowledges [cfg_serial (win_pending_config w)]).
    { rewrite Hupd2. cbn. rewrite !acked_serials_app, Hacks2, app_nil_r.
      rewrite (Hown w1) by reflexivity. reflexivity. }
    assert (Hskip2 : commit_loop_skip COMMIT_LOOP_FIX w2
                     = COMMIT_LOOP_FIX && queued_is_empty).
    { unfold commit_loop_skip, queued_is_empty. rewrite Hp2. cbn.
      symmetry. apply andb_assoc. }
    assert (Erun : run
                   = ack_cycles COMMIT_LOOP_FIX (S k) window host_surface s2).
    { subst run. unfold mbind at 1, M_bind at 1. rewrite E1.
      change (2 + k)%nat with (S (S k)). cbn [ack_cycles].
      unfold mbind at 1, M_bind at 1. rewrite E2. reflexivity. }
    rewrite Erun. clear Erun run. cbn [ack_cycles].
    split.
    + (* the second cycle acknowledges *)
      intros Hcarries Hguard2.
      pose proof (process_acks_passes s2 window host_surface w2 Hw2) as E3.
      rewrite Hp2, Hq2 in E3. cbn in E3.
      unfold mbind, M_bind. rewrite E3; clear E3.
      * exists (acknowledged window w2 s2). eexists. split.
        { eapply ack_cycles_idle;
            [unfold acknowledged; cbn; apply lookup_insert_eq|reflexivity]. }
        unfold acknowledged. cbn. split; [apply lookup_insert_eq|].
        cbn. rewrite Hp2, Hq2. cbn. rewrite set_cfg_serial_twice.
        split; [reflexivity|]. split; [reflexivity|].
        rewrite acked_serials_app, Hlog2, <- app_assoc. f_equal.
        unfold ack_request, acknowledges. rewrite Hx2, Hp2. cbn.
        destruct (win_xdg_surface w); reflexivity.
      * exact Hn.
      * rewrite Hskip2. exact Hcarries.
      * rewrite Hupd2. exact Hvalid.
      * rewrite Hupd2. cbn.
        apply (size_guard_passes_same (with_queued_size w));
          [exact Hg2|exact Hwidth2|exact Hheight2|exact Hborder2|].
        exact Hguard2.
    + (* the second cycle is skipped *)
      intros Hempty. exists s2, w2. split.
      { unfold mbind, M_bind.
        rewrite (process_acks_commit_loop_skip s2 window host_surface w2 Hw2)
          by (rewrite Hskip2; exact Hempty).
        eapply ack_cycles_skipped; [exact Hw2|].
        rewrite Hskip2. exact Hempty. }
      split; [exact Hw2|]. rewrite Hp2, Hq2. cbn.
      split; [reflexivity|]. split; [reflexivity|]. exact Hlog2.
Qed.

(** C10: when a serial is pending, the guard passes and the window has no
    shell surface, [sl_process_pending_configure_acks] sends no
    acknowledgment, yet returns 1 with the pending serial consumed (what is
    pending afterwards is the buffer that was queued, if any), and
    [sl_commit] then commits the host surface. *)
Theorem ack_dropped_without_shell_surface s window host_surface w :
  st_windows s !! window = Some w ->
  cfg_serial (win_pending_config w) <> 0 ->
  commit_loop_skip COMMIT_LOOP_FIX w = false ->
  valid_surface s host_surface ->
  size_guard_passes w (surface_of s host_surface) ->
  cfg_serial (win_next_config w) = 0
  \/ cfg_mask (win_next_config w) = 0 \/ win_managed w <> 0 ->
  win_xdg_surface w = None ->
  exists s1 w1,
    sl_process_pending_configure_acks COMMIT_LOOP_FIX window host_surface s
    = Ok 1 s1
    /\ st_windows s1 !! window = Some w1
    /\ cfg_serial (win_pending_config w1) = cfg_serial (win_next_config w)
    /\ acked_serials (st_requests s1) = acked_serials (st_requests s)
    /\ forall hp h,
         host_surface = Some hp ->
         st_surfaces s !! hp = Some h ->
         sl_commit COMMIT_LOOP_FIX window host_surface s
         = Ok tt (set_st_requests
                    (st_requests s1 ++ [wl_surface_commit (surf_proxy h)])
                    s1).
Proof.
  intros Hw Hs Hskip Hvalid Hguard Hchain Hx.
  destruct (process_acks_acknowledges s window host_surface w)
    as (s1 & w1 & rs & E & Hupd & Hacks & _ & _ & H0 & H1); auto.
  exists s1, w1. split; [exact E|]. split.
  { rewrite Hupd. cbn. apply lookup_insert_eq. }
  split.
  { destruct (decide (cfg_serial (win_next_config w) = 0)) as [Hn|Hn].
    - destruct (H0 Hn) as (-> & _). rewrite Hn. reflexivity.
    - destruct (H1 Hn) as (-> & _). reflexivity. }
  split.
  { rewrite Hupd. cbn. unfold ack_request. rewrite Hx, app_nil_l.
    rewrite acked_serials_app, Hacks. apply app_nil_r. }
  intros hp h -> Hh. unfold sl_commit, mbind, M_bind. rewrite E. cbn.
  unfold get_surface. rewrite Hupd. cbn. rewrite Hh. reflexivity.
Qed.

(** ** [sl_update_application_id] *)

Lemma append_empty_r (s : string) : s +:+ "" = s.
Proof.
  induction s as [|a s IH]; [reflexivity|].
  change (String a (s +:+ "") = String a s). rewrite IH. reflexivity.
Qed.

Lemma append_assoc (a b c : string) : (a +:+ b) +:+ c = a +:+ (b +:+ c).
Proof.
  induction a as [|x a IH]; [reflexivity|].
  change (String x ((a +:+ b) +:+ c) = String x (a +:+ (b +:+ c))).
  rewrite IH. reflexivity.
Qed.

Lemma xprop_application_id vm property :
  sl_xasprintf X11_PROPERTY_APPLICATION_ID_FORMAT [arg_s vm; arg_s property]
  = "org.chromium.guest_os." +:+ vm +:+ ".xprop." +:+ property.
Proof.
  change X11_PROPERTY_APPLICATION_ID_FORMAT
    with "org.chromium.guest_os.%s.xprop.%s"%string.
  cbn [sl_xasprintf]. rewrite append_empty_r. reflexivity.
Qed.

Lemma wmclass_application_id vm clazz :
  sl_xasprintf WM_CLASS_APPLICATION_ID_FORMAT [arg_s vm; arg_s clazz]
  = "org.chromium.guest_os." +:+ vm +:+ ".wmclass." +:+ clazz.
Proof.
  change WM_CLASS_APPLICATION_ID_FORMAT
    with "org.chromium.guest_os.%s.wmclass.%s"%string.
  cbn [sl_xasprintf]. rewrite append_empty_r. reflexivity.
Qed.

Lemma wmclientleader_application_id vm leader :
  sl_xasprintf WM_CLIENT_LEADER_APPLICATION_ID_FORMAT [arg_s vm; arg_d leader]
  = "org.chromium.guest_os." +:+ vm +:+ ".wmclientleader."
    +:+ pretty (to_i32 leader).
Proof.
  change WM_CLIENT_LEADER_APPLICATION_ID_FORMAT
    with "org.chromium.guest_os.%s.wmclientleader.%d"%string.
  cbn [sl_xasprintf]. rewrite append_empty_r. reflexivity.
Qed.

Lemma xid_application_id vm id :
  sl_xasprintf XID_APPLICATION_ID_FORMAT [arg_s vm; arg_d id]
  = "org.chromium.guest_os." +:+ vm +:+ ".xid." +:+ pretty (to_i32 id).
Proof.
  change XID_APPLICATION_ID_FORMAT
    with "org.chromium.guest_os.%s.xid.%d"%string.
  cbn [sl_xasprintf]. rewrite append_empty_r. reflexivity.
Qed.

(** C8: [sl_update_application_id] does nothing without an aura surface;
    with a fixed application id in the context it pushes that id verbatim;
    otherwise, for a window that is managed or whose context is not
    Xwayland, it pushes an id built from the VM-scoped template of the first
    of: the identity property if not empty, the class if set, the client
    leader if not [XCB_WINDOW_NONE], the window id. (For an unmanaged
    window of an Xwayland context it pushes nothing.) *)
Theorem application_id_priority s window w :
  st_windows s !! window = Some w ->
  let c := st_ctx s in
  let run := sl_update_application_id window s in
  let pushed aura id :=
    Ok tt (set_st_requests
             (st_requests s ++ [zaura_surface_set_application_id aura id])
             s) in
  let scoped := "org.chromium.guest_os." +:+ ctx_vm_id c in
  (win_aura_surface w = None -> run = Ok tt s)
  /\ (forall aura,
        win_aura_surface w = Some aura ->
        (forall fixed,
           ctx_application_id c = Some fixed -> run = pushed aura fixed)
        /\ (ctx_application_id c = None ->
            (ctx_xwayland c <> 0 -> win_managed w = 0 -> run = Ok tt s)
            /\ (win_managed w <> 0 \/ ctx_xwayland c = 0 ->
                (win_app_id_property w <> "" ->
                   run = pushed aura
                           (scoped +:+ ".xprop."
                            +:+ win_app_id_property w))
                /\ (win_app_id_property w = "" ->
                    (forall clazz,
                       win_clazz w = Some clazz ->
                       run = pushed aura (scoped +:+ ".wmclass." +:+ clazz))
                    /\ (win_clazz w = None ->
                        (win_client_leader w <> XCB_WINDOW_NONE ->
                           run = pushed aura
                                   (scoped +:+ ".wmclientleader."
                                    +:+ pretty
                                          (to_i32 (win_client_leader w))))
                        /\ (win_client_leader w = XCB_WINDOW_NONE ->
                              run = pushed aura
                                      (scoped +:+ ".xid."
                                       +:+ pretty
                                             (to_i32 (win_id w))))))))).
Proof.
  intros Hw. cbv zeta. wp_init s. unfold sl_update_application_id. split.
  - intros Ha. wp_start. wp_step. wp_step. wp_step. wp_step.
    rewrite Ha. wp_step. reflexivity.
  - intros aura Ha. split.
    + intros fixed Hf. wp_start. wp_step. wp_step. wp_step. wp_step.
      rewrite Ha, Hf. wp_step. reflexivity.
    + intros Hf. split.
      * intros Hx%truthy_true Hg%truthy_false. wp_start.
        wp_step. wp_step. wp_step. wp_step.
        rewrite Ha, Hf, Hx, Hg. cbn. wp_step. reflexivity.
      * intros Hcond.
        assert (Hc : negb (truthy (ctx_xwayland c))
                     || truthy (win_managed w) = true).
        { destruct Hcond as [Hg%truthy_true| ->]; [|reflexivity].
          rewrite Hg. apply orb_true_r. }
        split; [|split; [|split]].
        -- intros Hp%String.eqb_neq. wp_start.
           wp_step. wp_step. wp_step. wp_step.
           rewrite Ha, Hf, Hc, Hp. cbn. wp_step.
           rewrite xprop_application_id, append_assoc. reflexivity.
        -- intros clazz Hcl. wp_start.
           wp_step. wp_step. wp_step. wp_step.
           rewrite Ha, Hf, Hc, H, Hcl. cbn. wp_step.
           rewrite wmclass_application_id, append_assoc. reflexivity.
        -- intros Hl%Z.eqb_neq. wp_start.
           wp_step. wp_step. wp_step. wp_step.
           rewrite Ha, Hf, Hc, H, H0, Hl. cbn. wp_step.
           rewrite wmclientleader_application_id, append_assoc.
           reflexivity.
        -- intros Hl%Z.eqb_eq. wp_start.
           wp_step. wp_step. wp_step. wp_step.
           rewrite Ha, Hf, Hc, H, H0, Hl. cbn. wp_step.
           rewrite xid_application_id, append_assoc. reflexivity.
Qed.

(** ** The toplevel configure callback *)


Lemma values_toplevel_configure_states window states : forall i activated,
  keeps (same_field next_values)
    (toplevel_configure_states window states i activated).
Proof.
  induction states as [|state states IH]; intros i activated;
    cbn [toplevel_configure_states]; keeps_go same_field_side.
Qed.

Lemma surfaces_toplevel_configure_states window states : forall i activated,
  keeps same_surfaces (toplevel_configure_states window states i activated).
Proof.
  induction states as [|state states IH]; intros i activated;
    cbn [toplevel_configure_states]; keeps_go same_ctx_side.
Qed.
#[local] Hint Resolve values_toplevel_configure_states
  surfaces_toplevel_configure_states : keeps.

Lemma has_bit_false mask bit : Z.land mask bit = 0 -> has_bit mask bit = false.
Proof. intros H. unfold has_bit. rewrite H. reflexivity. Qed.

(** The size block stores the centred position in the first two values. *)
Lemma toplevel_configure_size_centers s window w width height :
  st_windows s !! window = Some w ->
  Z.land (win_size_flags w) (Z.lor US_POSITION P_POSITION) = 0 ->
  List.length (cfg_values (win_next_config w)) = CONFIG_VALUES_CAPACITY ->
  wp (toplevel_configure_size sl_transform_host_to_guest
        sl_transform_try_window_scale window width height) s
    (fun r => forall s1, r = Ok tt s1 ->
       st_ctx s1 = st_ctx s
       /\ exists w1,
            st_windows s1 !! window = Some w1
            /\ let paired := surface_of s1 (win_paired_surface w) in
               let size :=
                 sl_transform_host_to_guest (st_ctx s) paired width height in
               cfg_mask (win_next_config w1) = 31
               /\ cfg_values (win_next_config w1) !! 0%nat
                  = Some (to_u32
                            match paired ≫= surf_output with
                            | Some output =>
                                out_virt_x output
                                + (out_width output - size.1) `quot` 2
                            | None =>
                                screen_width_in_pixels (ctx_screen (st_ctx s))
                                  `quot` 2 - size.1 `quot` 2
                            end)
               /\ cfg_values (win_next_config w1) !! 1%nat
                  = Some (to_u32
                            match paired ≫= surf_output with
                            | Some output =>
                                out_virt_y output
                                + (out_height output - size.2) `quot` 2
                            | None =>
                                screen_height_in_pixels (ctx_screen (st_ctx s))
                                  `quot` 2 - size.2 `quot` 2
                            end)).
Proof.
  intros Hw Hflags%has_bit_false Hlen. wp_init s.
  destruct (cfg_values (win_next_config w))
    as [|v0 [|v1 [|v2 [|v3 [|v4 [|]]]]]] eqn:Hvalues; try discriminate.
  unfold toplevel_configure_size, transform_host_to_guest,
    transform_try_window_scale, store_value.
  wp_step. wp_step. wp_step.
  destruct (win_paired_surface w) as [sp|] eqn:Hsp; cbn.
  - destruct (ss !! sp) as [h|] eqn:Hh.
    2:{ wp_step. wp_step. intros s1 [=]. }
    wp_step. wp_step. wp_step. wp_step. wp_step.
    all: repeat (wp_step; rewrite ?Hflags, ?Hsp, ?Hvalues; cbn).
    all: intros s1 [= <-]; (split; [reflexivity|]);
      eexists; (split; [apply lookup_insert_eq|]);
      unfold surface_of;
      repeat (progress
                (cbn; rewrite ?Hh, ?lookup_insert_eq;
                 repeat match goal with
                        | H : sl_transform_host_to_guest _ _ _ _ = _ |- _ =>
                            rewrite H; clear H
                        | H : surf_output _ = _ |- _ => rewrite H; clear H
                        end));
      rewrite ?Hvalues; repeat split; reflexivity.
  - repeat (wp_step; rewrite ?Hflags, ?Hsp, ?Hvalues; cbn).
    all: intros s1 [= <-]; (split; [reflexivity|]);
      eexists; (split; [apply lookup_insert_eq|]);
      unfold surface_of;
      repeat (progress
                (cbn;
                 repeat match goal with
                        | H : sl_transform_host_to_guest _ _ _ _ = _ |- _ =>
                            rewrite H; clear H
                        end));
      rewrite ?Hvalues; repeat split; reflexivity.
Qed.

(** C6 (as amended): for a managed window without [US_POSITION] and
    [P_POSITION] and a proposed size with nonzero width and height, the first
    two values of [next_config], stored as unsigned 32-bit values, are the
    centred position computed from the size in pixels that the transform
    returns: with a paired surface that has an output,
    [virt_x + (output width - width) / 2] and
    [virt_y + (output height - height) / 2]; otherwise
    [screen width / 2 - width / 2] and [screen height / 2 - height / 2],
    each half truncated on its own. *)
Theorem toplevel_configure_centers s window w width height states s' :
  st_windows s !! window = Some w ->
  win_managed w <> 0 ->
  width <> 0 -> height <> 0 ->
  Z.land (win_size_flags w) (Z.lor US_POSITION P_POSITION) = 0 ->
  List.length (cfg_values (win_next_config w)) = CONFIG_VALUES_CAPACITY ->
  sl_internal_xdg_toplevel_configure sl_transform_host_to_guest
    sl_transform_try_window_scale window width height states s = Ok tt s' ->
  let paired := surface_of s' (win_paired_surface w) in
  let size := sl_transform_host_to_guest (st_ctx s) paired width height in
  exists w',
    st_windows s' !! window = Some w'
    /\ cfg_mask (win_next_config w')
       = Z.lor XCB_CONFIG_WINDOW_X (Z.lor XCB_CONFIG_WINDOW_Y
           (Z.lor XCB_CONFIG_WINDOW_WIDTH (Z.lor XCB_CONFIG_WINDOW_HEIGHT
              XCB_CONFIG_WINDOW_BORDER_WIDTH)))
    /\ cfg_values (win_next_config w') !! 0%nat
       = Some (to_u32
                 match paired ≫= surf_output with
                 | Some output =>
                     out_virt_x output + (out_width output - size.1) `quot` 2
                 | None =>
                     screen_width_in_pixels (ctx_screen (st_ctx s)) `quot` 2
                     - size.1 `quot` 2
                 end)
    /\ cfg_values (win_next_config w') !! 1%nat
       = Some (to_u32
                 match paired ≫= surf_output with
                 | Some output =>
                     out_virt_y output + (out_height output - size.2) `quot` 2
                 | None =>
                     screen_height_in_pixels (ctx_screen (st_ctx s)) `quot` 2
                     - size.2 `quot` 2
                 end).
Proof.
  intros Hw Hg%truthy_true Hwidth%truthy_true Hheight%truthy_true
    Hflags Hlen Hrun. cbv zeta.
  revert Hrun. wp_start. unfold sl_internal_xdg_toplevel_configure.
  wp_step.
  eapply wp_get_window_any; [exact Hw|].
  rewrite Hg. cbn. wp_step. rewrite Hwidth, Hheight. unfold when. cbn.
  eapply wp_consequence;
    [apply toplevel_configure_size_centers; eassumption|].
  intros [[] s1|f s1] Hsize; [|intros [=]]. cbn.
  destruct (Hsize s1 eq_refl) as (Hctx & w1 & Hw1 & Hmask & Hx & Hy).
  clear Hsize. cbv zeta in Hx, Hy.
  eapply (wp_keeps (both (same_field next_values) same_surfaces)).
  { apply keeps_both; [keeps_go same_field_side|keeps_go same_ctx_side]. }
  intros r [Hvalues Hsurfaces] ->. cbn in Hvalues, Hsurfaces.
  specialize (Hvalues window). rewrite Hw1 in Hvalues. cbn in Hvalues.
  destruct (st_windows s' !! window) as [w'|] eqn:Hw'; [|discriminate].
  injection Hvalues as Hm' Hv'.
  exists w'. split; [reflexivity|].
  unfold surface_of, same_surfaces in *. rewrite <- Hsurfaces, <- Hm', <- Hv'.
  split; [exact Hmask|]. split; [exact Hx|exact Hy].
Qed.

(** C7: for a managed window, the proposed state list fullscreen, maximized,
    activated makes the callback store a fourth state atom, past the three
    slots of the state list of [next_config]. *)
Theorem toplevel_configure_overflows_states s window w :
  st_windows s !! window = Some w ->
  win_managed w <> 0 ->
  exists s',
    sl_internal_xdg_toplevel_configure sl_transform_host_to_guest
      sl_transform_try_window_scale window 0 0
      [XDG_TOPLEVEL_STATE_FULLSCREEN; XDG_TOPLEVEL_STATE_MAXIMIZED;
       XDG_TOPLEVEL_STATE_ACTIVATED] s
    = Crash OutOfBounds s'.
Proof.
  intros Hw Hg%truthy_true. wp_init s. wp_start.
  unfold sl_internal_xdg_toplevel_configure.
  wp_step. wp_step. rewrite Hg. cbn.
  unfold store_state.
  repeat wp_step. eauto.
Qed.

(** ** [sl_window_update] *)

Lemma final_bind {A B} (m : M A) (k : A -> M B) s :
  final ((m ≫= k) s)
  = match m s with
    | Ok a s1 => final (k a s1)
    | Crash _ s1 => s1
    end.
Proof. unfold mbind, M_bind. destruct (m s); reflexivity. Qed.

Lemma bind_returns {A B} (m : M A) (k : A -> M B) s b s' :
  (m ≫= k) s = Ok b s' ->
  exists a s1, m s = Ok a s1 /\ k a s1 = Ok b s'.
Proof. unfold mbind, M_bind. destruct (m s) as [a s1|]; [eauto|discriminate]. Qed.

(** After a step that keeps [R], a property of the last state follows from
    the property after the rest of the run, or at the crash. *)
Lemma final_bind_keeps {A B} (R : relation world) (P : world -> Prop)
    (m : M A) (k : A -> M B) s :
  keeps R m ->
  (forall s1, R s s1 -> P s1) ->
  (forall a s1, R s s1 -> P (final (k a s1))) ->
  P (final ((m ≫= k) s)).
Proof.
  intros Hm Hcrash Hrest. rewrite final_bind. specialize (Hm s).
  destruct (m s) as [a s1|f s1]; cbn in Hm; auto.
Qed.

(** The two scans of parent resolution only read the state. *)
Section read_only.
Context (R : relation world) `{!PreOrder R}.

Lemma keeps_find_transient_for transient_for siblings :
  keeps R (find_transient_for transient_for siblings).
Proof.
  induction siblings as [|sibling siblings IH]; cbn [find_transient_for];
    keeps_go idtac.
Qed.

Lemma keeps_find_last_event_parent window siblings : forall parent serial,
  keeps R (find_last_event_parent window siblings parent serial).
Proof.
  induction siblings as [|sibling siblings IH]; intros parent serial;
    cbn [find_last_event_parent]; keeps_go idtac.
Qed.

Lemma keeps_window_update_parent window :
  keeps R (window_update_parent window).
Proof.
  unfold window_update_parent.
  keeps_go idtac;
    first [apply keeps_find_transient_for|apply keeps_find_last_event_parent].
Qed.
End read_only.

#[local] Hint Extern 0 (PreOrder _) => exact _ : keeps.
#[local] Hint Resolve keeps_find_transient_for keeps_find_last_event_parent
  keeps_window_update_parent : keeps.

Lemma realized_toplevel_configure_states window states : forall i activated,
  keeps (same_field win_realized)
    (toplevel_configure_states window states i activated).
Proof.
  induction states as [|state states IH]; intros i activated;
    cbn [toplevel_configure_states]; keeps_go same_field_side.
Qed.
#[local] Hint Resolve realized_toplevel_configure_states : keeps.

Lemma realized_window_update_role window parent :
  keeps (same_field win_realized)
    (window_update_role sl_transform_guest_to_host window parent).
Proof. keeps_go same_field_side. Qed.

(** Every entry point but [sl_window_update] leaves [realized] alone. *)
Lemma realized_kept_outside_window_update o :
  (forall window, o <> op_window_update window) ->
  keeps (same_field win_realized)
    (run_operation COMMIT_LOOP_FIX sl_transform_host_to_guest
       sl_transform_guest_to_host sl_transform_try_window_scale
       xcb_get_geometry_reply o).
Proof.
  intros Ho. destruct o; cbn [run_operation];
    try solve [keeps_go same_field_side].
  destruct (Ho window eq_refl).
Qed.

(** The host resource the pairing step finds is the object registered under
    [host_surface_id], if that id is not 0. *)
Lemma window_update_pairing_result s window w r s1 :
  st_windows s !! window = Some w ->
  window_update_pairing window s = Ok r s1 ->
  r = (if truthy (win_host_surface_id w)
       then ctx_client_objects (st_ctx s) !! win_host_surface_id w
       else None).
Proof.
  intros Hw. wp_init s. wp_start.
  unfold window_update_pairing, wl_list_remove, wl_list_insert_windows,
    wl_list_insert_unpaired_windows.
  repeat wp_step.
  all: intros [= <- <-]; reflexivity.
Qed.

Lemma window_update_bind_result window user_data s host_surface s1 :
  window_update_bind sl_transform_try_window_scale window user_data s
  = Ok host_surface s1 ->
  user_data = Some host_surface.
Proof.
  unfold window_update_bind. intros H.
  apply bind_returns in H as (? & s2 & H1 & H).
  destruct user_data as [sp|]; [|discriminate].
  apply bind_returns in H as (hs & s3 & H2 & H). injection H2 as <- <-.
  repeat (apply bind_returns in H as (? & ? & _ & H)).
  injection H as <- _. reflexivity.
Qed.

Lemma realized_window_update_teardown window :
  keeps (same_field_except window win_realized)
    (window_update_teardown window).
Proof. keeps_go same_field_except_side. Qed.

Lemma window_update_teardown_realized window s w' :
  st_windows (final (window_update_teardown window s)) !! window = Some w' ->
  st_windows s !! window = Some w' \/ win_realized w' = 0.
Proof.
  destruct (st_windows s !! window) as [w|] eqn:Hw.
  - wp_init s. wp_start. unfold window_update_teardown.
    repeat wp_step.
    all: rewrite lookup_insert_eq; intros [= <-]; right; reflexivity.
  - unfold window_update_teardown. rewrite final_bind.
    unfold get_window. rewrite Hw. cbn. congruence.
Qed.

(** The last step sets [realized] only for contents of nonzero width and
    height. *)
Lemma window_update_commit_realized window host_surface s q w w' :
  st_windows s !! q = Some w ->
  st_windows
    (final (window_update_commit COMMIT_LOOP_FIX window host_surface s))
    !! q = Some w' ->
  win_realized w' = win_realized w
  \/ (q = window /\ win_realized w' = 1
      /\ exists h,
           st_surfaces
             (final (window_update_commit COMMIT_LOOP_FIX
                       window host_surface s))
             !! host_surface = Some h
           /\ surf_contents_width h <> 0 /\ surf_contents_height h <> 0).
Proof.
  intros Hw. unfold window_update_commit.
  pattern (final
    (((if COMMIT_LOOP_FIX then sl_commit COMMIT_LOOP_FIX window (Some host_surface)
       else get_surface host_surface ≫= fun h => send (wl_surface_commit (surf_proxy h)))
      ≫= fun _ => get_surface host_surface ≫= fun h =>
           when (truthy (surf_contents_width h)
                 && truthy (surf_contents_height h))
             (modify_window window (set_win_realized 1))) s)).
  apply (final_bind_keeps (same_field win_realized)).
  - keeps_go same_field_side.
  - intros s1 Hs1 Hw'. left. specialize (Hs1 q). rewrite Hw, Hw' in Hs1.
    cbn in Hs1. congruence.
  - intros [] s1 Hs1. specialize (Hs1 q). rewrite Hw in Hs1.
    destruct (st_windows s1 !! q) as [w1|] eqn:Hw1; [|discriminate].
    injection Hs1 as Hs1. rewrite Hs1. clear Hs1 Hw.
    unfold mbind, M_bind, get_surface, when.
    destruct (st_surfaces s1 !! host_surface) as [h|] eqn:Hh; cbn.
    2:{ rewrite Hw1. intros [= <-]. left. reflexivity. }
    destruct (truthy (surf_contents_width h)) eqn:Ewidth; cbn.
    2:{ rewrite Hw1. intros [= <-]. left. reflexivity. }
    destruct (truthy (surf_contents_height h)) eqn:Eheight; cbn.
    2:{ rewrite Hw1. intros [= <-]. left. reflexivity. }
    unfold modify_window.
    destruct (st_windows s1 !! window) as [ww|] eqn:Hww; cbn.
    2:{ rewrite Hw1. intros [= <-]. left. reflexivity. }
    destruct (decide (window = q)) as [->|Hne].
    + rewrite lookup_insert_eq. intros [= <-]. right.
      split; [reflexivity|]. split; [reflexivity|].
      exists h. rewrite Hh.
      apply truthy_true in Ewidth. apply truthy_true in Eheight. auto.
    + rewrite lookup_insert_ne by done. rewrite Hw1. intros [= <-]. left.
      reflexivity.
Qed.

Lemma same_realized s s1 q w w' :
  same_field win_realized s s1 ->
  st_windows s !! q = Some w -> st_windows s1 !! q = Some w' ->
  win_realized w' = win_realized w.
Proof.
  intros H Hw Hw'. specialize (H q). rewrite Hw, Hw' in H. cbn in H.
  congruence.
Qed.

(** What [sl_window_update] does to the [realized] flag of any window. *)
Lemma sl_window_update_realized s window q w w' :
  let s' :=
    final (sl_window_update COMMIT_LOOP_FIX sl_transform_guest_to_host
             sl_transform_try_window_scale xcb_get_geometry_reply window s) in
  st_windows s !! q = Some w ->
  st_windows s' !! q = Some w' ->
  win_realized w' = win_realized w
  \/ (q = window /\ win_realized w' = 0 /\ host_resource_absent s w)
  \/ (q = window /\ win_realized w' = 1
      /\ exists sp h,
           ctx_client_objects (st_ctx s) !! win_host_surface_id w
           = Some (Some sp)
           /\ st_surfaces s' !! sp = Some h
           /\ surf_contents_width h <> 0 /\ surf_contents_height h <> 0).
Proof.
  intros s' Hw. subst s'. unfold sl_window_update.
  rewrite final_bind.
  assert (Hpairing : keeps (same_field win_realized)
                       (window_update_pairing window))
    by keeps_go same_field_side.
  specialize (Hpairing s).
  destruct (window_update_pairing window s) as [r s1|f s1] eqn:Hpair;
    cbn in Hpairing.
  2:{ intros Hw'. left. eapply same_realized; eassumption. }
  destruct r as [user_data|].
  - (* a host resource: the rest of the function *)
    rewrite final_bind.
    assert (Hbinding : keeps (same_field win_realized)
                         (window_update_bind sl_transform_try_window_scale
                            window user_data))
      by keeps_go same_field_side.
    specialize (Hbinding s1).
    destruct (window_update_bind _ window user_data s1)
      as [host_surface s2|f s2] eqn:Hbind; cbn in Hbinding.
    2:{ intros Hw'. left. eapply same_realized; [|eassumption..].
        etrans; eassumption. }
    assert (Hs2 : same_field win_realized s s2) by (etrans; eassumption).
    clear Hpairing Hbinding.
    apply window_update_bind_result in Hbind as ->.
    match goal with
    | |- st_windows (final ?run) !! q = Some w' -> ?concl =>
        pattern (final run)
    end.
    revert Hs2. generalize s2. clear s2. intros s2 Hs2.
    apply (final_bind_keeps (same_field win_realized));
      [keeps_go same_field_side
      |intros s3 Hs3 Hw'; left; eapply same_realized; [|eassumption..];
       etrans; eassumption
      |intros parent s3 Hs3].
    assert (Hs : same_field win_realized s s3) by (etrans; eassumption).
    clear Hs2 Hs3 s2. revert Hs. generalize s3. clear s3. intros s2 Hs2.
    do 4 (
      apply (final_bind_keeps (same_field win_realized));
        [keeps_go same_field_side
        |intros s3 Hs3 Hw'; left; eapply same_realized; [|eassumption..];
         etrans; eassumption
        |intros [] s3 Hs3];
      assert (Hs : same_field win_realized s s3) by (etrans; eassumption);
      clear Hs2 Hs3 s2; revert Hs; generalize s3; clear s3; intros s2 Hs2).
    intros Hw'.
    destruct (st_windows s2 !! q) as [w2|] eqn:Hw2.
    2:{ specialize (Hs2 q). rewrite Hw, Hw2 in Hs2. discriminate. }
    destruct (window_update_commit_realized window host_surface s2 q w2 w'
                Hw2 Hw')
      as [E|(-> & E & h & Hh & Hwidth & Hheight)].
    + left. rewrite E. eapply same_realized; eassumption.
    + right. right. split; [reflexivity|]. split; [exact E|].
      exists host_surface, h.
      pose proof (window_update_pairing_result s window w _ s1 Hw Hpair)
        as Hr.
      destruct (truthy (win_host_surface_id w)); [|discriminate].
      rewrite <- Hr. auto.
  - (* no host resource: the handles are destroyed *)
    intros Hw'.
    destruct (decide (q = window)) as [->|Hne].
    + destruct (window_update_teardown_realized window s1 w' Hw')
        as [Hw1|E].
      * left. eapply same_realized; eassumption.
      * right. left. split; [reflexivity|]. split; [exact E|].
        pose proof (window_update_pairing_result s window w _ s1 Hw Hpair)
          as Hr.
        unfold host_resource_absent.
        destruct (truthy (win_host_surface_id w)) eqn:Eid.
        -- right. symmetry. exact Hr.
        -- left. apply truthy_false. exact Eid.
    + left.
      pose proof (realized_window_update_teardown window s1 q Hne) as Ht.
      specialize (Hpairing q). rewrite Hw in Hpairing.
      rewrite <- Hpairing in Ht. rewrite Hw' in Ht. cbn in Ht. congruence.
Qed.

(** C4 (as amended): an entry point of the file turns [realized] of a
    window from 0 to nonzero only if it is [sl_window_update] on that window
    and, at its end, the host surface registered for the window has contents
    of nonzero width and height; and it turns [realized] from nonzero to 0
    only if it is [sl_window_update] on that window with no host resource
    registered for it, the branch that also destroys the handles of the
    window. Every other entry point, and [sl_window_update] in every other
    case, leaves the flag as it is. *)
Theorem realized_set_and_reset_only_by_window_update o s q w w' :
  let s' :=
    final (run_operation COMMIT_LOOP_FIX sl_transform_host_to_guest
             sl_transform_guest_to_host sl_transform_try_window_scale
             xcb_get_geometry_reply o s) in
  st_windows s !! q = Some w ->
  st_windows s' !! q = Some w' ->
  (win_realized w = 0 -> win_realized w' <> 0 ->
     o = op_window_update q
     /\ win_realized w' = 1
     /\ exists sp h,
          ctx_client_objects (st_ctx s) !! win_host_surface_id w
          = Some (Some sp)
          /\ st_surfaces s' !! sp = Some h
          /\ surf_contents_width h <> 0 /\ surf_contents_height h <> 0)
  /\ (win_realized w <> 0 -> win_realized w' = 0 ->
        o = op_window_update q /\ host_resource_absent s w)
  /\ ((forall window, o <> op_window_update window) ->
        win_realized w' = win_realized w).
Proof.
  intros s' Hw Hw'. subst s'.
  assert (Hcases :
    win_realized w' = win_realized w
    \/ (o = op_window_update q /\ win_realized w' = 0
        /\ host_resource_absent s w)
    \/ (o = op_window_update q /\ win_realized w' = 1
        /\ exists sp h,
             ctx_client_objects (st_ctx s) !! win_host_surface_id w
             = Some (Some sp)
             /\ st_surfaces
                  (final (run_operation COMMIT_LOOP_FIX
                            sl_transform_host_to_guest
                            sl_transform_guest_to_host
                            sl_transform_try_window_scale
                            xcb_get_geometry_reply o s)) !! sp = Some h
             /\ surf_contents_width h <> 0 /\ surf_contents_height h <> 0)).
  { assert (Ho : (exists window, o = op_window_update window)
                   \/ forall window, o <> op_window_update window)
      by (destruct o; try (right; intros ?; discriminate); left; eauto).
    destruct Ho as [[window ->]|Hother].
    - cbn [run_operation] in *.
      destruct (sl_window_update_realized s window q w w' Hw Hw')
        as [E|[(-> & E)|(-> & E)]]; auto.
    - left. eapply same_realized; [|eassumption..].
      apply realized_kept_outside_window_update. exact Hother. }
  split; [|split].
  - intros E0 E1. destruct Hcases as [E|[(_ & E & _)|H]]; [lia|lia|exact H].
  - intros E0 E1. destruct Hcases as [E|[(Ho & _ & Ha)|(_ & E & _)]];
      [lia|auto|lia].
  - intros Ho. destruct Hcases as [E|[(-> & _)|(-> & _)]];
      [exact E|destruct (Ho q eq_refl)..].
Qed.

(** ** Role assignment *)

Lemma keeps_at {A} (R : relation world) (m : M A) s a s' :
  keeps R m -> m s = Ok a s' -> R s s'.
Proof. intros K E. specialize (K s). rewrite E in K. exact K. Qed.

Ltac role_frame_go :=
  unfold role_frame; apply keeps_both;
    [ keeps_go same_field_side
    | apply keeps_both; [ keeps_go same_ctx_side | keeps_go same_log_side ] ].

#[local] Instance role_frame_preorder : PreOrder role_frame.
Proof. unfold role_frame. exact _. Qed.

(** The toplevel role names the parent: with a parent,
    [xdg_toplevel_set_parent] is sent once, for the toplevel of the window,
    with the toplevel handle of the parent; without one it is not sent. *)
Lemma window_update_toplevel_sets_parent window parent s s' :
  window_update_toplevel sl_transform_guest_to_host window parent s
  = Ok tt s' ->
  exists w' toplevel,
    st_windows s' !! window = Some w'
    /\ win_xdg_toplevel w' = Some toplevel
    /\ match parent with
       | Some p =>
           exists pw',
             st_windows s' !! p = Some pw'
             /\ set_parent_requests (st_requests s')
                = set_parent_requests (st_requests s)
                  ++ [(toplevel, win_xdg_toplevel pw')]
       | None =>
           set_parent_requests (st_requests s')
           = set_parent_requests (st_requests s)
       end.
Proof.
  unfold window_update_toplevel. intros E.
  apply bind_returns in E as (w0 & s0 & Hw0 & E).
  assert (s0 = s) as ->.
  { unfold get_window in Hw0. destruct (st_windows s !! window);
      [injection Hw0 as _ <-; reflexivity|discriminate]. }
  apply bind_returns in E as ([] & s1 & Hcreate & E).
  assert (Hlog1 : same_log set_parent_request s s1).
  { eapply keeps_at; [|exact Hcreate]. keeps_go same_log_side. }
  apply bind_returns in E as (w1 & s2 & Hw1 & E).
  apply bind_returns in E as (toplevel & s3 & Ht & E).
  unfold get_window in Hw1.
  destruct (st_windows s1 !! window) as [w1'|] eqn:Hlookup; [|discriminate].
  injection Hw1 as -> <-.
  unfold deref in Ht. destruct (win_xdg_toplevel w1) eqn:Htop; [|discriminate].
  injection Ht as -> <-.
  apply bind_returns in E as ([] & s4 & Hparent & E).
  match type of E with
  | ?m ?s = _ =>
      assert (K : keeps (both (same_field win_xdg_toplevel)
                           (same_log set_parent_request)) m)
        by (apply keeps_both;
            [keeps_go same_field_side|keeps_go same_log_side]);
      apply (keeps_at _ _ _ _ _ K) in E
  end.
  destruct E as [Hfield Hlog4].
  unfold same_log in Hlog1, Hlog4. unfold set_parent_requests.
  assert (Hat : forall q v,
            st_windows s4 !! q = Some v ->
            exists v', st_windows s' !! q = Some v'
                       /\ win_xdg_toplevel v' = win_xdg_toplevel v).
  { intros q v Hq. specialize (Hfield q). rewrite Hq in Hfield.
    destruct (st_windows s' !! q) as [v'|]; [|discriminate].
    injection Hfield as Hfield. eauto. }
  destruct parent as [p|].
  - apply bind_returns in Hparent as (pw & s3 & Hpw & Hsend).
    unfold get_window in Hpw.
    destruct (st_windows s1 !! p) as [pw1|] eqn:Hlookupp; [|discriminate].
    injection Hpw as -> <-. unfold send in Hsend. injection Hsend as <-.
    destruct (Hat window w1 Hlookup) as (w' & Hw' & Htop').
    destruct (Hat p pw Hlookupp) as (pw' & Hpw' & Hptop').
    exists w', toplevel. split; [exact Hw'|]. split; [congruence|].
    exists pw'. split; [exact Hpw'|].
    rewrite <- Hlog4. cbn. rewrite omap_app, <- Hlog1, Hptop'. reflexivity.
  - injection Hparent as <-.
    destruct (Hat window w1 Hlookup) as (w' & Hw' & Htop').
    exists w', toplevel. split; [exact Hw'|]. split; [congruence|].
    congruence.
Qed.

Lemma window_update_popup_returns s window p w :
  st_windows s !! window = Some w ->
  wp (window_update_popup sl_transform_guest_to_host window p) s
    (fun r => forall s', r = Ok tt s' ->
       exists pw internal positioner surface popup x y,
         st_windows s !! p = Some pw
         /\ win_xdg_surface w = Some surface
         /\ st_windows s'
            = <[window := set_win_xdg_popup (Some popup) w]> (st_windows s)
         /\ st_requests s'
            = st_requests s
              ++ [xdg_wm_base_create_positioner internal positioner;
                  xdg_positioner_set_anchor positioner
                    XDG_POSITIONER_ANCHOR_TOP_LEFT;
                  xdg_positioner_set_gravity positioner
                    XDG_POSITIONER_GRAVITY_BOTTOM_RIGHT;
                  xdg_positioner_set_anchor_rect positioner x y 1 1;
                  xdg_surface_get_popup surface (win_xdg_surface pw)
                    positioner popup;
                  xdg_popup_add_listener popup window;
                  xdg_positioner_destroy positioner]).
Proof.
  intros Hw. wp_init s.
  unfold window_update_popup, transform_guest_to_host.
  repeat wp_step.
  all: try (intros s' [=]; fail).
  all: intros s' [= <-]; cbn; eexists _, _, _, _, _, _, _;
    (split; [reflexivity|]); (split; [reflexivity|]);
    (split; [reflexivity|]); rewrite <- ?app_assoc; reflexivity.
Qed.

(** C5 (as amended): in [sl_window_update], a window of an Xwayland context,
    managed or not, and a window for which no parent was resolved get a
    toplevel role: the function returns with the toplevel handle set, the
    popup handle as it was and no popup request sent. A resolved parent is
    attached to that toplevel: [xdg_toplevel_set_parent] is sent once, for
    the toplevel of the window, with the toplevel handle of the parent;
    without a resolved parent it is not sent. In a context that is
    not Xwayland, a window with a resolved parent and no popup handle yet,
    managed or not, gets a popup role: the popup is created on the shell
    surface of the window, against the shell surface of the parent, with a
    positioner created for it and destroyed after it; with a popup handle
    already set nothing is created. *)
Theorem window_update_role_by_xwayland_and_parent s window w parent s' :
  st_windows s !! window = Some w ->
  resolves_parent sl_transform_try_window_scale window s parent ->
  sl_window_update COMMIT_LOOP_FIX sl_transform_guest_to_host
    sl_transform_try_window_scale xcb_get_geometry_reply window s
  = Ok tt s' ->
  exists w',
    st_windows s' !! window = Some w'
    /\ (ctx_xwayland (st_ctx s) <> 0 \/ parent = None ->
          is_Some (win_xdg_toplevel w')
          /\ win_xdg_popup w' = win_xdg_popup w
          /\ popup_requests (st_requests s')
             = popup_requests (st_requests s)
          /\ match parent with
             | Some p =>
                 exists toplevel pw',
                   win_xdg_toplevel w' = Some toplevel
                   /\ st_windows s' !! p = Some pw'
                   /\ set_parent_requests (st_requests s')
                      = set_parent_requests (st_requests s)
                        ++ [(toplevel, win_xdg_toplevel pw')]
             | None =>
                 set_parent_requests (st_requests s')
                 = set_parent_requests (st_requests s)
             end)
    /\ (ctx_xwayland (st_ctx s) = 0 ->
        forall p,
          parent = Some p ->
          (win_xdg_popup w = None ->
             exists pw' internal positioner surface popup x y,
               st_windows s' !! p = Some pw'
               /\ win_xdg_surface w' = Some surface
               /\ win_xdg_popup w' = Some popup
               /\ win_xdg_toplevel w' = win_xdg_toplevel w
               /\ popup_requests (st_requests s')
                  = popup_requests (st_requests s)
                    ++ [xdg_wm_base_create_positioner internal positioner;
                        xdg_positioner_set_anchor positioner
                          XDG_POSITIONER_ANCHOR_TOP_LEFT;
                        xdg_positioner_set_gravity positioner
                          XDG_POSITIONER_GRAVITY_BOTTOM_RIGHT;
                        xdg_positioner_set_anchor_rect positioner x y 1 1;
                        xdg_surface_get_popup surface (win_xdg_surface pw')
                          positioner popup;
                        xdg_popup_add_listener popup window;
                        xdg_positioner_destroy positioner])
          /\ (is_Some (win_xdg_popup w) ->
                role_handles w' = role_handles w
                /\ popup_requests (st_requests s')
                   = popup_requests (st_requests s))).
Proof.
  intros Hw (user_data & s1 & host_surface & s2 & s3 & H1 & H2 & H3) E.
  unfold sl_window_update in E.
  apply bind_returns in E as (? & ? & E1 & E). rewrite H1 in E1.
  injection E1 as <- <-.
  apply bind_returns in E as (? & ? & E2 & E). rewrite H2 in E2.
  injection E2 as <- <-.
  apply bind_returns in E as (? & ? & E3 & E). rewrite H3 in E3.
  injection E3 as <- <-.
  apply bind_returns in E as ([] & s4 & H4 & E).
  apply bind_returns in E as ([] & s5 & H5 & E).
  apply bind_returns in E as ([] & s6 & Hrole & E).
  (* the steps before role assignment *)
  assert (Hpre : role_frame s s5).
  { etrans; [eapply keeps_at; [|exact H1]; role_frame_go|].
    etrans; [eapply keeps_at; [|exact H2]; role_frame_go|].
    etrans; [eapply keeps_at; [|exact H3]; role_frame_go|].
    etrans; [eapply keeps_at; [|exact H4]; role_frame_go|].
    eapply keeps_at; [|exact H5]; role_frame_go. }
  (* the steps after it *)
  assert (Hpost : both role_frame (same_field win_xdg_surface) s6 s').
  { eapply keeps_at; [|exact E].
    apply keeps_both; [role_frame_go|keeps_go same_field_side]. }
  assert (Hnamed : same_log set_parent_request s s5).
  { etrans; [eapply keeps_at; [|exact H1]; keeps_go same_log_side|].
    etrans; [eapply keeps_at; [|exact H2]; keeps_go same_log_side|].
    etrans; [eapply keeps_at; [|exact H3]; keeps_go same_log_side|].
    etrans; [eapply keeps_at; [|exact H4]; keeps_go same_log_side|].
    eapply keeps_at; [|exact H5]; keeps_go same_log_side. }
  assert (Hnamed' : same_log set_parent_request s6 s').
  { eapply keeps_at; [|exact E]. keeps_go same_log_side. }
  clear H1 H2 H3 H4 H5 E s1 s2 s3 s4.
  destruct Hpre as (Hhandles & Hxwayland & Hlog).
  destruct Hpost as ((Hhandles' & _ & Hlog') & Hsurface').
  unfold same_ctx_field, same_log, popup_requests in *.
  pose proof (Hhandles window) as Hw5. rewrite Hw in Hw5.
  destruct (st_windows s5 !! window) as [w5|] eqn:Hlookup5;
    [|discriminate].
  injection Hw5 as Ht5 Hp5.
  (* role assignment *)
  unfold window_update_role in Hrole.
  apply bind_returns in Hrole as (c5 & ? & [= <- <-] & Hrole).
  apply bind_returns in Hrole as (? & ? & Hget & Hrole).
  unfold get_window in Hget. rewrite Hlookup5 in Hget.
  injection Hget as <- <-.
  assert (Htoplevel :
    window_update_toplevel sl_transform_guest_to_host window parent s5
    = Ok tt s6 ->
    exists w',
      st_windows s' !! window = Some w'
      /\ is_Some (win_xdg_toplevel w')
      /\ win_xdg_popup w' = win_xdg_popup w
      /\ popup_requests (st_requests s') = popup_requests (st_requests s)
      /\ match parent with
         | Some p =>
             exists toplevel pw',
               win_xdg_toplevel w' = Some toplevel
               /\ st_windows s' !! p = Some pw'
               /\ set_parent_requests (st_requests s')
                  = set_parent_requests (st_requests s)
                    ++ [(toplevel, win_xdg_toplevel pw')]
         | None =>
             set_parent_requests (st_requests s')
             = set_parent_requests (st_requests s)
         end).
  { intros Ht.
    destruct (window_update_toplevel_sets_parent window parent s5 s6 Ht)
      as (w6 & toplevel & Hw6 & Htop & Hset).
    assert (Hk : both (same_field win_xdg_popup)
                   (same_log popup_request) s5 s6)
      by (eapply keeps_at; [|exact Ht];
          apply keeps_both;
            [keeps_go same_field_side|keeps_go same_log_side]).
    destruct Hk as (Hp6 & Hlog6).
    specialize (Hp6 window). rewrite Hlookup5, Hw6 in Hp6.
    injection Hp6 as Hp6.
    pose proof (Hhandles' window) as Hw'. rewrite Hw6 in Hw'.
    destruct (st_windows s' !! window) as [w'|]; [|discriminate].
    injection Hw' as Ht' Hp'.
    exists w'. split; [reflexivity|]. rewrite <- Ht', <- Hp', <- Hp6.
    split; [rewrite Htop; eauto|]. split; [congruence|].
    split; [unfold same_log, popup_requests in *; congruence|].
    unfold same_log, set_parent_requests in *.
    rewrite <- Hnamed', Hnamed.
    destruct parent as [p|]; [|exact Hset].
    destruct Hset as (pw6 & Hpw6 & Hset).
    pose proof (Hhandles' p) as Hpw'. rewrite Hpw6 in Hpw'.
    destruct (st_windows s' !! p) as [pw'|]; [|discriminate].
    injection Hpw' as Hpt' _.
    exists toplevel, pw'. split; [exact Htop|]. split; [reflexivity|].
    rewrite <- Hpt'. exact Hset. }
  destruct parent as [p|].
  - destruct (truthy (ctx_xwayland (st_ctx s5))) eqn:Ex.
    + (* Xwayland: a toplevel with a parent *)
      destruct (Htoplevel Hrole) as (w' & Hw' & Hrest).
      exists w'. split; [exact Hw'|]. split; [intros _; exact Hrest|].
      intros Hx0. rewrite <- Hxwayland in Ex. apply truthy_true in Ex. lia.
    + apply truthy_false in Ex. rewrite <- Hxwayland in Ex.
      unfold when in Hrole.
      destruct (win_xdg_popup w5) as [popup5|] eqn:Hpopup5; cbn in Hrole.
      * (* a popup exists: nothing is created *)
        injection Hrole as <-.
        pose proof (Hhandles' window) as Hw'. rewrite Hlookup5 in Hw'.
        destruct (st_windows s' !! window) as [w'|]; [|discriminate].
        injection Hw' as Ht' Hp'.
        exists w'. split; [reflexivity|]. split; [intros [?|[=]]; lia|].
        intros _ p' [= <-]. split.
        -- intros Hnone. rewrite Hnone in Hp5. discriminate.
        -- intros _. split; [|congruence].
           unfold role_handles. congruence.
      * (* the popup is created *)
        pose proof (window_update_popup_returns s5 window p w5 Hlookup5)
          as Hpopup.
        unfold wp in Hpopup.
        destruct (Hpopup s6 Hrole)
          as (pw & internal & positioner & surface & popup & x & y
              & Hpw & Hsurface & Hwindows6 & Hrequests6).
        pose proof (Hhandles' window) as Hw'.
        rewrite Hwindows6, lookup_insert_eq in Hw'.
        destruct (st_windows s' !! window) as [w'|] eqn:Hlookup';
          [|discriminate].
        injection Hw' as Ht' Hp'. cbn in Ht', Hp'.
        exists w'. split; [reflexivity|]. split; [intros [?|[=]]; lia|].
        intros _ p' [= <-]. split.
        2:{ intros [? Hsome]. rewrite Hsome in Hp5. discriminate. }
        intros _.
        (* the parent after the run *)
        assert (Hparent6 : exists pw6,
                  st_windows s6 !! p = Some pw6
                  /\ win_xdg_surface pw6 = win_xdg_surface pw).
        { rewrite Hwindows6. destruct (decide (window = p)) as [<-|Hne].
          - rewrite lookup_insert_eq. eexists. split; [reflexivity|].
            rewrite Hlookup5 in Hpw. injection Hpw as <-. reflexivity.
          - rewrite lookup_insert_ne by done. eauto. }
        destruct Hparent6 as (pw6 & Hpw6 & Hps6).
        pose proof (Hsurface' p) as Hp''. rewrite Hpw6 in Hp''.
        destruct (st_windows s' !! p) as [pw'|] eqn:Hlookupp;
          [|discriminate].
        injection Hp'' as Hp''.
        pose proof (Hsurface' window) as Hs''.
        rewrite Hwindows6, lookup_insert_eq, Hlookup' in Hs''.
        injection Hs'' as Hs''. cbn in Hs''.
        exists pw', internal, positioner, surface, popup, x, y.
        split; [reflexivity|]. split; [congruence|].
        split; [congruence|]. split.
        { congruence. }
        rewrite <- Hlog', Hrequests6, omap_app, <- Hlog.
        rewrite <- Hp'', Hps6. reflexivity.
  - (* no parent: a toplevel *)
    destruct (Htoplevel Hrole) as (w' & Hw' & Hrest).
    exists w'. split; [exact Hw'|]. split; [intros _; exact Hrest|].
    intros _ p [=].
Qed.

(** ** Geometry applied by [sl_configure_window] *)

(** X1: on a managed window with nothing pending, [sl_configure_window]
    applies a nonzero mask field by field in the order x, y, width, height,
    border width: a field the mask selects takes the value at the position
    given by the number of selected fields before it, read as an [int]; a
    field the mask does not select keeps its value. *)
Theorem configure_window_applies_masked_values s window w :
  st_windows s !! window = Some w ->
  cfg_serial (win_pending_config w) = 0 ->
  cfg_mask (win_next_config w) <> 0 ->
  win_managed w <> 0 ->
  exists s' w',
    sl_configure_window window s = Ok tt s'
    /\ st_windows s' !! window = Some w'
    /\ win_x w' = masked_value (win_next_config w) XCB_CONFIG_WINDOW_X (win_x w)
    /\ win_y w' = masked_value (win_next_config w) XCB_CONFIG_WINDOW_Y (win_y w)
    /\ win_width w'
       = masked_value (win_next_config w) XCB_CONFIG_WINDOW_WIDTH
           (win_width w)
    /\ win_height w'
       = masked_value (win_next_config w) XCB_CONFIG_WINDOW_HEIGHT
           (win_height w)
    /\ win_border_width w'
       = masked_value (win_next_config w) XCB_CONFIG_WINDOW_BORDER_WIDTH
           (win_border_width w).
Proof.
  intros Hw Hs Hm Hg.
  destruct (sl_configure_window_applies s window w Hw Hs Hm Hg)
    as (s' & w' & E & Hwindows & Hx & Hy & Hwidth & Hheight & Hborder & _).
  exists s', w'. split; [exact E|]. split.
  { rewrite Hwindows. apply lookup_insert_eq. }
  repeat split; assumption.
Qed.

(** X2: the requests of that call are, in order: the configure of the frame
    with the values of the buffer and with its mask as the [uint16_t] that
    [xcb_configure_window] takes, that is the low 16 bits of the 32-bit
    [next_config.mask]; the configure of the window itself at the origin
    (0, 0) with the resulting width, height and border width, whatever the
    mask; a synthetic configure notify with the resulting geometry exactly
    when x or y changed; and the write of the state atoms. *)
Theorem configure_window_requests s window w :
  st_windows s !! window = Some w ->
  cfg_serial (win_pending_config w) = 0 ->
  cfg_mask (win_next_config w) <> 0 ->
  win_managed w <> 0 ->
  exists s' w',
    sl_configure_window window s = Ok tt s'
    /\ st_windows s' !! window = Some w'
    /\ st_requests s'
       = st_requests s
         ++ [xcb_configure_window (win_frame_id w)
               (to_u16 (cfg_mask (win_next_config w)))
               (cfg_values (win_next_config w));
             xcb_configure_window (win_id w) 31
               [0; 0; win_width w'; win_height w'; win_border_width w']]
         ++ (if negb (win_x w' =? win_x w) || negb (win_y w' =? win_y w)
             then [configure_notify (win_id w) (win_x w') (win_y w')
                     (win_width w') (win_height w') (win_border_width w')]
             else [])
         ++ [net_wm_state_request (st_ctx s) (win_id w) (win_next_config w)].
Proof.
  intros Hw Hs Hm Hg.
  destruct (sl_configure_window_applies s window w Hw Hs Hm Hg)
    as (s' & w' & E & Hwindows & Hx & Hy & Hwidth & Hheight & Hborder & Hrq).
  exists s', w'. split; [exact E|]. split.
  { rewrite Hwindows. apply lookup_insert_eq. }
  rewrite Hx, Hy, Hwidth, Hheight, Hborder. exact Hrq.
Qed.

(** X3: with a zero mask [sl_configure_window] sends no configure request
    and no event and leaves the geometry alone: it only writes the state
    atoms, for a managed window, and moves the buffer: [pending_config] is
    the former [next_config], whose serial, mask and state count are
    cleared. *)
Theorem configure_window_without_geometry s window w :
  st_windows s !! window = Some w ->
  cfg_serial (win_pending_config w) = 0 ->
  cfg_mask (win_next_config w) = 0 ->
  exists s' w',
    sl_configure_window window s = Ok tt s'
    /\ st_windows s' = <[window := w']> (st_windows s)
    /\ geometry w' = geometry w
    /\ win_pending_config w' = win_next_config w
    /\ win_next_config w' = cleared (win_next_config w)
    /\ st_requests s'
       = st_requests s
         ++ (if truthy (win_managed w)
             then [net_wm_state_request (st_ctx s) (win_id w)
                     (win_next_config w)]
             else []).
Proof.
  intros Hw Hs Hm.
  pose proof (sl_configure_window_empty_mask s window w Hw Hs Hm) as E.
  eexists _, _. split; [exact E|]. cbn.
  split; [reflexivity|]. split; [reflexivity|]. split; [reflexivity|].
  split; reflexivity.
Qed.

(** ** [sl_commit] and the shell-surface configure callback *)

Lemma commits_sl_commit_without_surface window :
  keeps (same_log committed_surface) (sl_commit COMMIT_LOOP_FIX window None).
Proof. keeps_go same_log_side. Qed.

(** X4: [sl_commit] couples the surface commit to the acknowledgment: it
    changes nothing when no serial is pending or when the size guard fails,
    it never commits without a host surface, and when the acknowledgment
    step returns 1 it commits the host surface right after it. *)
Theorem commit_follows_acknowledgment s window host_surface w :
  st_windows s !! window = Some w ->
  valid_surface s host_surface ->
  (cfg_serial (win_pending_config w) = 0 ->
     sl_commit COMMIT_LOOP_FIX window host_surface s = Ok tt s)
  /\ (forall h,
        surface_of s host_surface = Some h ->
        win_managed w <> 0 ->
        to_u32 (win_width w + 2 * win_border_width w)
          <> surf_contents_width h
        \/ to_u32 (win_height w + 2 * win_border_width w)
             <> surf_contents_height h ->
        sl_commit COMMIT_LOOP_FIX window host_surface s = Ok tt s)
  /\ (host_surface = None ->
      omap committed_surface
        (st_requests (final (sl_commit COMMIT_LOOP_FIX window None s)))
      = omap committed_surface (st_requests s))
  /\ (forall s1 hp h,
        sl_process_pending_configure_acks COMMIT_LOOP_FIX
          window host_surface s = Ok 1 s1 ->
        host_surface = Some hp ->
        st_surfaces s1 !! hp = Some h ->
        sl_commit COMMIT_LOOP_FIX window host_surface s
        = Ok tt (set_st_requests
                   (st_requests s1 ++ [wl_surface_commit (surf_proxy h)])
                   s1)).
Proof.
  intros Hw Hvalid. split; [|split; [|split]].
  - intros Hs. unfold sl_commit, mbind, M_bind.
    rewrite (process_acks_nothing_pending s window host_surface w Hw Hs).
    reflexivity.
  - intros h Hh Hg Hne. unfold surface_of in Hh.
    destruct host_surface as [hp|]; [|discriminate]. cbn in Hh.
    unfold sl_commit, mbind, M_bind.
    rewrite (process_acks_size_mismatch s window hp w h Hw Hh Hg Hne).
    reflexivity.
  - intros _. symmetry. apply (commits_sl_commit_without_surface window s).
  - intros s1 hp h E -> Hh. unfold sl_commit, mbind, M_bind. rewrite E. cbn.
    unfold get_surface. rewrite Hh. reflexivity.
Qed.

(** X5: a shell-surface configure that finds nothing pending is applied and
    acknowledged in the same call. For a queued buffer without geometry and
    a passing size guard (on the host surface registered under
    [host_surface_id], if any), the callback returns with both serials 0,
    the new serial acknowledged through the shell surface of the window and
    the host surface, if there is one, committed last. *)
Theorem surface_configure_acknowledges_at_once s window w serial :
  st_windows s !! window = Some w ->
  cfg_serial (win_pending_config w) = 0 ->
  serial <> 0 ->
  cfg_mask (win_next_config w) = 0 ->
  COMMIT_LOOP_FIX && (cfg_states_length (win_next_config w) =? 0) = false ->
  let host_surface :=
    default None (ctx_client_objects (st_ctx s) !! win_host_surface_id w) in
  valid_surface s host_surface ->
  size_guard_passes w (surface_of s host_surface) ->
  exists s' w',
    sl_internal_xdg_surface_configure COMMIT_LOOP_FIX window serial s
    = Ok tt s'
    /\ st_windows s' !! window = Some w'
    /\ cfg_serial (win_pending_config w') = 0
    /\ cfg_serial (win_next_config w') = 0
    /\ acked_serials (st_requests s')
       = acked_serials (st_requests s)
         ++ match win_xdg_surface w with
            | Some _ => [serial]
            | None => []
            end
    /\ forall h,
         surface_of s host_surface = Some h ->
         last (st_requests s') = Some (wl_surface_commit (surf_proxy h)).
Proof.
  intros Hw Hs Hserial Hmask Hfix host_surface Hvalid Hguard.
  set (w1 := set_win_next_config
               (set_cfg_serial serial (win_next_config w)) w).
  set (s1 := set_st_windows (<[window := w1]> (st_windows s)) s).
  assert (Hw1 : st_windows s1 !! window = Some w1)
    by (cbn; apply lookup_insert_eq).
  pose proof (sl_configure_window_empty_mask s1 window w1 Hw1 Hs Hmask)
    as E2.
  set (w2 := set_win_next_config (cleared (win_next_config w1))
               (set_win_pending_config (win_next_config w1) w1)) in E2.
  match type of E2 with _ = Ok tt ?st => set (s2 := st) in E2 end.
  assert (Hw2 : st_windows s2 !! window = Some w2)
    by (cbn; apply lookup_insert_eq).
  assert (Hskip : commit_loop_skip COMMIT_LOOP_FIX w2 = false).
  { unfold commit_loop_skip. cbn. rewrite Hmask. cbn.
    destruct COMMIT_LOOP_FIX; [exact Hfix|reflexivity]. }
  destruct (process_acks_acknowledges s2 window host_surface w2 Hw2
              Hserial Hskip Hvalid Hguard (or_introl eq_refl))
    as (s3 & w3 & rs & E3 & Hupd & Hacks & _ & _ & H0 & _).
  destruct H0 as (Hp3 & Hn3 & ->); [reflexivity|].
  assert (Hrun :
    sl_internal_xdg_surface_configure COMMIT_LOOP_FIX window serial s
    = (sl_commit COMMIT_LOOP_FIX window host_surface) s2).
  { unfold sl_internal_xdg_surface_configure. wp_init s. wp_start.
    wp_step. wp_step. wp_step. wp_step.
    apply truthy_false in Hs. rewrite Hs. cbn. repeat wp_step.
    eapply wp_eq; [exact E2|]. reflexivity. }
  rewrite Hrun. unfold sl_commit, mbind, M_bind. rewrite E3. cbn.
  assert (Hlog : acked_serials (st_requests s3)
                 = acked_serials (st_requests s)
                   ++ match win_xdg_surface w with
                      | Some _ => [serial]
                      | None => []
                      end).
  { rewrite Hupd. cbn. rewrite app_nil_r, !acked_serials_app.
    unfold ack_request. cbn.
    destruct (truthy (win_managed w)); cbn;
      rewrite ?acked_serials_app, ?app_nil_r;
      destruct (win_xdg_surface w); reflexivity. }
  assert (Hlookup3 : st_windows s3 !! window = Some w3)
    by (rewrite Hupd; apply lookup_insert_eq).
  destruct host_surface as [hp|] eqn:Ehost.
  - destruct (Hvalid hp eq_refl) as [h Hh].
    unfold get_surface. rewrite Hupd. cbn. cbn in Hh. rewrite Hh. cbn.
    eexists _, w3. split; [reflexivity|]. cbn.
    split; [apply lookup_insert_eq|].
    split; [rewrite Hp3; reflexivity|].
    split; [rewrite Hn3; reflexivity|].
    split.
    { rewrite acked_serials_app. cbn. rewrite app_nil_r.
      rewrite Hupd in Hlog. exact Hlog. }
    intros h' [= <-]. apply last_snoc.
  - exists s3, w3. split; [reflexivity|]. split; [exact Hlookup3|].
    split; [rewrite Hp3; reflexivity|].
    split; [rewrite Hn3; reflexivity|].
    split; [exact Hlog|]. intros h [=].
Qed.

(** ** The state loop of [sl_internal_xdg_toplevel_configure] *)

Lemma after_states_nil c i w : after_states c [] i w = w.
Proof.
  destruct w as []. cbn.
  repeat match goal with n : sl_config |- _ => destruct n end. reflexivity.
Qed.

Ltac state_cases state :=
  destruct (Z.eq_dec state XDG_TOPLEVEL_STATE_FULLSCREEN) as [->|?];
  [|destruct (Z.eq_dec state XDG_TOPLEVEL_STATE_MAXIMIZED) as [->|?];
    [|destruct (Z.eq_dec state XDG_TOPLEVEL_STATE_ACTIVATED) as [->|?];
      [|destruct (Z.eq_dec state XDG_TOPLEVEL_STATE_RESIZING) as [->|?]]]];
  repeat match goal with
         | H : ?x <> ?y |- _ =>
             rewrite ?(proj2 (Z.eqb_neq x y) H),
               ?(proj2 (Z.eqb_neq y x) (not_eq_sym H)) in *;
             clear H
         end.

Lemma list_insert_swap {A} (l : list A) i x y :
  <[i := x]> (<[S i := y]> l) = <[S i := y]> (<[i := x]> l).
Proof. apply list_insert_insert_ne. lia. Qed.

Lemma states_result_eq {A} (a a' : A) c ws ss rq np window w w' :
  a = a' -> w = w' ->
  Ok a (Build_world c (<[window := w]> ws) ss rq np)
  = Ok a' (Build_world c (<[window := w']> ws) ss rq np).
Proof. intros -> ->. reflexivity. Qed.

Lemma proposed_atoms_cons c state states :
  proposed_atoms c (state :: states)
  = state_atoms c state ++ proposed_atoms c states.
Proof. reflexivity. Qed.

Lemma toplevel_configure_states_runs window states :
  forall i activated c ws ss rq np w,
    ws !! window = Some w ->
    (i + List.length (proposed_atoms c states)
     <= CONFIG_STATES_CAPACITY)%nat ->
    toplevel_configure_states window states i activated
      (Build_world c ws ss rq np)
    = Ok ((i + List.length (proposed_atoms c states))%nat,
          if existsb is_activated states then 1 else activated)
        (Build_world c (<[window := after_states c states i w]> ws) ss rq np).
Proof.
  induction states as [|state states IH]; intros i activated c ws ss rq np w
    Hw Hfit.
  { cbn. rewrite after_states_nil, insert_id by exact Hw.
    rewrite Nat.add_0_r. reflexivity. }
  unfold after_states. rewrite proposed_atoms_cons in *.
  rewrite length_app in *. rewrite fmap_app, list_inserts_app_l.
  rewrite length_fmap.
  wp_start. cbn [toplevel_configure_states existsb]. unfold store_state.
  unfold state_atoms, CONFIG_STATES_CAPACITY, is_activated, is_fullscreen,
    restricts_resize in Hfit |- *.
  wp_step. wp_step.
  set (n := List.length (proposed_atoms c states)) in *.
  state_cases state; cbn in Hfit; cbn.
  all: repeat first
         [ wp_step
         | match goal with
           | H : (_ <? _)%nat = false |- _ => apply Nat.ltb_ge in H; lia
           | H : (_ <=? _)%nat = false |- _ => apply Nat.leb_gt in H; lia
           end ].
  all: (eapply wp_eq;
        [apply IH;
         [first [apply lookup_insert_eq|exact Hw]
         |unfold CONFIG_STATES_CAPACITY; subst n; lia]
        |]).
  all: rewrite ?insert_insert_eq;
    unfold after_states, is_fullscreen, is_activated, restricts_resize;
    apply states_result_eq;
    [ apply f_equal2;
      [lia|try reflexivity; destruct (existsb _ states); reflexivity]
    | 
      destruct w as []; cbn;
      repeat match goal with n : sl_config |- _ => destruct n end; cbn;
      rewrite ?Nat.add_0_r;
      rewrite ?list_insert_swap;
      repeat match goal with
             | |- context [ if ?b then _ else _ ] => destruct b
             end; reflexivity ].
Qed.

Lemma toplevel_configure_states_overflows window states :
  forall i activated c ws ss rq np w,
    ws !! window = Some w ->
    (i <= CONFIG_STATES_CAPACITY)%nat ->
    (CONFIG_STATES_CAPACITY
     < i + List.length (proposed_atoms c states))%nat ->
    exists s',
      toplevel_configure_states window states i activated
        (Build_world c ws ss rq np)
      = Crash OutOfBounds s'.
Proof.
  induction states as [|state states IH]; intros i activated c ws ss rq np w
    Hw Hi Hover.
  { cbn in Hover. lia. }
  rewrite proposed_atoms_cons, length_app in Hover.
  wp_start. cbn [toplevel_configure_states]. unfold store_state.
  unfold state_atoms, CONFIG_STATES_CAPACITY in Hi, Hover |- *.
  wp_step. wp_step.
  set (n := List.length (proposed_atoms c states)) in *.
  state_cases state; cbn in Hover; cbn.
  all: repeat first
         [ wp_step
         | match goal with
           | H : (_ <? _)%nat = true |- _ => apply Nat.ltb_lt in H
           | H : (_ <=? _)%nat = true |- _ => apply Nat.leb_le in H
           end ].
  all: try (eexists; reflexivity).
  all: unfold wp; eapply IH;
    [first [apply lookup_insert_eq|exact Hw]
    |unfold CONFIG_STATES_CAPACITY; lia
    |unfold CONFIG_STATES_CAPACITY; subst n; lia].
Qed.
(** ** [sl_internal_xdg_toplevel_configure] after the size block *)

Lemma set_win_activated_same w : set_win_activated (win_activated w) w = w.
Proof. destruct w as []. reflexivity. Qed.

Lemma toplevel_configure_without_size c ws ss rq np window w width height
    states :
  ws !! window = Some w ->
  win_managed w <> 0 ->
  truthy width && truthy height = false ->
  (List.length (proposed_atoms c states) <= CONFIG_STATES_CAPACITY)%nat ->
  sl_internal_xdg_toplevel_configure sl_transform_host_to_guest
    sl_transform_try_window_scale window width height states
    (Build_world c ws ss rq np)
  = Ok tt
      (Build_world
         (after_activation window (int_of_bool (existsb is_activated states))
            (win_activated w) c)
         (<[window := after_toplevel_states c states w]> ws) ss rq np).
Proof.
  intros Hw Hg%truthy_true Hsize Hfit. wp_start.
  unfold sl_internal_xdg_toplevel_configure.
  wp_step. wp_step. rewrite Hg, Hsize. cbn. wp_step. wp_step. wp_step.
  wp_step. wp_step. wp_step. wp_step.
  eapply wp_eq;
    [apply toplevel_configure_states_runs; [apply lookup_insert_eq|exact Hfit]|].
  rewrite insert_insert_eq. unfold after_activation, after_toplevel_states.
  change (if existsb is_activated states then 1 else 0)
    with (int_of_bool (existsb is_activated states)).
  generalize (int_of_bool (existsb is_activated states)). intros a.
  set (w0 := after_states c states 0 _).
  change (win_activated w) with (win_activated w0).
  cbn [Nat.add]. clearbody w0. cbn beta iota.
  wp_step. wp_step.
  destruct (a =? win_activated w0) eqn:Ea; cbn [negb orb].
  - apply Z.eqb_eq in Ea. subst a. rewrite set_win_activated_same.
    repeat wp_step. reflexivity.
  - wp_step. wp_step. wp_step.
    destruct (a =? int_of_bool (bool_decide (ctx_host_focus_window c
                                              = Some window))) eqn:Ef;
      cbn [negb].
    + repeat wp_step. reflexivity.
    + repeat wp_step. reflexivity.
Qed.

Lemma toplevel_configure_without_size_overflows c ws ss rq np window w
    width height states :
  ws !! window = Some w ->
  win_managed w <> 0 ->
  truthy width && truthy height = false ->
  (CONFIG_STATES_CAPACITY < List.length (proposed_atoms c states))%nat ->
  exists s',
    sl_internal_xdg_toplevel_configure sl_transform_host_to_guest
      sl_transform_try_window_scale window width height states
      (Build_world c ws ss rq np)
    = Crash OutOfBounds s'.
Proof.
  intros Hw Hg%truthy_true Hsize Hover. wp_start.
  unfold sl_internal_xdg_toplevel_configure.
  wp_step. wp_step. rewrite Hg, Hsize. cbn. wp_step. wp_step. wp_step.
  wp_step. wp_step. wp_step. wp_step.
  destruct (toplevel_configure_states_overflows window states 0 0 c
              (<[window := set_win_compositor_fullscreen 0
                             (set_win_allow_resize 1 w)]> ws)
              ss rq np _ (lookup_insert_eq _ _ _)) as [s2 E];
    [unfold CONFIG_STATES_CAPACITY; lia|exact Hover|].
  eapply wp_eq; [exact E|]. cbn. eauto.
Qed.

Lemma omap_Some_id {A} (l : list A) : omap Some l = l.
Proof. induction l as [|x l IH]; cbn; [|rewrite IH]; reflexivity. Qed.

Lemma toplevel_configure_size_keeps window width height :
  keeps (both (same_ctx_field (fun c => c)) (same_field states_input))
    (toplevel_configure_size sl_transform_host_to_guest
       sl_transform_try_window_scale window width height).
Proof.
  apply keeps_both; [keeps_go same_ctx_side|keeps_go same_field_side].
Qed.

(** A returning run with any size is the size block followed by a run
    without size. *)
Lemma toplevel_configure_splits s window w width height states s' :
  st_windows s !! window = Some w ->
  win_managed w <> 0 ->
  sl_internal_xdg_toplevel_configure sl_transform_host_to_guest
    sl_transform_try_window_scale window width height states s = Ok tt s' ->
  exists s1 w1,
    st_ctx s1 = st_ctx s
    /\ st_windows s1 !! window = Some w1
    /\ states_input w1 = states_input w
    /\ (if truthy width && truthy height
        then toplevel_configure_size sl_transform_host_to_guest
               sl_transform_try_window_scale window width height s
             = Ok tt s1
        else s1 = s)
    /\ sl_internal_xdg_toplevel_configure sl_transform_host_to_guest
         sl_transform_try_window_scale window 0 0 states s1 = Ok tt s'.
Proof.
  intros Hw Hg Hrun.
  destruct (truthy width && truthy height) eqn:Hsize.
  - pose proof Hg as Hg'%truthy_true.
    unfold sl_internal_xdg_toplevel_configure in Hrun.
    apply bind_returns in Hrun as (w0 & s0 & Hget & Hrun).
    unfold get_window in Hget. rewrite Hw in Hget. injection Hget as <- <-.
    rewrite Hg', Hsize in Hrun. cbn [negb when] in Hrun.
    apply bind_returns in Hrun as ([] & s1 & Hblock & Hrun).
    pose proof (keeps_at _ _ _ _ _
                  (toplevel_configure_size_keeps window width height) Hblock)
      as [Hctx Hfield].
    specialize (Hfield window). rewrite Hw in Hfield. cbn in Hfield.
    destruct (st_windows s1 !! window) as [w1|] eqn:Hw1; [|discriminate].
    assert (Hin : states_input w1 = states_input w)
      by (cbn [fmap option_fmap option_map] in Hfield; congruence).
    clear Hfield.
    exists s1, w1. split; [symmetry; exact Hctx|]. split; [exact Hw1|].
    split; [exact Hin|]. split; [exact Hblock|].
    unfold sl_internal_xdg_toplevel_configure, mbind at 1, M_bind at 1.
    unfold get_window. rewrite Hw1.
    assert (Hg1 : truthy (win_managed w1) = true).
    { unfold states_input in Hin. injection Hin as -> _ _. exact Hg'. }
    rewrite Hg1. cbn [negb truthy Z.eqb andb when].
    unfold mbind at 1, M_bind at 1. cbn [mret M_ret]. exact Hrun.
  - exists s, w. split; [reflexivity|]. split; [exact Hw|].
    split; [reflexivity|]. split; [reflexivity|]. rewrite <- Hrun.
    destruct s as [c ws ss rq np]. cbn in Hw.
    destruct (le_gt_dec (List.length (proposed_atoms c states))
                CONFIG_STATES_CAPACITY) as [Hfit|Hover].
    + rewrite !(toplevel_configure_without_size c ws ss rq np window w)
        by (first [assumption|reflexivity]).
      reflexivity.
    + destruct (toplevel_configure_without_size_overflows c ws ss rq np
                  window w width height states Hw Hg Hsize Hover) as [s2 E].
      rewrite E in Hrun. discriminate.
Qed.

(** A returning run stores at most three atoms. *)
Lemma toplevel_configure_returns_fits s window w width height states s' :
  st_windows s !! window = Some w ->
  win_managed w <> 0 ->
  sl_internal_xdg_toplevel_configure sl_transform_host_to_guest
    sl_transform_try_window_scale window width height states s = Ok tt s' ->
  (List.length (proposed_atoms (st_ctx s) states)
   <= CONFIG_STATES_CAPACITY)%nat.
Proof.
  intros Hw Hg Hrun.
  destruct (toplevel_configure_splits _ _ _ _ _ _ _ Hw Hg Hrun)
    as (s1 & w1 & Hctx & Hw1 & Hin & _ & Hrest).
  destruct (le_gt_dec (List.length (proposed_atoms (st_ctx s) states))
              CONFIG_STATES_CAPACITY) as [Hfit|Hover]; [exact Hfit|].
  exfalso. destruct s1 as [c1 ws1 ss1 rq1 np1]. cbn in Hctx, Hw1. subst c1.
  assert (Hg1 : win_managed w1 <> 0).
  { unfold states_input in Hin. injection Hin as -> _ _. exact Hg. }
  destruct (toplevel_configure_without_size_overflows (st_ctx s) ws1 ss1 rq1
              np1 window w1 0 0 states Hw1 Hg1 eq_refl Hover) as [s2 E].
  rewrite E in Hrest. discriminate.
Qed.

(** The result of a returning run, from the state after the size block. *)
Lemma toplevel_configure_result s window w width height states s' :
  st_windows s !! window = Some w ->
  win_managed w <> 0 ->
  sl_internal_xdg_toplevel_configure sl_transform_host_to_guest
    sl_transform_try_window_scale window width height states s = Ok tt s' ->
  exists w1,
    states_input w1 = states_input w
    /\ st_ctx s'
       = after_activation window (int_of_bool (existsb is_activated states))
           (win_activated w) (st_ctx s)
    /\ st_windows s' !! window
       = Some (after_toplevel_states (st_ctx s) states w1).
Proof.
  intros Hw Hg Hrun.
  pose proof (toplevel_configure_returns_fits _ _ _ _ _ _ _ Hw Hg Hrun)
    as Hfit.
  destruct (toplevel_configure_splits _ _ _ _ _ _ _ Hw Hg Hrun)
    as (s1 & w1 & Hctx & Hw1 & Hin & _ & Hrest).
  destruct s1 as [c1 ws1 ss1 rq1 np1]. cbn in Hctx, Hw1. subst c1.
  assert (Hg1 : win_managed w1 <> 0).
  { unfold states_input in Hin. injection Hin as -> _ _. exact Hg. }
  rewrite (toplevel_configure_without_size (st_ctx s) ws1 ss1 rq1 np1 window
             w1 0 0 states Hw1 Hg1 eq_refl Hfit) in Hrest.
  injection Hrest as <-. exists w1. split; [exact Hin|]. cbn.
  split; [|apply lookup_insert_eq].
  unfold states_input in Hin. injection Hin as _ -> _. reflexivity.
Qed.

Lemma take_list_inserts_0 {A} (k l : list A) :
  (List.length k <= List.length l)%nat ->
  take (List.length k) (list_inserts 0 k l) = k.
Proof.
  intros Hlen. rewrite <- (take_drop (List.length k) l) at 1.
  rewrite list_inserts_0_r by (rewrite length_take; lia).
  apply take_app_length.
Qed.

(** X6: what a returning toplevel configure leaves in the window, for any
    proposed size: [allow_resize] is 0 exactly when a proposed state is
    fullscreen, maximized or resizing, [compositor_fullscreen] and
    [activated] tell whether fullscreen and activated were proposed, and the
    state list of [next_config] starts with the atoms of the proposed
    states, in their order, with [states_length] their number. *)
Theorem toplevel_configure_flags s window w width height states s' :
  st_windows s !! window = Some w ->
  win_managed w <> 0 ->
  List.length (cfg_states (win_next_config w)) = CONFIG_STATES_CAPACITY ->
  sl_internal_xdg_toplevel_configure sl_transform_host_to_guest
    sl_transform_try_window_scale window width height states s = Ok tt s' ->
  exists w',
    st_windows s' !! window = Some w'
    /\ win_allow_resize w'
       = int_of_bool (negb (existsb restricts_resize states))
    /\ win_compositor_fullscreen w'
       = int_of_bool (existsb is_fullscreen states)
    /\ win_activated w' = int_of_bool (existsb is_activated states)
    /\ cfg_states_length (win_next_config w')
       = Z.of_nat (List.length (proposed_atoms (st_ctx s) states))
    /\ take (List.length (proposed_atoms (st_ctx s) states))
         (cfg_states (win_next_config w'))
       = to_u32 <$> proposed_atoms (st_ctx s) states.
Proof.
  intros Hw Hg Hlen Hrun.
  pose proof (toplevel_configure_returns_fits _ _ _ _ _ _ _ Hw Hg Hrun)
    as Hfit.
  destruct (toplevel_configure_result _ _ _ _ _ _ _ Hw Hg Hrun)
    as (w1 & Hin & _ & Hw').
  eexists. split; [exact Hw'|].
  unfold states_input in Hin. injection Hin as _ _ Hstates.
  unfold after_toplevel_states, after_states. cbn. rewrite Hstates.
  split; [destruct (existsb restricts_resize states); reflexivity|].
  split; [destruct (existsb is_fullscreen states); reflexivity|].
  split; [reflexivity|]. split; [reflexivity|].
  rewrite <- (length_fmap to_u32) at 1. apply take_list_inserts_0.
  rewrite length_fmap, Hlen. exact Hfit.
Qed.

(** X7: [next_config.states] has three slots and the callback does not
    test its index. For a managed window and a proposed size with a zero
    width or height, the callback makes a store past the last slot exactly
    when the proposed states need more than three atoms, one for
    fullscreen, two for maximized and one for activated, repeated states
    counted again; when they need at most three, it returns. *)
Theorem toplevel_configure_stores_past_capacity
    s window w width height states :
  st_windows s !! window = Some w ->
  win_managed w <> 0 ->
  width = 0 \/ height = 0 ->
  let run :=
    sl_internal_xdg_toplevel_configure sl_transform_host_to_guest
      sl_transform_try_window_scale window width height states s in
  (stores_out_of_bounds run
   <-> (CONFIG_STATES_CAPACITY
        < List.length (proposed_atoms (st_ctx s) states))%nat)
  /\ ((List.length (proposed_atoms (st_ctx s) states)
       <= CONFIG_STATES_CAPACITY)%nat ->
      exists s', run = Ok tt s').
Proof.
  intros Hw Hg Hzero run.
  assert (Hsize : truthy width && truthy height = false).
  { destruct Hzero as [->| ->]; [reflexivity|apply andb_false_r]. }
  destruct s as [c ws ss rq np]. cbn in Hw |- *.
  assert (Hfits : (List.length (proposed_atoms c states)
                   <= CONFIG_STATES_CAPACITY)%nat ->
                  exists s', run = Ok tt s').
  { intros Hfit. eexists. apply toplevel_configure_without_size; eassumption. }
  split; [split|exact Hfits].
  - intros [s' Hstore].
    destruct (le_gt_dec (List.length (proposed_atoms c states))
                CONFIG_STATES_CAPACITY) as [Hfit|Hover]; [|exact Hover].
    destruct (Hfits Hfit) as [s'' Hrun]. rewrite Hrun in Hstore.
    discriminate.
  - intros Hover.
    apply toplevel_configure_without_size_overflows with (w := w);
      assumption.
Qed.

(** X8: the focus fields after a returning toplevel configure. Without a
    change of the activation of the window the context is as before. With a
    change, the focus pointer names the window exactly when it is now
    activated, a window that loses activation takes the focus away from no
    other window, and [needs_set_input_focus] is 1 whenever the pointer
    changed. *)
Theorem toplevel_configure_focus s window w width height states s' :
  st_windows s !! window = Some w ->
  win_managed w <> 0 ->
  sl_internal_xdg_toplevel_configure sl_transform_host_to_guest
    sl_transform_try_window_scale window width height states s = Ok tt s' ->
  let activated := existsb is_activated states in
  let focus := ctx_host_focus_window (st_ctx s) in
  let focus' := ctx_host_focus_window (st_ctx s') in
  (int_of_bool activated = win_activated w -> st_ctx s' = st_ctx s)
  /\ (int_of_bool activated <> win_activated w ->
      (focus' = Some window <-> activated = true)
      /\ (activated = false -> focus <> Some window -> st_ctx s' = st_ctx s)
      /\ (focus' <> focus ->
          ctx_needs_set_input_focus (st_ctx s') = 1)).
Proof.
  intros Hw Hg Hrun.
  destruct (toplevel_configure_result _ _ _ _ _ _ _ Hw Hg Hrun)
    as (w1 & _ & Hctx & _).
  clear Hw Hg Hrun COMMIT_LOOP_FIX sl_transform_guest_to_host
    xcb_get_geometry_reply.
  cbv zeta. rewrite Hctx. unfold after_activation. split.
  - intros ->. rewrite Z.eqb_refl. reflexivity.
  - intros Hne%Z.eqb_neq. rewrite Hne. cbn [orb].
    destruct (existsb is_activated states);
      destruct (bool_decide_reflect
                  (ctx_host_focus_window (st_ctx s) = Some window))
        as [Hfocus|Hfocus]; cbn.
    all: repeat split; try tauto; try congruence.
Qed.

(** *** The callback only stages *)

Lemma log_toplevel_configure_states window states : forall i activated,
  keeps (same_log Some) (toplevel_configure_states window states i activated).
Proof.
  induction states as [|state states IH]; intros i activated;
    cbn [toplevel_configure_states]; keeps_go same_log_side.
Qed.

Lemma applied_toplevel_configure_states window states : forall i activated,
  keeps (same_field applied_state)
    (toplevel_configure_states window states i activated).
Proof.
  induction states as [|state states IH]; intros i activated;
    cbn [toplevel_configure_states]; keeps_go same_field_side.
Qed.

Lemma others_toplevel_configure_states window states : forall i activated,
  keeps (same_field_except window (fun w => w))
    (toplevel_configure_states window states i activated).
Proof.
  induction states as [|state states IH]; intros i activated;
    cbn [toplevel_configure_states]; keeps_go same_field_except_side.
Qed.
#[local] Hint Resolve log_toplevel_configure_states
  applied_toplevel_configure_states others_toplevel_configure_states : keeps.

(** X9: the toplevel configure callback only stages. When the proposed
    states need at most three atoms, so that every store is inside
    [next_config.values] and [next_config.states], then whatever the size
    and the window, and whether the callback returns or stops, it sends no
    request, leaves every other window as it was, and leaves the fields of
    its own window that [sl_configure_window] and [sl_window_update] own:
    the geometry, the pending buffer, [realized], [unpaired] and the four
    role handles. *)
Theorem toplevel_configure_only_stages s window width height states :
  (List.length (proposed_atoms (st_ctx s) states)
   <= CONFIG_STATES_CAPACITY)%nat ->
  let s' :=
    final (sl_internal_xdg_toplevel_configure sl_transform_host_to_guest
             sl_transform_try_window_scale window width height states s) in
  st_requests s' = st_requests s
  /\ (forall q,
        applied_state <$> st_windows s' !! q
        = applied_state <$> st_windows s !! q)
  /\ (forall q, q <> window -> st_windows s' !! q = st_windows s !! q).
Proof.
  intros _. cbv zeta. split; [|split].
  - assert (K : keeps (same_log Some)
                  (sl_internal_xdg_toplevel_configure
                     sl_transform_host_to_guest sl_transform_try_window_scale
                     window width height states))
      by keeps_go same_log_side.
    specialize (K s). unfold same_log in K. rewrite !omap_Some_id in K.
    symmetry. exact K.
  - assert (K : keeps (same_field applied_state)
                  (sl_internal_xdg_toplevel_configure
                     sl_transform_host_to_guest sl_transform_try_window_scale
                     window width height states))
      by keeps_go same_field_side.
    intros q. symmetry. apply (K s q).
  - assert (K : keeps (same_field_except window (fun w => w))
                  (sl_internal_xdg_toplevel_configure
                     sl_transform_host_to_guest sl_transform_try_window_scale
                     window width height states))
      by keeps_go same_field_except_side.
    intros q Hq. specialize (K s q Hq). rewrite !option_fmap_id in K.
    symmetry. exact K.
Qed.

(** X21: for an unmanaged window the toplevel configure callback does
    nothing, whatever size and states are proposed. *)
Theorem toplevel_configure_ignores_unmanaged s window w width height states :
  st_windows s !! window = Some w ->
  win_managed w = 0 ->
  sl_internal_xdg_toplevel_configure sl_transform_host_to_guest
    sl_transform_try_window_scale window width height states s = Ok tt s.
Proof.
  intros Hw Hg%truthy_false. wp_init s. wp_start.
  unfold sl_internal_xdg_toplevel_configure.
  wp_step. wp_step. rewrite Hg. cbn. wp_step. reflexivity.
Qed.
(** ** The size block of [sl_internal_xdg_toplevel_configure] *)

Lemma toplevel_configure_size_stages s window w width height :
  st_windows s !! window = Some w ->
  List.length (cfg_values (win_next_config w)) = CONFIG_VALUES_CAPACITY ->
  wp (toplevel_configure_size sl_transform_host_to_guest
        sl_transform_try_window_scale window width height) s
    (fun r => forall s1, r = Ok tt s1 ->
       st_ctx s1 = st_ctx s
       /\ st_requests s1 = st_requests s
       /\ let paired := surface_of s1 (win_paired_surface w) in
          let size :=
            sl_transform_host_to_guest (st_ctx s) paired width height in
          st_windows s1 !! window
          = Some (set_win_next_config
                    (set_cfg_values
                       (staged_values (st_ctx s) paired size w)
                       (set_cfg_mask (staged_mask w) (win_next_config w)))
                    w)).
Proof.
  intros Hw Hlen. wp_init s.
  unfold staged_values, staged_mask, centred_position, has_position_hint.
  destruct (cfg_values (win_next_config w))
    as [|v0 [|v1 [|v2 [|v3 [|v4 [|]]]]]] eqn:Hvalues; try discriminate.
  unfold toplevel_configure_size, transform_host_to_guest,
    transform_try_window_scale, store_value.
  wp_step. wp_step. wp_step.
  destruct (has_bit (win_size_flags w) (Z.lor US_POSITION P_POSITION))
    eqn:Hflags;
    (destruct (win_paired_surface w) as [sp|] eqn:Hsp; cbn;
     [ destruct (ss !! sp) as [h|] eqn:Hh;
       [|wp_step; wp_step; intros s1 [=]];
       wp_step; wp_step; wp_step; wp_step; wp_step |]).
  all: repeat (wp_step; rewrite ?Hflags, ?Hsp, ?Hvalues; cbn).
  all: intros s1 [= <-]; (split; [reflexivity|]); (split; [reflexivity|]);
    unfold surface_of;
    repeat (progress
              (cbn; rewrite ?Hh, ?lookup_insert_eq;
               repeat match goal with
                      | H : sl_transform_host_to_guest _ _ _ _ = _ |- _ =>
                          rewrite H; clear H
                      | H : surf_output _ = _ |- _ => rewrite H; clear H
                      end));
    rewrite ?Hvalues; reflexivity.
Qed.

Lemma to_i32_to_u32 z : to_i32 (to_u32 z) = to_i32 z.
Proof. unfold to_i32, to_u32. rewrite Z.add_mod_idemp_l by lia. reflexivity. Qed.

(** The result of a returning run with a proposed size. *)
Lemma toplevel_configure_sized_result s window w width height states s' :
  st_windows s !! window = Some w ->
  win_managed w <> 0 ->
  width <> 0 -> height <> 0 ->
  List.length (cfg_values (win_next_config w)) = CONFIG_VALUES_CAPACITY ->
  sl_internal_xdg_toplevel_configure sl_transform_host_to_guest
    sl_transform_try_window_scale window width height states s = Ok tt s' ->
  let paired := surface_of s' (win_paired_surface w) in
  let size := sl_transform_host_to_guest (st_ctx s) paired width height in
  st_requests s' = st_requests s
  /\ st_windows s' !! window
     = Some (after_toplevel_states (st_ctx s) states
               (set_win_next_config
                  (set_cfg_values (staged_values (st_ctx s) paired size w)
                     (set_cfg_mask (staged_mask w) (win_next_config w)))
                  w)).
Proof.
  intros Hw Hg Hwidth%truthy_true Hheight%truthy_true Hlen Hrun.
  pose proof (toplevel_configure_returns_fits _ _ _ _ _ _ _ Hw Hg Hrun)
    as Hfit.
  destruct (toplevel_configure_splits _ _ _ _ _ _ _ Hw Hg Hrun)
    as (s1 & w1 & Hctx & Hw1 & Hin & Hblock & Hrest).
  rewrite Hwidth, Hheight in Hblock. cbn [andb] in Hblock.
  pose proof (toplevel_configure_size_stages s window w width height Hw Hlen)
    as Hsize.
  unfold wp in Hsize. destruct (Hsize s1 Hblock) as (_ & Hrq & Hstaged).
  clear Hsize. cbv zeta in Hstaged. rewrite Hw1 in Hstaged.
  injection Hstaged as ->.
  destruct s1 as [c1 ws1 ss1 rq1 np1]. cbn in Hctx, Hw1, Hrq. subst c1 rq1.
  rewrite (toplevel_configure_without_size (st_ctx s) ws1 ss1
             (st_requests s) np1 window _ 0 0 states Hw1 Hg eq_refl Hfit)
    in Hrest.
  injection Hrest as <-. cbv zeta. cbn. split; [reflexivity|].
  apply lookup_insert_eq.
Qed.

(** X10: the geometry a returning toplevel configure with a proposed size
    stages in [next_config], where [size] is the size in pixels the
    transform returns. For a window with a position hint the mask selects
    width, height and border width, and the values start with the width,
    the height and 0; for a window without one the mask selects all five
    fields and the values are the centred position, the width, the height
    and 0. *)
Theorem toplevel_configure_stages_geometry
    s window w width height states s' :
  st_windows s !! window = Some w ->
  win_managed w <> 0 ->
  width <> 0 -> height <> 0 ->
  List.length (cfg_values (win_next_config w)) = CONFIG_VALUES_CAPACITY ->
  sl_internal_xdg_toplevel_configure sl_transform_host_to_guest
    sl_transform_try_window_scale window width height states s = Ok tt s' ->
  let paired := surface_of s' (win_paired_surface w) in
  let size := sl_transform_host_to_guest (st_ctx s) paired width height in
  exists w',
    st_windows s' !! window = Some w'
    /\ if has_position_hint w
       then cfg_mask (win_next_config w')
            = Z.lor XCB_CONFIG_WINDOW_WIDTH
                (Z.lor XCB_CONFIG_WINDOW_HEIGHT
                   XCB_CONFIG_WINDOW_BORDER_WIDTH)
            /\ take 3 (cfg_values (win_next_config w'))
               = [to_u32 size.1; to_u32 size.2; 0]
       else cfg_mask (win_next_config w')
            = Z.lor XCB_CONFIG_WINDOW_X
                (Z.lor XCB_CONFIG_WINDOW_Y
                   (Z.lor XCB_CONFIG_WINDOW_WIDTH
                      (Z.lor XCB_CONFIG_WINDOW_HEIGHT
                         XCB_CONFIG_WINDOW_BORDER_WIDTH)))
            /\ cfg_values (win_next_config w')
               = [to_u32 (centred_position (st_ctx s) paired size).1;
                  to_u32 (centred_position (st_ctx s) paired size).2;
                  to_u32 size.1; to_u32 size.2; 0].
Proof.
  intros Hw Hg Hwidth Hheight Hlen Hrun.
  destruct (toplevel_configure_sized_result _ _ _ _ _ _ _
              Hw Hg Hwidth Hheight Hlen Hrun) as [_ Hw'].
  cbv zeta in *. eexists. split; [exact Hw'|].
  unfold after_toplevel_states, after_states, staged_values, staged_mask.
  cbn. destruct (has_position_hint w); split; reflexivity.
Qed.

(** X11: a returning toplevel configure followed by [sl_configure_window],
    with no serial pending, puts the staged geometry into the window: the
    width and height in pixels read back as [int]s, a border width of 0,
    and the centred position unless the window has a position hint, in
    which case x and y stay. *)
Theorem toplevel_configure_then_configure_window
    s window w width height states s1 :
  st_windows s !! window = Some w ->
  win_managed w <> 0 ->
  width <> 0 -> height <> 0 ->
  List.length (cfg_values (win_next_config w)) = CONFIG_VALUES_CAPACITY ->
  cfg_serial (win_pending_config w) = 0 ->
  sl_internal_xdg_toplevel_configure sl_transform_host_to_guest
    sl_transform_try_window_scale window width height states s = Ok tt s1 ->
  let paired := surface_of s1 (win_paired_surface w) in
  let size := sl_transform_host_to_guest (st_ctx s) paired width height in
  let centre := centred_position (st_ctx s) paired size in
  exists s2 w2,
    sl_configure_window window s1 = Ok tt s2
    /\ st_windows s2 !! window = Some w2
    /\ win_x w2 = (if has_position_hint w then win_x w else to_i32 centre.1)
    /\ win_y w2 = (if has_position_hint w then win_y w else to_i32 centre.2)
    /\ win_width w2 = to_i32 size.1
    /\ win_height w2 = to_i32 size.2
    /\ win_border_width w2 = 0.
Proof.
  intros Hw Hg Hwidth Hheight Hlen Hpending Hrun.
  destruct (toplevel_configure_sized_result _ _ _ _ _ _ _
              Hw Hg Hwidth Hheight Hlen Hrun) as [_ Hw1].
  cbv zeta in *.
  match type of Hw1 with _ = Some ?x => set (w1 := x) in Hw1 end.
  assert (Hmask : cfg_mask (win_next_config w1) = staged_mask w)
    by reflexivity.
  destruct (sl_configure_window_applies s1 window w1 Hw1)
    as (s2 & w2 & E & Hwindows & Hx & Hy & Hw2 & Hh2 & Hb2 & _).
  { exact Hpending. }
  { rewrite Hmask. unfold staged_mask.
    destruct (has_position_hint w); discriminate. }
  { exact Hg. }
  exists s2, w2. split; [exact E|]. split.
  { rewrite Hwindows. apply lookup_insert_eq. }
  rewrite Hx, Hy, Hw2, Hh2, Hb2. unfold masked_value. rewrite Hmask.
  assert (Hvalues :
    cfg_values (win_next_config w1)
    = staged_values (st_ctx s) (surface_of s1 (win_paired_surface w))
        (sl_transform_host_to_guest (st_ctx s)
           (surface_of s1 (win_paired_surface w)) width height) w)
    by reflexivity.
  rewrite Hvalues.
  change (win_x w1) with (win_x w). change (win_y w1) with (win_y w).
  change (win_width w1) with (win_width w).
  change (win_height w1) with (win_height w).
  change (win_border_width w1) with (win_border_width w).
  unfold staged_values, staged_mask.
  destruct (has_position_hint w);
    repeat match goal with
           | |- context [ value_index ?m ?b ] =>
               let v := eval vm_compute in (value_index m b) in
               change (value_index m b) with v
           | |- context [ has_bit ?m ?b ] =>
               let v := eval vm_compute in (has_bit m b) in
               change (has_bit m b) with v
           end;
    cbn; rewrite ?to_i32_to_u32; repeat split; reflexivity.
Qed.
(** ** The destructor *)

(** X12: the destructor always returns and leaves no pointer to the window
    behind: the window is gone from the store and from both window lists,
    whose other entries stay in their order, the focus pointer does not name
    it, and [needs_set_input_focus] is raised if it did. The other windows
    and the request log are as before. *)
Theorem window_destroy_unlinks s window :
  exists s',
    sl_window_destroy window s = Ok tt s'
    /\ st_windows s' = delete window (st_windows s)
    /\ ctx_windows (st_ctx s')
       = filter (fun q => q <> window) (ctx_windows (st_ctx s))
    /\ ctx_unpaired_windows (st_ctx s')
       = filter (fun q => q <> window) (ctx_unpaired_windows (st_ctx s))
    /\ ctx_host_focus_window (st_ctx s') <> Some window
    /\ (if decide (ctx_host_focus_window (st_ctx s) = Some window)
        then ctx_host_focus_window (st_ctx s') = None
             /\ ctx_needs_set_input_focus (st_ctx s') = 1
        else ctx_host_focus_window (st_ctx s')
             = ctx_host_focus_window (st_ctx s)
             /\ ctx_needs_set_input_focus (st_ctx s')
                = ctx_needs_set_input_focus (st_ctx s))
    /\ st_requests s' = st_requests s.
Proof.
  wp_init s. wp_start. unfold sl_window_destroy, wl_list_remove, free_window.
  wp_step. wp_step. wp_step.
  destruct (bool_decide_reflect (ctx_host_focus_window c = Some window))
    as [Hfocus|Hfocus]; cbn.
  - repeat wp_step. unfold wp. eexists. split; [reflexivity|]. cbn.
    rewrite decide_True by exact Hfocus. repeat split; congruence.
  - repeat wp_step. unfold wp. eexists. split; [reflexivity|]. cbn.
    rewrite decide_False by exact Hfocus. repeat split; congruence.
Qed.

(** ** [sl_window_update] without a host resource *)

(** X13: when no host resource is registered for the window,
    [sl_window_update] returns with the four handles cleared and [realized]
    0, having sent one destroy request for each handle the window had, in
    the order aura surface, toplevel, popup, shell surface, and nothing else;
    the surfaces and the other windows are as before. *)
Theorem window_update_tears_down s window w :
  st_windows s !! window = Some w ->
  host_resource_absent s w ->
  exists s' w',
    sl_window_update COMMIT_LOOP_FIX sl_transform_guest_to_host
      sl_transform_try_window_scale xcb_get_geometry_reply window s
    = Ok tt s'
    /\ st_windows s' = <[window := w']> (st_windows s)
    /\ st_surfaces s' = st_surfaces s
    /\ st_requests s' = st_requests s ++ destroy_requests w
    /\ win_aura_surface w' = None /\ win_xdg_toplevel w' = None
    /\ win_xdg_popup w' = None /\ win_xdg_surface w' = None
    /\ win_realized w' = 0.
Proof.
  intros Hw Habsent.
  assert (Hid :
    (if truthy (win_host_surface_id w)
     then ctx_client_objects (st_ctx s) !! win_host_surface_id w
     else None) = None).
  { destruct Habsent as [->|Hobj]; [reflexivity|].
    rewrite Hobj. destruct (truthy _); reflexivity. }
  clear Habsent. wp_init s. wp_start.
  unfold sl_window_update, window_update_pairing, window_update_teardown,
    wl_list_remove, wl_list_insert_windows, wl_list_insert_unpaired_windows,
    destroy_requests.
  repeat first
    [ wp_step
    | discriminate Hid
    | match goal with
      | H : is_set None && _ = true |- _ => discriminate H
      end ].
  all: eexists _, _; (split; [reflexivity|]); cbn;
    rewrite <- ?app_assoc, ?app_nil_r;
    repeat split; first [reflexivity|assumption].
Qed.

(** ** The commit at the end of [sl_window_update] *)

(** X14: in a build without [COMMIT_LOOP_FIX], a returning
    [sl_window_update] that found a host resource ends with the commit of
    the host surface registered for the window: that commit is the last
    request of the log. *)
Theorem window_update_commits_last s window w s' :
  COMMIT_LOOP_FIX = false ->
  st_windows s !! window = Some w ->
  ~ host_resource_absent s w ->
  sl_window_update COMMIT_LOOP_FIX sl_transform_guest_to_host
    sl_transform_try_window_scale xcb_get_geometry_reply window s
  = Ok tt s' ->
  exists hp h,
    ctx_client_objects (st_ctx s) !! win_host_surface_id w = Some (Some hp)
    /\ st_surfaces s' !! hp = Some h
    /\ last (st_requests s') = Some (wl_surface_commit (surf_proxy h)).
Proof.
  intros Hfix Hw Hpresent Hrun. unfold sl_window_update in Hrun.
  apply bind_returns in Hrun as (r & s1 & Hpair & Hrun).
  pose proof (window_update_pairing_result s window w r s1 Hw Hpair) as Hr.
  destruct r as [user_data|].
  2:{ exfalso. apply Hpresent. unfold host_resource_absent.
      destruct (truthy (win_host_surface_id w)) eqn:Eid.
      - right. symmetry. exact Hr.
      - left. apply truthy_false. exact Eid. }
  destruct (truthy (win_host_surface_id w)); [|discriminate].
  apply bind_returns in Hrun as (host_surface & s2 & Hbind & Hrun).
  apply window_update_bind_result in Hbind as ->.
  do 5 (apply bind_returns in Hrun as (? & ? & _ & Hrun)).
  exists host_surface. rewrite <- Hr. clear - Hrun Hfix.
  rewrite Hfix in Hrun. revert Hrun. unfold window_update_commit.
  match goal with |- _ ?st = _ -> _ => wp_init st end. wp_start.
  repeat wp_step.
  all: try (unfold wp, modify_window; cbn;
            destruct (_ !! window); cbn).
  all: try solve [intros [=]].
  all: intros [= <-]; cbn; eexists; (split; [reflexivity|]); split;
    [first [eassumption|reflexivity]|].
  all: apply last_snoc.
Qed.

(** ** The window lists and the [unpaired] flag *)

Lemma lists_toplevel_configure_states window states : forall i activated,
  keeps (same_ctx_field window_lists)
    (toplevel_configure_states window states i activated).
Proof.
  induction states as [|state states IH]; intros i activated;
    cbn [toplevel_configure_states]; keeps_go same_ctx_side.
Qed.

Lemma unpaired_toplevel_configure_states window states : forall i activated,
  keeps (same_field win_unpaired)
    (toplevel_configure_states window states i activated).
Proof.
  induction states as [|state states IH]; intros i activated;
    cbn [toplevel_configure_states]; keeps_go same_field_side.
Qed.
#[local] Hint Resolve lists_toplevel_configure_states
  unpaired_toplevel_configure_states : keeps.

Ltac lists_frame_go :=
  unfold lists_frame; apply keeps_both;
    [keeps_go same_ctx_side|keeps_go same_field_side].

Lemma lists_consistent_frame s s' :
  lists_frame s s' -> lists_consistent s -> lists_consistent s'.
Proof.
  intros [Hlists Hflags] Hs q w' Hq.
  unfold same_ctx_field, window_lists in Hlists.
  injection Hlists as Hwindows Hunpaired.
  specialize (Hflags q). rewrite Hq in Hflags.
  destruct (st_windows s !! q) as [w|] eqn:Hw; [|discriminate].
  injection Hflags as Hflag. specialize (Hs q w Hw).
  rewrite <- Hwindows, <- Hunpaired, <- Hflag. exact Hs.
Qed.

Lemma window_update_pairing_lists_consistent s window :
  lists_consistent s ->
  lists_consistent (final (window_update_pairing window s)).
Proof.
  intros Hs.
  assert (Hmove : forall c ws ss rq np w flag (to_windows : bool),
    lists_consistent (Build_world c ws ss rq np) ->
    ws !! window = Some w ->
    truthy flag = negb to_windows ->
    forall w',
      win_unpaired w' = flag ->
      lists_consistent
        (Build_world
           (if to_windows
            then set_ctx_windows
                   (window :: filter (fun q => q <> window) (ctx_windows c))
                   (set_ctx_unpaired_windows
                      (filter (fun q => q <> window)
                         (ctx_unpaired_windows c)) c)
            else set_ctx_unpaired_windows
                   (window
                    :: filter (fun q => q <> window) (ctx_unpaired_windows c))
                   (set_ctx_windows
                      (filter (fun q => q <> window) (ctx_windows c)) c))
           (<[window := w']> ws) ss rq np)).
  { intros c ws ss rq np w flag to_windows Hc Hw Hflag w' Hw' q wq Hq.
    cbn in Hq |- *. destruct (decide (q = window)) as [->|Hne].
    - rewrite lookup_insert_eq in Hq. injection Hq as <-.
      rewrite Hw', Hflag.
      destruct to_windows; cbn; split;
        first [apply list_elem_of_here
              |intros [Hself _]%list_elem_of_filter;
               apply Hself; reflexivity].
    - rewrite lookup_insert_ne in Hq by congruence.
      specialize (Hc q wq Hq). cbn in Hc.
      destruct to_windows, (truthy (win_unpaired wq)); cbn;
        rewrite ?elem_of_cons, !list_elem_of_filter; tauto. }
  destruct (st_windows s !! window) as [w|] eqn:Hw.
  2:{ unfold window_update_pairing. rewrite final_bind.
      unfold get_window. rewrite Hw. exact Hs. }
  revert Hs. wp_init s. intros Hs.
  unfold window_update_pairing, wl_list_remove, wl_list_insert_windows,
    wl_list_insert_unpaired_windows.
  wp_start. repeat wp_step.
  all: first
    [ exact Hs
    | exact (Hmove c ws ss rq np w 0 true Hs Hw eq_refl
               (set_win_unpaired 0 w) eq_refl)
    | exact (Hmove c ws ss rq np w 1 false Hs Hw eq_refl
               (set_win_paired_surface None (set_win_unpaired 1 w))
               eq_refl) ].
Qed.

(** X15: every entry point of the file keeps the window lists consistent
    with the [unpaired] flags: if every live window is on the list its flag
    names and not on the other, that still holds in the state the entry
    point ends in, whether it returns or stops. Only [sl_window_update]
    moves a window, and it moves the flag with it. *)
Theorem operations_keep_lists_consistent o s :
  lists_consistent s ->
  lists_consistent
    (final (run_operation COMMIT_LOOP_FIX sl_transform_host_to_guest
              sl_transform_guest_to_host sl_transform_try_window_scale
              xcb_get_geometry_reply o s)).
Proof.
  intros Hs.
  destruct o; cbn [run_operation];
    try (eapply lists_consistent_frame; [|exact Hs];
         match goal with
         | |- lists_frame _ (final (?m _)) =>
             assert (K : keeps lists_frame m) by lists_frame_go; apply K
         end).
  unfold sl_window_update. rewrite final_bind.
  pose proof (window_update_pairing_lists_consistent s window Hs) as Hpair.
  destruct (window_update_pairing window s) as [r s1|f s1]; cbn in Hpair;
    [|exact Hpair].
  eapply lists_consistent_frame; [|exact Hpair].
  match goal with
  | |- lists_frame _ (final (?m _)) =>
      assert (K : keeps lists_frame m) by lists_frame_go; apply K
  end.
Qed.
(** ** Parent resolution *)

Lemma eligible_parent_serial s w q serial serial' :
  eligible_parent s w q serial -> eligible_parent s w q serial' ->
  serial = serial'.
Proof.
  intros (qw & hp & h & Hq & _ & Hobj & Hh & <- & _)
    (qw' & hp' & h' & Hq' & _ & Hobj' & Hh' & <- & _).
  congruence.
Qed.

Ltac run_step H :=
  unfold mbind at 1, M_bind at 1 in H; cbn beta iota in H.

Lemma find_transient_for_result transient_for siblings s r s' :
  find_transient_for transient_for siblings s = Ok r s' ->
  s' = s
  /\ forall p,
       r = Some p ->
       p ∈ siblings
       /\ exists pw,
            st_windows s !! p = Some pw
            /\ win_id pw = transient_for
            /\ win_xdg_toplevel pw <> None.
Proof.
  induction siblings as [|sibling siblings IH]; cbn [find_transient_for].
  { intros [= <- <-]. split; [reflexivity|]. intros p [=]. }
  intros Hrun. run_step Hrun. unfold get_window in Hrun.
  destruct (st_windows s !! sibling) as [sw|] eqn:Hsw; [|discriminate].
  destruct (win_id sw =? transient_for) eqn:Eid.
  - injection Hrun as <- <-. split; [reflexivity|].
    intros p Hp. destruct (win_xdg_toplevel sw) eqn:Et; [|discriminate].
    injection Hp as <-. split; [apply list_elem_of_here|].
    exists sw. apply Z.eqb_eq in Eid. rewrite Et. auto.
  - destruct (IH Hrun) as [-> Hp]. split; [reflexivity|].
    intros p Hr. destruct (Hp p Hr) as [Hin Hpw].
    split; [apply list_elem_of_further, Hin|exact Hpw].
Qed.

(** The first window of the list with the id [transient_for] decides. *)
Lemma find_transient_for_first transient_for before p after s pw :
  Forall (fun q => exists qw, st_windows s !! q = Some qw
                              /\ win_id qw <> transient_for) before ->
  st_windows s !! p = Some pw ->
  win_id pw = transient_for ->
  find_transient_for transient_for (before ++ p :: after) s
  = Ok (if is_set (win_xdg_toplevel pw) then Some p else None) s.
Proof.
  intros Hbefore Hp Hid.
  induction Hbefore as [|q before (qw & Hq & Hne) _ IH];
    cbn [app find_transient_for]; unfold mbind at 1, M_bind at 1, get_window.
  - rewrite Hp. apply Z.eqb_eq in Hid. rewrite Hid. reflexivity.
  - rewrite Hq. apply Z.eqb_neq in Hne. rewrite Hne. exact IH.
Qed.

Lemma find_last_event_parent_result window w siblings :
  forall parent serial s r s',
    st_windows s !! window = Some w ->
    find_last_event_parent window siblings parent serial s = Ok r s' ->
    s' = s
    /\ exists serial',
         serial <= serial'
         /\ ((r = parent /\ serial' = serial)
             \/ exists p,
                  r = Some p /\ p ∈ siblings
                  /\ eligible_parent s w p serial')
         /\ forall q serial_q,
              q ∈ siblings -> eligible_parent s w q serial_q ->
              serial_q <= serial'.
Proof.
  induction siblings as [|sibling siblings IH];
    intros parent serial s r s' Hw; cbn [find_last_event_parent].
  { intros [= <- <-]. split; [reflexivity|]. exists serial.
    split; [lia|]. split; [left; auto|].
    intros q serial_q Hq. apply elem_of_nil in Hq as []. }
  assert (Hlift : forall parent1 serial1,
    serial <= serial1 ->
    (parent1 = parent /\ serial1 = serial
     \/ parent1 = Some sibling /\ eligible_parent s w sibling serial1) ->
    (forall serial_q,
       eligible_parent s w sibling serial_q -> serial_q <= serial1) ->
    find_last_event_parent window siblings parent1 serial1 s = Ok r s' ->
    s' = s
    /\ exists serial',
         serial <= serial'
         /\ ((r = parent /\ serial' = serial)
             \/ exists p,
                  r = Some p /\ p ∈ sibling :: siblings
                  /\ eligible_parent s w p serial')
         /\ forall q serial_q,
              q ∈ sibling :: siblings -> eligible_parent s w q serial_q ->
              serial_q <= serial').
  { intros parent1 serial1 Hle Hacc Hsibling Hrest.
    destruct (IH parent1 serial1 s r s' Hw Hrest)
      as (-> & serial' & Hle' & Hr & Hmax).
    split; [reflexivity|]. exists serial'. split; [lia|]. split.
    - destruct Hr as [[-> ->]|(p & -> & Hp & He)].
      + destruct Hacc as [[-> ->]|[-> He]]; [left; auto|].
        right. exists sibling. split; [reflexivity|].
        split; [apply list_elem_of_here|exact He].
      + right. exists p. split; [reflexivity|].
        split; [apply list_elem_of_further, Hp|exact He].
    - intros q serial_q [->|Hq]%elem_of_cons He.
      + specialize (Hsibling serial_q He). lia.
      + exact (Hmax q serial_q Hq He). }
  intros Hrun. run_step Hrun. unfold get_window at 1 in Hrun.
  destruct (st_windows s !! sibling) as [sw|] eqn:Hsw; [|discriminate].
  destruct (truthy (win_realized sw)) eqn:Erealized; cbn [negb] in Hrun.
  2:{ apply (Hlift parent serial); [lia|left; auto| |exact Hrun].
      intros serial_q (qw & hp & h & Hq & Hr & _).
      rewrite Hsw in Hq. injection Hq as <-.
      apply truthy_false in Erealized. contradiction. }
  run_step Hrun. unfold wl_client_get_object in Hrun. run_step Hrun.
  unfold get_ctx at 1 in Hrun. cbn [mret M_ret] in Hrun.
  destruct (ctx_client_objects (st_ctx s) !! win_host_surface_id sw)
    as [[hp|]|] eqn:Hobj.
  3:{ apply (Hlift parent serial); [lia|left; auto| |exact Hrun].
      intros serial_q (qw & hp & h & Hq & _ & Hobj' & _).
      rewrite Hsw in Hq. injection Hq as <-. congruence. }
  2:{ run_step Hrun. discriminate Hrun. }
  run_step Hrun. unfold deref at 1 in Hrun. cbn [mret M_ret] in Hrun.
  run_step Hrun. unfold get_surface at 1 in Hrun.
  destruct (st_surfaces s !! hp) as [h|] eqn:Hh; [|discriminate].
  run_step Hrun. unfold get_window at 1 in Hrun. rewrite Hw in Hrun.
  assert (Hsame : forall serial_q,
    eligible_parent s w sibling serial_q ->
    serial_q = surf_last_event_serial h
    /\ win_host_surface_id sw <> win_host_surface_id w).
  { intros serial_q (qw & hp' & h' & Hq & _ & Hobj' & Hh' & <- & Hne).
    rewrite Hsw in Hq. injection Hq as <-.
    rewrite Hobj in Hobj'. injection Hobj' as <-.
    rewrite Hh in Hh'. injection Hh' as <-. auto. }
  destruct (serial >? surf_last_event_serial h) eqn:Elater.
  { apply Z.gtb_lt in Elater.
    apply (Hlift parent serial); [lia|left; auto| |exact Hrun].
    intros serial_q [-> _]%Hsame. lia. }
  assert (Hle : serial <= surf_last_event_serial h).
  { destruct (Z.gtb_spec serial (surf_last_event_serial h));
      [discriminate|lia]. }
  destruct (win_host_surface_id sw =? win_host_surface_id w) eqn:Eself.
  { apply Z.eqb_eq in Eself.
    apply (Hlift parent serial); [lia|left; auto| |exact Hrun].
    intros serial_q [_ Hne]%Hsame. contradiction. }
  apply Z.eqb_neq in Eself.
  apply (Hlift (Some sibling) (surf_last_event_serial h));
    [exact Hle| | |exact Hrun].
  - right. split; [reflexivity|]. exists sw, hp, h.
    apply truthy_true in Erealized. auto 10.
  - intros serial_q [-> _]%Hsame. lia.
Qed.

(** X16: what parent resolution can return. It only reads the state. A
    managed window that is not transient gets no parent. A parent is a
    window of [ctx->windows] that is either, for a managed transient
    window, a window with the id [transient_for] that has a toplevel, or a
    realized window with a host surface, registered under another host
    surface id than the window, whose last event serial is the greatest
    among the windows of that kind. *)
Theorem window_update_parent_choice s window w r s' :
  st_windows s !! window = Some w ->
  window_update_parent window s = Ok r s' ->
  s' = s
  /\ (win_managed w <> 0 -> win_transient_for w = XCB_WINDOW_NONE ->
      r = None)
  /\ forall p,
       r = Some p ->
       p ∈ ctx_windows (st_ctx s)
       /\ ((win_managed w <> 0
            /\ win_transient_for w <> XCB_WINDOW_NONE
            /\ exists pw,
                 st_windows s !! p = Some pw
                 /\ win_id pw = win_transient_for w
                 /\ win_xdg_toplevel pw <> None)
           \/ exists serial,
                eligible_parent s w p serial
                /\ forall q serial_q,
                     q ∈ ctx_windows (st_ctx s) ->
                     eligible_parent s w q serial_q ->
                     serial_q <= serial).
Proof.
  intros Hw Hrun. unfold window_update_parent in Hrun.
  run_step Hrun. unfold get_window at 1 in Hrun. rewrite Hw in Hrun.
  run_step Hrun. unfold get_ctx at 1 in Hrun.
  apply bind_returns in Hrun as (parent & s1 & Hfirst & Hrun).
  assert (Hscan : forall r0 s0,
    find_last_event_parent window (ctx_windows (st_ctx s)) None 0 s
    = Ok r0 s0 ->
    s0 = s
    /\ forall p,
         r0 = Some p ->
         p ∈ ctx_windows (st_ctx s)
         /\ exists serial,
              eligible_parent s w p serial
              /\ forall q serial_q,
                   q ∈ ctx_windows (st_ctx s) ->
                   eligible_parent s w q serial_q ->
                   serial_q <= serial).
  { intros r0 s0 Hlast.
    destruct (find_last_event_parent_result window w _ _ _ _ _ _ Hw Hlast)
      as (-> & serial' & _ & Hr & Hmax).
    split; [reflexivity|]. intros p ->.
    destruct Hr as [[[=] _]|(p' & [= <-] & Hp & He)].
    split; [exact Hp|]. exists serial'. auto. }
  destruct (truthy (win_managed w)) eqn:Eg; cbn [andb negb orb] in *.
  - apply truthy_true in Eg.
    destruct (win_transient_for w =? XCB_WINDOW_NONE) eqn:Et;
      cbn [negb andb] in *.
    + apply Z.eqb_eq in Et. injection Hfirst as <- <-.
      cbn in Hrun. injection Hrun as <- <-.
      split; [reflexivity|]. split; [reflexivity|]. intros p [=].
    + apply Z.eqb_neq in Et.
      destruct (find_transient_for_result _ _ _ _ _ Hfirst) as [-> Hp].
      destruct parent as [p0|]; cbn [is_set negb] in Hrun.
      * injection Hrun as <- <-. split; [reflexivity|].
        split; [intros _ E; contradiction|].
        intros p [= <-]. destruct (Hp p0 eq_refl) as [Hin Hpw].
        split; [exact Hin|]. left. auto.
      * destruct (Hscan _ _ Hrun) as [-> Hr]. split; [reflexivity|].
        split; [intros _ E; contradiction|].
        intros p Hrp. destruct (Hr p Hrp) as [Hin He].
        split; [exact Hin|]. right. exact He.
  - injection Hfirst as <- <-.
    destruct (Hscan _ _ Hrun) as [-> Hr]. split; [reflexivity|].
    split; [intros Hg; apply truthy_false in Eg; contradiction|].
    intros p Hrp. destruct (Hr p Hrp) as [Hin He].
    split; [exact Hin|]. right. exact He.
Qed.

(** X17: for a managed transient window, the first window of
    [ctx->windows] with the id [transient_for] decides alone when it has
    a toplevel: it is the parent, whatever the event serials and the later
    windows of the list are. *)
Theorem transient_parent_is_first_match s window w before p after pw :
  st_windows s !! window = Some w ->
  win_managed w <> 0 ->
  win_transient_for w <> XCB_WINDOW_NONE ->
  ctx_windows (st_ctx s) = before ++ p :: after ->
  Forall (fun q => exists qw, st_windows s !! q = Some qw
                              /\ win_id qw <> win_transient_for w) before ->
  st_windows s !! p = Some pw ->
  win_id pw = win_transient_for w ->
  win_xdg_toplevel pw <> None ->
  window_update_parent window s = Ok (Some p) s.
Proof.
  intros Hw Hg%truthy_true Ht%Z.eqb_neq Hlist Hbefore Hp Hid Htoplevel.
  unfold window_update_parent.
  unfold mbind at 1, M_bind at 1, get_window at 1. rewrite Hw.
  unfold mbind at 1, M_bind at 1, get_ctx at 1. rewrite Hg, Ht.
  cbn [andb negb orb]. unfold mbind at 1, M_bind at 1.
  rewrite Hlist, (find_transient_for_first _ _ _ _ _ pw Hbefore Hp Hid).
  destruct (win_xdg_toplevel pw); [reflexivity|contradiction].
Qed.
(** ** The order of the two configure buffers *)

Lemma wp_returned {A} (m : M A) s (Q : result A -> Prop) :
  (forall a s', m s = Ok a s' -> Q (Ok a s')) ->
  (forall f s', m s = Crash f s' -> Q (Crash f s')) ->
  wp m s Q.
Proof. unfold wp. destruct (m s); auto. Qed.

Lemma serials_ordered_frame s s' :
  same_field serials s s' -> serials_ordered s -> serials_ordered s'.
Proof.
  intros Hframe Hs q w' Hq. specialize (Hframe q). rewrite Hq in Hframe.
  destruct (st_windows s !! q) as [w|] eqn:Hw; [|discriminate].
  injection Hframe as Hp Hn. rewrite <- Hp, <- Hn. exact (Hs q w Hw).
Qed.

Lemma serials_ordered_keeps {A} (m : M A) s a s' :
  keeps (same_field serials) m ->
  m s = Ok a s' -> serials_ordered s -> serials_ordered s'.
Proof.
  intros K E. apply serials_ordered_frame. exact (keeps_at _ _ _ _ _ K E).
Qed.

Lemma serials_ordered_insert c ws ss rq np c' ss' rq' np' window w' :
  serials_ordered (Build_world c ws ss rq np) ->
  (cfg_serial (win_pending_config w') = 0 ->
   cfg_serial (win_next_config w') = 0) ->
  serials_ordered (Build_world c' (<[window := w']> ws) ss' rq' np').
Proof.
  intros Hs Hw'. unfold serials_ordered in *. cbn in *.
  apply map_Forall_insert_2; assumption.
Qed.

(** A returning [sl_configure_window] has emptied [next_config]. *)
Lemma sl_configure_window_returned s window s' :
  sl_configure_window window s = Ok tt s' ->
  exists w w',
    st_windows s !! window = Some w
    /\ cfg_serial (win_pending_config w) = 0
    /\ st_windows s' = <[window := w']> (st_windows s)
    /\ win_pending_config w' = win_next_config w
    /\ win_next_config w' = cleared (win_next_config w).
Proof.
  intros Hrun.
  destruct (st_windows s !! window) as [w|] eqn:Hw.
  2:{ unfold sl_configure_window in Hrun.
      unfold mbind at 1, M_bind at 1, get_window at 1 in Hrun.
      rewrite Hw in Hrun. discriminate. }
  destruct (Z.eq_dec (cfg_serial (win_pending_config w)) 0) as [Hs|Hs].
  2:{ exfalso. revert Hrun. apply truthy_true in Hs. revert Hw Hs.
      wp_init s. intros Hw Hs. wp_start. unfold sl_configure_window.
      wp_step. wp_step. wp_step. rewrite Hs. cbn. wp_step. discriminate. }
  destruct (Z.eq_dec (cfg_mask (win_next_config w)) 0) as [Hm|Hm].
  - destruct (sl_configure_window_returns s window w Hw Hs (or_introl Hm))
      as (s1 & w' & rs & E & Hupd & Hp & Hn & _).
    rewrite E in Hrun. injection Hrun as <-. exists w, w'.
    rewrite Hupd. cbn. auto.
  - destruct (Z.eq_dec (win_managed w) 0) as [Hg|Hg].
    + destruct (sl_configure_window_unmanaged s window w Hw Hs Hm Hg)
        as [s1 E].
      rewrite E in Hrun. discriminate.
    + destruct (sl_configure_window_returns s window w Hw Hs (or_intror Hg))
        as (s1 & w' & rs & E & Hupd & Hp & Hn & _).
      rewrite E in Hrun. injection Hrun as <-. exists w, w'.
      rewrite Hupd. cbn. auto.
Qed.

Lemma sl_configure_window_serials s window s' :
  serials_ordered s ->
  sl_configure_window window s = Ok tt s' ->
  serials_ordered s'.
Proof.
  intros Hs Hrun.
  destruct (sl_configure_window_returned s window s' Hrun)
    as (w & w' & Hw & _ & Hwindows & _ & Hn).
  destruct s as [c ws ss rq np], s' as [c' ws' ss' rq' np'].
  cbn in Hwindows. subst ws'.
  eapply serials_ordered_insert; [exact Hs|]. intros _. rewrite Hn.
  reflexivity.
Qed.

Lemma sl_process_pending_configure_acks_serials s window host_surface a s' :
  serials_ordered s ->
  sl_process_pending_configure_acks COMMIT_LOOP_FIX window host_surface s
  = Ok a s' ->
  serials_ordered s'.
Proof.
  intros Hs.
  destruct (st_windows s !! window) as [w|] eqn:Hw.
  2:{ unfold sl_process_pending_configure_acks.
      unfold mbind at 1, M_bind at 1, get_window at 1. rewrite Hw.
      discriminate. }
  revert Hs Hw. wp_init s. intros Hs Hw. wp_start.
  unfold sl_process_pending_configure_acks.
  repeat wp_step.
  all: try solve [intros [=]].
  all: try solve [intros [= <- <-]; exact Hs].
  all: try solve
    [intros [= <- <-]; eapply serials_ordered_insert; [exact Hs|];
     intros _; cbn;
     match goal with
     | H : truthy (cfg_serial (win_next_config _)) = false |- _ =>
         apply truthy_false in H; exact H
     end].
  all: apply wp_returned; [intros [] s1 Hrun|intros f s1 _; cbn; intros [=]].
  all: cbn; wp_step; intros [= <- <-].
  all: destruct (sl_configure_window_returned _ _ _ Hrun)
         as (w0 & w' & _ & _ & Hwindows & _ & Hn);
    destruct s1 as [c1 ws1 ss1 rq1 np1]; cbn in Hwindows;
    rewrite insert_insert_eq in Hwindows; subst ws1;
    (eapply serials_ordered_insert; [exact Hs|]);
    intros _; rewrite Hn; reflexivity.
Qed.

Lemma sl_commit_serials s window host_surface s' :
  serials_ordered s ->
  sl_commit COMMIT_LOOP_FIX window host_surface s = Ok tt s' ->
  serials_ordered s'.
Proof.
  intros Hs Hrun. unfold sl_commit in Hrun.
  apply bind_returns in Hrun as (acked & s1 & Hacks & Hrun).
  apply sl_process_pending_configure_acks_serials in Hacks; [|exact Hs].
  refine (serials_ordered_keeps _ _ _ _ _ Hrun Hacks).
  keeps_go same_field_side.
Qed.

Lemma sl_internal_xdg_surface_configure_serials s window serial s' :
  serials_ordered s ->
  sl_internal_xdg_surface_configure COMMIT_LOOP_FIX window serial s
  = Ok tt s' ->
  serials_ordered s'.
Proof.
  intros Hs.
  destruct (st_windows s !! window) as [w|] eqn:Hw.
  2:{ unfold sl_internal_xdg_surface_configure.
      unfold mbind at 1, M_bind at 1, modify_window at 1. rewrite Hw.
      discriminate. }
  revert Hs Hw. wp_init s. intros Hs Hw. wp_start.
  unfold sl_internal_xdg_surface_configure.
  wp_step. wp_step. wp_step. wp_step.
  destruct (truthy (cfg_serial (win_pending_config w))) eqn:Ep; cbn.
  { wp_step. intros [= <-]. eapply serials_ordered_insert; [exact Hs|].
    cbn. apply truthy_true in Ep. contradiction. }
  wp_step. wp_step. wp_step. wp_step. wp_step.
  apply wp_returned; [intros [] s1 Hrun|intros f s1 _ [=]].
  intros [= <-].
  apply bind_returns in Hrun as ([] & s2 & Hrun & Hcommit).
  refine (sl_commit_serials _ _ _ _ _ Hcommit).
  destruct (sl_configure_window_returned _ _ _ Hrun)
    as (w0 & w' & _ & _ & Hwindows & _ & Hn).
  destruct s2 as [c1 ws1 ss1 rq1 np1]. cbn in Hwindows.
  rewrite insert_insert_eq in Hwindows. subst ws1.
  eapply serials_ordered_insert; [exact Hs|].
  intros _. rewrite Hn. reflexivity.
Qed.

Lemma serials_toplevel_configure_states window states : forall i activated,
  keeps (same_field serials)
    (toplevel_configure_states window states i activated).
Proof.
  induction states as [|state states IH]; intros i activated;
    cbn [toplevel_configure_states]; keeps_go same_field_side.
Qed.
#[local] Hint Resolve serials_toplevel_configure_states : keeps.

(** X18: a configure is queued only behind a pending one. If no window has
    a serial in [next_config] while its [pending_config] has none, the same
    holds after every entry point of the file that returns. *)
Theorem operations_keep_serials_ordered o s s' :
  serials_ordered s ->
  run_operation COMMIT_LOOP_FIX sl_transform_host_to_guest
    sl_transform_guest_to_host sl_transform_try_window_scale
    xcb_get_geometry_reply o s
  = Ok tt s' ->
  serials_ordered s'.
Proof.
  intros Hs.
  destruct o; cbn [run_operation];
    try solve [intros Hrun;
               refine (serials_ordered_keeps _ _ _ _ _ Hrun Hs);
               keeps_go same_field_side].
  - exact (sl_configure_window_serials _ _ _ Hs).
  - intros Hrun. apply bind_returns in Hrun as (a & s1 & Hacks & [= <-]).
    exact (sl_process_pending_configure_acks_serials _ _ _ _ _ Hs Hacks).
  - exact (sl_commit_serials _ _ _ _ Hs).
  - exact (sl_internal_xdg_surface_configure_serials _ _ _ _ Hs).
  - unfold sl_window_update. intros Hrun.
    apply bind_returns in Hrun as (r & s1 & Hpair & Hrun).
    assert (H1 : serials_ordered s1).
    { refine (serials_ordered_keeps _ _ _ _ _ Hpair Hs).
      keeps_go same_field_side. }
    destruct r as [user_data|].
    2:{ refine (serials_ordered_keeps _ _ _ _ _ Hrun H1).
        keeps_go same_field_side. }
    clear Hs Hpair.
    apply bind_returns in Hrun as (host_surface & s2 & Hstep & Hrun).
    assert (H2 : serials_ordered s2).
    { refine (serials_ordered_keeps _ _ _ _ _ Hstep H1).
      keeps_go same_field_side. }
    clear H1 Hstep.
    apply bind_returns in Hrun as (parent & s3 & Hstep & Hrun).
    assert (H3 : serials_ordered s3).
    { refine (serials_ordered_keeps _ _ _ _ _ Hstep H2).
      keeps_go same_field_side. }
    clear H2 Hstep.
    apply bind_returns in Hrun as (? & s4 & Hstep & Hrun).
    assert (H4 : serials_ordered s4).
    { refine (serials_ordered_keeps _ _ _ _ _ Hstep H3).
      keeps_go same_field_side. }
    clear H3 Hstep.
    apply bind_returns in Hrun as (? & s5 & Hstep & Hrun).
    assert (H5 : serials_ordered s5).
    { refine (serials_ordered_keeps _ _ _ _ _ Hstep H4).
      keeps_go same_field_side. }
    clear H4 Hstep.
    apply bind_returns in Hrun as (? & s6 & Hstep & Hrun).
    assert (H6 : serials_ordered s6).
    { refine (serials_ordered_keeps _ _ _ _ _ Hstep H5).
      keeps_go same_field_side. }
    clear H5 Hstep.
    apply bind_returns in Hrun as (? & s7 & Hstep & Hrun).
    assert (H7 : serials_ordered s7).
    { refine (serials_ordered_keeps _ _ _ _ _ Hstep H6).
      keeps_go same_field_side. }
    clear H6 Hstep.
    unfold window_update_commit in Hrun.
    apply bind_returns in Hrun as ([] & s9 & Hcommit & Hrun).
    assert (H9 : serials_ordered s9).
    { revert Hcommit. generalize COMMIT_LOOP_FIX at 1. intros [] Hcommit.
      - exact (sl_commit_serials _ _ _ _ H7 Hcommit).
      - refine (serials_ordered_keeps _ _ _ _ _ Hcommit H7).
        keeps_go same_field_side. }
    refine (serials_ordered_keeps _ _ _ _ _ Hrun H9).
    keeps_go same_field_side.
Qed.
(** ** Handles are created once *)

Lemma window_handles_kept_refl w : window_handles_kept w w.
Proof. repeat split; intros x Hx; exact Hx. Qed.

Lemma window_handles_kept_trans w1 w2 w3 :
  window_handles_kept w1 w2 -> window_handles_kept w2 w3 ->
  window_handles_kept w1 w3.
Proof.
  intros (A1 & A2 & A3 & A4) (B1 & B2 & B3 & B4).
  repeat split; intros x Hx; auto.
Qed.

#[local] Instance handles_kept_preorder : PreOrder handles_kept.
Proof.
  split.
  - intros s q w Hq. exists w. split; [exact Hq|].
    apply window_handles_kept_refl.
  - intros s1 s2 s3 H12 H23 q w Hq.
    destruct (H12 q w Hq) as (w2 & Hq2 & K12).
    destruct (H23 q w2 Hq2) as (w3 & Hq3 & K23).
    exists w3. split; [exact Hq3|].
    eapply window_handles_kept_trans; eassumption.
Qed.

Lemma handles_kept_same_field s s' :
  same_field handles s s' -> handles_kept s s'.
Proof.
  intros Hframe q w Hq. specialize (Hframe q). rewrite Hq in Hframe.
  destruct (st_windows s' !! q) as [w'|]; [|discriminate].
  exists w'. split; [reflexivity|]. injection Hframe as H1 H2 H3 H4.
  unfold window_handles_kept, handle_kept. rewrite H1, H2, H3, H4.
  repeat split; auto.
Qed.

Lemma keeps_handles_frame {A} (m : M A) :
  keeps (same_field handles) m -> keeps handles_kept m.
Proof. intros K s. apply handles_kept_same_field, K. Qed.

Lemma handles_kept_insert c ws ss rq np c' ss' rq' np' window w w' :
  ws !! window = Some w ->
  window_handles_kept w w' ->
  handles_kept (Build_world c ws ss rq np)
    (Build_world c' (<[window := w']> ws) ss' rq' np').
Proof.
  intros Hw Hkept q wq Hq. cbn in *.
  destruct (decide (q = window)) as [->|Hne].
  - rewrite lookup_insert_eq. exists w'. split; [reflexivity|].
    rewrite Hw in Hq. injection Hq as <-. exact Hkept.
  - rewrite lookup_insert_ne by congruence. exists wq.
    split; [exact Hq|]. apply window_handles_kept_refl.
Qed.

Lemma handles_kept_windows s s' :
  st_windows s' = st_windows s -> handles_kept s s'.
Proof.
  intros E q w Hq. rewrite E. exists w. split; [exact Hq|].
  apply window_handles_kept_refl.
Qed.

Lemma handles_toplevel_configure_states window states : forall i activated,
  keeps (same_field handles)
    (toplevel_configure_states window states i activated).
Proof.
  induction states as [|state states IH]; intros i activated;
    cbn [toplevel_configure_states]; keeps_go same_field_side.
Qed.
#[local] Hint Resolve handles_toplevel_configure_states : keeps.

(** Closes a goal [handles_kept s s'] on explicit states. *)
Ltac handles_kept_leaf :=
  cbn [final];
  first
    [ apply handles_kept_windows; reflexivity
    | eapply handles_kept_insert; [eassumption|];
      repeat split; intros ? ?; cbn in *; congruence ].

Lemma handles_window_update_shell_surface window host_surface :
  keeps handles_kept
    (window_update_shell_surface xcb_get_geometry_reply window host_surface).
Proof.
  intros s. destruct (st_windows s !! window) as [w|] eqn:Hw.
  2:{ unfold window_update_shell_surface.
      rewrite final_bind. unfold get_window. rewrite Hw. reflexivity. }
  revert Hw. wp_init s. intros Hw. wp_start.
  unfold window_update_shell_surface.
  destruct (win_xdg_surface w) eqn:Hsurface.
  all: repeat (wp_step; rewrite ?Hsurface; cbn).
  all: handles_kept_leaf.
Qed.

(** Runs up to the part of a function that follows the creation of a
    handle, which starts by reading the window and its handle again. *)
Ltac wp_to_rest :=
  repeat lazymatch goal with
         | |- wp (get_window _ ≫= _) _ _ => fail
         | _ => wp_step
         end.

Ltac handles_kept_rest :=
  eapply (wp_keeps (same_field handles)); [keeps_go same_field_side|];
  let r := fresh "r" in
  let Hframe := fresh "Hframe" in
  intros r Hframe;
  (etrans; [|apply handles_kept_same_field, Hframe]);
  handles_kept_leaf.

Lemma handles_window_update_aura window host_surface :
  keeps handles_kept (window_update_aura window host_surface).
Proof.
  intros s. destruct (st_windows s !! window) as [w|] eqn:Hw.
  2:{ unfold window_update_aura. rewrite final_bind.
      unfold get_ctx at 1. destruct (ctx_aura_shell (st_ctx s));
        [|reflexivity].
      rewrite final_bind. unfold get_window. rewrite Hw. reflexivity. }
  revert Hw. wp_init s. intros Hw. wp_start.
  unfold window_update_aura.
  wp_step. wp_step. destruct (ctx_aura_shell c) as [aura_shell|];
    [|wp_step; handles_kept_leaf].
  wp_step. wp_step.
  destruct (win_aura_surface w) as [aura_surface|] eqn:Haura; cbn.
  all: wp_to_rest.
  all: first [handles_kept_leaf|handles_kept_rest].
Qed.

Lemma handles_window_update_toplevel window parent :
  keeps handles_kept
    (window_update_toplevel sl_transform_guest_to_host window parent).
Proof.
  intros s. destruct (st_windows s !! window) as [w|] eqn:Hw.
  2:{ unfold window_update_toplevel. rewrite final_bind.
      unfold get_window. rewrite Hw. reflexivity. }
  revert Hw. wp_init s. intros Hw. wp_start.
  unfold window_update_toplevel.
  wp_step. wp_step.
  destruct (win_xdg_toplevel w) as [toplevel|] eqn:Htoplevel; cbn.
  all: wp_to_rest.
  all: first [handles_kept_leaf|handles_kept_rest].
Qed.

Lemma handles_window_update_role window parent :
  keeps handles_kept
    (window_update_role sl_transform_guest_to_host window parent).
Proof.
  intros s. destruct (st_windows s !! window) as [w|] eqn:Hw.
  2:{ unfold window_update_role. rewrite final_bind.
      unfold get_ctx at 1. rewrite final_bind.
      unfold get_window. rewrite Hw. reflexivity. }
  unfold window_update_role.
  rewrite final_bind. unfold get_ctx at 1. rewrite final_bind.
  unfold get_window at 1. rewrite Hw.
  destruct parent as [p|]; [|apply handles_window_update_toplevel].
  destruct (truthy (ctx_xwayland (st_ctx s)));
    [apply handles_window_update_toplevel|].
  destruct (win_xdg_popup w) as [popup|] eqn:Hpopup; cbn; [reflexivity|].
  revert Hw. wp_init s. intros Hw. wp_start.
  unfold window_update_popup, transform_guest_to_host.
  repeat wp_step.
  all: handles_kept_leaf.
Qed.

(** X19: while a host resource is registered for the window,
    [sl_window_update] creates a handle only where there is none: in the
    state it ends in, whether it returns or stops, every window is still
    there and a shell surface, toplevel, popup or aura surface that was set
    before the call is the same handle after it. *)
Theorem window_update_keeps_handles s window w :
  st_windows s !! window = Some w ->
  ~ host_resource_absent s w ->
  handles_kept s
    (final (sl_window_update COMMIT_LOOP_FIX sl_transform_guest_to_host
              sl_transform_try_window_scale xcb_get_geometry_reply
              window s)).
Proof.
  intros Hw Hpresent. unfold sl_window_update. rewrite final_bind.
  assert (Hpairing : keeps handles_kept (window_update_pairing window))
    by (apply keeps_handles_frame; keeps_go same_field_side).
  specialize (Hpairing s).
  destruct (window_update_pairing window s) as [r s1|f s1] eqn:Hpair;
    cbn in Hpairing; [|exact Hpairing].
  pose proof (window_update_pairing_result s window w r s1 Hw Hpair) as Hr.
  destruct r as [user_data|].
  2:{ exfalso. apply Hpresent. unfold host_resource_absent.
      destruct (truthy (win_host_surface_id w)) eqn:Eid.
      - right. symmetry. exact Hr.
      - left. apply truthy_false. exact Eid. }
  etrans; [exact Hpairing|].
  assert (K : keeps handles_kept
    (host_surface ← window_update_bind sl_transform_try_window_scale
                      window user_data;
     parent ← window_update_parent window;
     window_update_shell_surface xcb_get_geometry_reply window host_surface;;
     window_update_aura window host_surface;;
     window_update_role sl_transform_guest_to_host window parent;;
     window_update_aura_parent sl_transform_guest_to_host window parent;;
     window_update_commit COMMIT_LOOP_FIX window host_surface)).
  { apply keeps_bind; [exact _| |intros host_surface].
    { apply keeps_handles_frame. keeps_go same_field_side. }
    apply keeps_bind; [exact _| |intros parent].
    { apply keeps_handles_frame. keeps_go same_field_side. }
    apply keeps_bind; [exact _| |intros _].
    { apply handles_window_update_shell_surface. }
    apply keeps_bind; [exact _| |intros _].
    { apply handles_window_update_aura. }
    apply keeps_bind; [exact _| |intros _].
    { apply handles_window_update_role. }
    apply keeps_bind; [exact _| |intros _].
    { apply keeps_handles_frame. keeps_go same_field_side. }
    apply keeps_handles_frame. keeps_go same_field_side. }
  apply K.
Qed.
(** ** The assertions of [sl_window_update] *)

(** X20: with a host resource registered for the window,
    [sl_window_update] stops at an assertion when the resource carries no
    surface, when the surface already has a role, and when the context has
    no internal xdg shell. *)
Theorem window_update_asserts s window w user_data :
  st_windows s !! window = Some w ->
  win_host_surface_id w <> 0 ->
  ctx_client_objects (st_ctx s) !! win_host_surface_id w = Some user_data ->
  match user_data with
  | None => True
  | Some hp =>
      exists h,
        st_surfaces s !! hp = Some h
        /\ (surf_has_role h <> 0
            \/ ctx_xdg_shell (st_ctx s) ≫= xdg_shell_internal = None)
  end ->
  exists s',
    sl_window_update COMMIT_LOOP_FIX sl_transform_guest_to_host
      sl_transform_try_window_scale xcb_get_geometry_reply window s
    = Crash AssertionFailed s'.
Proof.
  intros Hw Hid%truthy_true Hobj Hbad.
  revert Hw Hobj Hbad. wp_init s. intros Hw Hobj Hbad. wp_start.
  unfold sl_window_update, window_update_pairing, window_update_bind,
    wl_list_remove, wl_list_insert_windows, transform_try_window_scale.
  wp_step. wp_step. wp_step. rewrite Hid. cbn.
  wp_step. wp_step. wp_step. wp_step. rewrite Hobj. cbn.
  destruct user_data as [hp|].
  2:{ repeat wp_step. all: eauto. }
  destruct Hbad as (h & Hh & Hbad).
  destruct (truthy (surf_has_role h)) eqn:Erole.
  { repeat (wp_step; rewrite ?Erole; cbn). all: eauto. }
  destruct Hbad as [Hrole|Hshell];
    [apply truthy_true in Hrole; congruence|].
  destruct (ctx_xdg_shell c) as [shell|] eqn:Eshell; cbn in Hshell.
  - repeat (wp_step; rewrite ?Erole, ?Eshell, ?Hshell; cbn). all: eauto.
  - repeat (wp_step; rewrite ?Erole, ?Eshell; cbn). all: eauto.
Qed.
End Properties.

(** * The properties on the example states *)

Lemma process_pending_ack_size_guard_witness :
  sl_process_pending_configure_acks false 5%nat (Some 9%nat)
    (pending_world 1 (Some 3%nat) 7 0 0)
  = Ok 0 (pending_world 1 (Some 3%nat) 7 0 0)
  /\ acked_serials
       (st_requests
          (final (sl_process_pending_configure_acks false 5%nat (Some 9%nat)
                    (pending_world 1 (Some 3%nat) 7 640 480))))
     = [7]
  /\ exists s' w',
       sl_process_pending_configure_acks false 5%nat (Some 9%nat)
         (pending_world 1 (Some 3%nat) 7 640 480)
       = Ok 1 s'
       /\ st_windows s' !! 5%nat = Some w'
       /\ cfg_serial (win_pending_config w') = 0
       /\ st_requests s' = [xdg_surface_ack_configure 3%nat 7].
Proof.
  split; [|split].
  - refine (proj1 (proj2 (process_pending_ack_size_guard false
                            (pending_world 1 (Some 3%nat) 7 0 0) 5%nat
                            (Some 9%nat) (pending_window 1 (Some 3%nat) 7)
                            _ _))
              (example_surface 0 0 0) _ _ _).
    + reflexivity.
    + intros hp [= <-]. eexists. reflexivity.
    + reflexivity.
    + discriminate.
    + left. vm_compute. discriminate.
  - refine (proj1 (proj2 (proj2 (proj2 (proj2
              (process_pending_ack_size_guard false
                 (pending_world 1 (Some 3%nat) 7 640 480) 5%nat
                 (Some 9%nat) (pending_window 1 (Some 3%nat) 7) _ _)))))
              _ _ _).
    + reflexivity.
    + intros hp [= <-]. eexists. reflexivity.
    + discriminate.
    + reflexivity.
    + right. split; reflexivity.
  - destruct (proj2 (proj2 (proj2 (proj2 (proj2
                (process_pending_ack_size_guard false
                   (pending_world 1 (Some 3%nat) 7 640 480) 5%nat
                   (Some 9%nat) (pending_window 1 (Some 3%nat) 7)
                   eq_refl
                   ltac:(intros hp [= <-]; eexists; reflexivity))))))
                ltac:(discriminate) eq_refl
                ltac:(right; split; reflexivity)
                (or_introl eq_refl))
      as (s' & w' & rs & E & Hwindows & Hrequests & _ & H0 & _).
    destruct (H0 eq_refl) as [-> ->].
    exists s'. eexists. split; [exact E|]. rewrite Hwindows, Hrequests.
    split; [apply lookup_insert_eq|]. split; reflexivity.
Defined.

Lemma configure_queues_while_pending_witness :
  (exists s' w',
     deliver_configures false 5%nat [8; 9]
       (pending_world 0 (Some 3%nat) 7 0 0) = Ok tt s'
     /\ st_windows s' !! 5%nat = Some w'
     /\ cfg_serial (win_pending_config w') = 7
     /\ cfg_serial (win_next_config w') = 9)
  /\ (exists s' w',
        sl_configure_window 5%nat (pending_world 0 (Some 3%nat) 0 0 0)
        = Ok tt s'
        /\ st_windows s' !! 5%nat = Some w'
        /\ cfg_serial (win_next_config w') = 0
        /\ cfg_mask (win_next_config w') = 0
        /\ cfg_states_length (win_next_config w') = 0).
Proof.
  split.
  - destruct (proj1 (configure_queues_while_pending false
                       (pending_world 0 (Some 3%nat) 7 0 0) 5%nat
                       (pending_window 0 (Some 3%nat) 7) eq_refl))
      as [_ H]; [discriminate|].
    destruct (H [8; 9]) as (s' & w' & E & Hw' & Hp & Hn & _).
    exists s', w'. rewrite Hp, Hn. repeat split; assumption.
  - destruct (proj2 (configure_queues_while_pending false
                       (pending_world 0 (Some 3%nat) 0 0 0) 5%nat
                       (pending_window 0 (Some 3%nat) 0) eq_refl))
      as (s' & w' & E & Hw' & _ & H1 & H2 & H3);
      [reflexivity|left; reflexivity|].
    exists s', w'. repeat split; assumption.
Defined.

(** C3, as stated, fails: with serial 1 pending and the configures 2 and 3
    queued, the acknowledgments over three calls are 1 and 3; serial 2 is
    never acknowledged. *)
Lemma queued_configures_not_fifo :
  let acked :=
    acked_serials
      (st_requests
         (final ((deliver_configures false 5%nat [2; 3];;
                  ack_cycles false 3 5%nat None)
                   (pending_world 0 (Some 3%nat) 1 0 0)))) in
  acked = [1; 3] /\ acked <> [1; 2; 3].
Proof. vm_compute. split; [reflexivity|discriminate]. Qed.

Lemma pending_ack_chains_one_queued_configure_witness :
  (exists s',
     (deliver_configures false 5%nat [2; 3];;
      ack_cycles false 3 5%nat (Some 9%nat))
       (pending_world 1 (Some 3%nat) 1 640 480) = Ok tt s'
     /\ acked_serials (st_requests s') = [1; 3])
  /\ (exists s',
        (deliver_configures true 5%nat [2; 3];;
         ack_cycles true 3 5%nat (Some 9%nat)) (carrying_world 1) = Ok tt s'
        /\ acked_serials (st_requests s') = [1]).
Proof.
  split.
  - destruct (proj1 (proj2 (pending_ack_chains_one_queued_configure false
                              (pending_world 1 (Some 3%nat) 1 640 480) 5%nat
                              (pending_window 1 (Some 3%nat) 1) eq_refl
                              ltac:(discriminate))
                       (Some 9%nat) [2; 3] 3 1%nat eq_refl
                       ltac:(discriminate) (or_introl eq_refl) eq_refl
                       ltac:(intros hp [= <-]; eexists; reflexivity)
                       ltac:(right; split; reflexivity))
                eq_refl ltac:(right; split; reflexivity))
      as (s' & w' & E & _ & _ & _ & Hlog).
    exists s'. split; [exact E|exact Hlog].
  - destruct (proj2 (proj2 (pending_ack_chains_one_queued_configure true
                              (carrying_world 1) 5%nat (carrying_window 1)
                              eq_refl ltac:(discriminate))
                       (Some 9%nat) [2; 3] 3 1%nat eq_refl
                       ltac:(discriminate) (or_introl eq_refl) eq_refl
                       ltac:(intros hp [= <-]; eexists; reflexivity)
                       ltac:(right; split; reflexivity))
                eq_refl)
      as (s' & w' & E & _ & _ & _ & Hlog).
    exists s'. split; [exact E|exact Hlog].
Defined.

(** C4, as stated, fails: [sl_window_update] on a realized window whose host
    surface id is 0 clears [realized]. *)
Lemma realized_reset_by_window_update :
  win_realized <$> st_windows orphaned_world !! 5%nat = Some 1
  /\ win_realized
       <$> st_windows
             (final (sl_window_update false identity_transform no_rescale
                       depth_24 5%nat orphaned_world)) !! 5%nat
     = Some 0.
Proof. vm_compute. split; reflexivity. Qed.

Lemma realized_set_and_reset_only_by_window_update_witness :
  exists w',
    st_windows
      (final (sl_window_update false identity_transform no_rescale depth_24
                5%nat (transient_world 1 1))) !! 5%nat = Some w'
    /\ win_realized w' = 1
    /\ exists sp h,
         ctx_client_objects (st_ctx (transient_world 1 1)) !! 4
         = Some (Some sp)
         /\ st_surfaces
              (final (sl_window_update false identity_transform no_rescale
                        depth_24 5%nat (transient_world 1 1))) !! sp
            = Some h
         /\ surf_contents_width h <> 0 /\ surf_contents_height h <> 0.
Proof.
  destruct (st_windows
              (final (sl_window_update false identity_transform no_rescale
                        depth_24 5%nat (transient_world 1 1))) !! 5%nat)
    as [w'|] eqn:Hw'; [|vm_compute in Hw'; discriminate].
  assert (Hrealized : win_realized w' = 1).
  { vm_compute in Hw'. injection Hw' as <-. reflexivity. }
  exists w'. split; [reflexivity|].
  destruct (proj1 (realized_set_and_reset_only_by_window_update false
                     identity_transform identity_transform no_rescale
                     depth_24 (op_window_update 5%nat) (transient_world 1 1)
                     5%nat (example_window 70 4 1 80 P_POSITION) w'
                     eq_refl Hw'))
    as (_ & H1 & H2).
  - reflexivity.
  - rewrite Hrealized. discriminate.
  - split; [exact H1|exact H2].
Defined.

(** C5, as stated, fails: in an Xwayland context a managed window whose
    parent is resolved (the sibling that [transient_for] names, which has a
    toplevel) gets a toplevel role, not a popup. *)
Lemma managed_transient_gets_toplevel :
  win_managed (example_window 70 4 1 80 P_POSITION) <> 0
  /\ resolves_parent no_rescale 5%nat (transient_world 1 1) (Some 6%nat)
  /\ exists s' w',
       sl_window_update false identity_transform no_rescale depth_24 5%nat
         (transient_world 1 1) = Ok tt s'
       /\ st_windows s' !! 5%nat = Some w'
       /\ win_xdg_popup w' = None
       /\ is_Some (win_xdg_toplevel w')
       /\ popup_requests (st_requests s') = [].
Proof.
  split; [discriminate|]. split.
  - do 5 eexists. split; [vm_compute; reflexivity|].
    split; vm_compute; reflexivity.
  - do 2 eexists. split; [vm_compute; reflexivity|].
    split; [vm_compute; reflexivity|].
    split; [reflexivity|]. split; [eexists; reflexivity|reflexivity].
Qed.

Lemma window_update_role_by_xwayland_and_parent_witness :
  (exists w' toplevel,
     st_windows
       (final (sl_window_update false identity_transform no_rescale depth_24
                 5%nat (transient_world 1 1))) !! 5%nat = Some w'
     /\ win_xdg_toplevel w' = Some toplevel
     /\ win_xdg_popup w' = None
     /\ set_parent_requests
          (st_requests
             (final (sl_window_update false identity_transform no_rescale
                       depth_24 5%nat (transient_world 1 1))))
        = [(toplevel, Some 31%nat)])
  /\ (exists w' popup,
        st_windows
          (final (sl_window_update false identity_transform no_rescale
                    depth_24 5%nat (transient_world 0 1))) !! 5%nat
        = Some w'
        /\ win_xdg_toplevel w' = None
        /\ win_xdg_popup w' = Some popup
        /\ List.length
             (popup_requests
                (st_requests
                   (final (sl_window_update false identity_transform
                             no_rescale depth_24 5%nat
                             (transient_world 0 1)))))
           = 7%nat).
Proof.
  split.
  - destruct (window_update_role_by_xwayland_and_parent false
                identity_transform no_rescale depth_24 (transient_world 1 1)
                5%nat (example_window 70 4 1 80 P_POSITION) (Some 6%nat)
                (final (sl_window_update false identity_transform no_rescale
                          depth_24 5%nat (transient_world 1 1))))
      as (w' & Hw' & Htoplevel & _).
    + reflexivity.
    + do 5 eexists. split; [vm_compute; reflexivity|].
      split; vm_compute; reflexivity.
    + vm_compute. reflexivity.
    + destruct Htoplevel
        as (_ & Hpopup & _ & toplevel & pw' & Ht & Hpw' & Hset);
        [left; discriminate|].
      exists w', toplevel. split; [exact Hw'|]. split; [exact Ht|].
      split; [exact Hpopup|]. rewrite Hset.
      vm_compute in Hpw'. injection Hpw' as <-. reflexivity.
  - destruct (window_update_role_by_xwayland_and_parent false
                identity_transform no_rescale depth_24 (transient_world 0 1)
                5%nat (example_window 70 4 1 80 P_POSITION) (Some 6%nat)
                (final (sl_window_update false identity_transform no_rescale
                          depth_24 5%nat (transient_world 0 1))))
      as (w' & Hw' & _ & Hcreated).
    + reflexivity.
    + do 5 eexists. split; [vm_compute; reflexivity|].
      split; vm_compute; reflexivity.
    + vm_compute. reflexivity.
    + destruct (Hcreated eq_refl 6%nat eq_refl) as [Hcreated' _].
      destruct (Hcreated' eq_refl)
        as (pw' & internal & positioner & surface & popup & x & y & _ & _
            & Hpopup & Ht & Hlog).
      exists w', popup. split; [exact Hw'|]. split; [exact Ht|].
      split; [exact Hpopup|]. rewrite Hlog. reflexivity.
Defined.

(** C6, as stated, fails without an output: on a 1920x1080 screen a
    proposed size of 801x601 is placed at x = 960 - 400 = 560 and
    y = 540 - 300 = 240, while (1920 - 801) / 2 = 559 and
    (1080 - 601) / 2 = 239. *)
Lemma screen_centering_rounds_each_half :
  (next_values
     <$> st_windows
           (final (sl_internal_xdg_toplevel_configure identity_transform
                     no_rescale 5%nat 801 601 [] unplaced_world)) !! 5%nat)
  = Some (31, [560; 240; 801; 601; 0])
  /\ (1920 - 801) `quot` 2 = 559
  /\ (1080 - 601) `quot` 2 = 239.
Proof. vm_compute. repeat split; reflexivity. Qed.

Lemma toplevel_configure_centers_witness :
  exists w',
    st_windows
      (final (sl_internal_xdg_toplevel_configure identity_transform
                no_rescale 5%nat 800 600 [] unplaced_world)) !! 5%nat
    = Some w'
    /\ cfg_values (win_next_config w') !! 0%nat = Some 560
    /\ cfg_values (win_next_config w') !! 1%nat = Some 240.
Proof.
  destruct (toplevel_configure_centers identity_transform no_rescale
              unplaced_world 5%nat unplaced_window 800 600 []
              (final (sl_internal_xdg_toplevel_configure identity_transform
                        no_rescale 5%nat 800 600 [] unplaced_world)))
    as (w' & Hw' & _ & Hx & Hy).
  - reflexivity.
  - discriminate.
  - discriminate.
  - discriminate.
  - reflexivity.
  - reflexivity.
  - vm_compute. reflexivity.
  - exists w'. split; [exact Hw'|]. split; [exact Hx|exact Hy].
Defined.

Lemma toplevel_configure_overflows_states_witness :
  exists s',
    sl_internal_xdg_toplevel_configure identity_transform no_rescale 5%nat
      0 0
      [XDG_TOPLEVEL_STATE_FULLSCREEN; XDG_TOPLEVEL_STATE_MAXIMIZED;
       XDG_TOPLEVEL_STATE_ACTIVATED] unplaced_world
    = Crash OutOfBounds s'.
Proof.
  apply (toplevel_configure_overflows_states identity_transform no_rescale
           unplaced_world 5%nat unplaced_window).
  - reflexivity.
  - discriminate.
Defined.

Lemma application_id_priority_witness :
  sl_update_application_id 5%nat decorated_world
  = Ok tt
      (set_st_requests
         [zaura_surface_set_application_id 4%nat
            "org.chromium.guest_os.termina.xid.70"]
         decorated_world).
Proof.
  destruct (application_id_priority decorated_world 5%nat decorated_window
              eq_refl) as [_ H].
  destruct (H 4%nat eq_refl) as [_ H1].
  destruct (H1 eq_refl) as [_ H2].
  destruct H2 as [_ H3]; [left; discriminate|].
  destruct (H3 eq_refl) as [_ H4].
  destruct (H4 eq_refl) as [_ H5].
  exact (H5 eq_refl).
Defined.

Lemma configure_window_asserts_managed_witness :
  (exists s',
     sl_configure_window 5%nat queued_geometry_world
     = Crash AssertionFailed s')
  /\ exists s',
       sl_internal_xdg_surface_configure false 5%nat 7 queued_geometry_world
       = Crash AssertionFailed s'.
Proof.
  destruct (proj2 (configure_window_asserts_managed false
                     queued_geometry_world 5%nat queued_geometry_window
                     eq_refl eq_refl ltac:(discriminate)) eq_refl)
    as [H1 H2].
  split; [exact H1|exact (H2 7)].
Defined.

Lemma ack_dropped_without_shell_surface_witness :
  exists s1 w1,
    sl_process_pending_configure_acks false 5%nat (Some 9%nat)
      (pending_world 1 None 7 640 480) = Ok 1 s1
    /\ st_windows s1 !! 5%nat = Some w1
    /\ cfg_serial (win_pending_config w1) = 0
    /\ acked_serials (st_requests s1) = []
    /\ sl_commit false 5%nat (Some 9%nat) (pending_world 1 None 7 640 480)
       = Ok tt (set_st_requests
                  (st_requests s1 ++ [wl_surface_commit 2%nat]) s1).
Proof.
  destruct (ack_dropped_without_shell_surface false
              (pending_world 1 None 7 640 480) 5%nat (Some 9%nat)
              (pending_window 1 None 7))
    as (s1 & w1 & E & Hw1 & Hs & Hacks & Hcommit).
  - reflexivity.
  - discriminate.
  - reflexivity.
  - intros hp [= <-]. eexists. reflexivity.
  - right. split; reflexivity.
  - left. reflexivity.
  - reflexivity.
  - exists s1, w1. repeat split; try assumption.
    exact (Hcommit 9%nat (example_surface 640 480 0) eq_refl eq_refl).
Defined.

(** * The further properties on the example states *)

Lemma configure_window_applies_masked_values_witness :
  exists s' w',
    sl_configure_window 5%nat staged_world = Ok tt s'
    /\ st_windows s' !! 5%nat = Some w'
    /\ win_x w' = 30 /\ win_y w' = 0 /\ win_width w' = 800
    /\ win_height w' = 480 /\ win_border_width w' = 0.
Proof.
  destruct (configure_window_applies_masked_values staged_world 5%nat
              staged_window eq_refl eq_refl)
    as (s' & w' & E & Hw' & Hx & Hy & Hwidth & Hheight & Hborder);
    [discriminate|discriminate|].
  exists s', w'. split; [exact E|]. split; [exact Hw'|].
  rewrite Hx, Hy, Hwidth, Hheight, Hborder. repeat split; reflexivity.
Defined.

Lemma configure_window_requests_witness :
  cfg_mask (win_next_config wide_mask_window) = 65540
  /\ exists s' w' rs,
       sl_configure_window 5%nat wide_mask_world = Ok tt s'
       /\ st_windows s' !! 5%nat = Some w'
       /\ st_requests s'
          = xcb_configure_window 71 4 [800; 0; 0; 0; 0]
              :: xcb_configure_window 70 31 [0; 0; 800; 480; 0] :: rs.
Proof.
  split; [reflexivity|].
  destruct (configure_window_requests wide_mask_world 5%nat wide_mask_window
              eq_refl eq_refl)
    as (s' & w' & E & Hw' & Hrq); [discriminate|discriminate|].
  exists s', w'. eexists. split; [exact E|]. split; [exact Hw'|].
  rewrite Hrq. clear Hrq.
  pose proof (f_equal final E) as Hs'. cbn [final] in Hs'. subst s'.
  vm_compute in Hw'. injection Hw' as <-. reflexivity.
Defined.

Lemma configure_window_without_geometry_witness :
  exists s' w',
    sl_configure_window 5%nat unplaced_world = Ok tt s'
    /\ st_windows s' !! 5%nat = Some w'
    /\ geometry w' = (0, 0, 640, 480, 0)
    /\ st_requests s'
       = [net_wm_state_request (st_ctx unplaced_world) 70 example_config].
Proof.
  destruct (configure_window_without_geometry unplaced_world 5%nat
              unplaced_window eq_refl eq_refl eq_refl)
    as (s' & w' & E & Hwindows & Hgeometry & _ & _ & Hrq).
  exists s', w'. split; [exact E|]. split.
  - rewrite Hwindows. apply lookup_insert_eq.
  - split; [exact Hgeometry|exact Hrq].
Defined.

Lemma commit_follows_acknowledgment_witness :
  sl_commit false 5%nat (Some 9%nat) (pending_world 1 (Some 3%nat) 7 0 0)
  = Ok tt (pending_world 1 (Some 3%nat) 7 0 0).
Proof.
  refine (proj1 (proj2 (commit_follows_acknowledgment false
                          (pending_world 1 (Some 3%nat) 7 0 0) 5%nat
                          (Some 9%nat) (pending_window 1 (Some 3%nat) 7)
                          eq_refl _))
            (example_surface 0 0 0) eq_refl _ _).
  - intros hp [= <-]. eexists. reflexivity.
  - discriminate.
  - left. vm_compute. discriminate.
Defined.

Lemma surface_configure_acknowledges_at_once_witness :
  exists s' w',
    sl_internal_xdg_surface_configure false 5%nat 8
      (pending_world 1 (Some 3%nat) 0 0 0) = Ok tt s'
    /\ st_windows s' !! 5%nat = Some w'
    /\ cfg_serial (win_pending_config w') = 0
    /\ cfg_serial (win_next_config w') = 0
    /\ acked_serials (st_requests s') = [8].
Proof.
  destruct (surface_configure_acknowledges_at_once false
              (pending_world 1 (Some 3%nat) 0 0 0) 5%nat
              (pending_window 1 (Some 3%nat) 0) 8 eq_refl eq_refl)
    as (s' & w' & E & Hw' & Hp & Hn & Hacks & _).
  - discriminate.
  - reflexivity.
  - reflexivity.
  - intros hp [=].
  - exact I.
  - exists s', w'. repeat split; assumption.
Defined.

Lemma toplevel_configure_flags_witness :
  exists w',
    st_windows
      (final (sl_internal_xdg_toplevel_configure identity_transform
                no_rescale 5%nat 0 0
                [XDG_TOPLEVEL_STATE_FULLSCREEN; XDG_TOPLEVEL_STATE_ACTIVATED]
                unplaced_world)) !! 5%nat = Some w'
    /\ win_allow_resize w' = 0
    /\ win_compositor_fullscreen w' = 1
    /\ win_activated w' = 1
    /\ cfg_states_length (win_next_config w') = 2
    /\ take 2 (cfg_states (win_next_config w')) = [303; 306].
Proof.
  destruct (toplevel_configure_flags identity_transform no_rescale
              unplaced_world 5%nat unplaced_window 0 0
              [XDG_TOPLEVEL_STATE_FULLSCREEN; XDG_TOPLEVEL_STATE_ACTIVATED]
              (final (sl_internal_xdg_toplevel_configure identity_transform
                        no_rescale 5%nat 0 0
                        [XDG_TOPLEVEL_STATE_FULLSCREEN;
                         XDG_TOPLEVEL_STATE_ACTIVATED] unplaced_world)))
    as (w' & Hw' & H1 & H2 & H3 & H4 & H5).
  - reflexivity.
  - discriminate.
  - reflexivity.
  - vm_compute. reflexivity.
  - exists w'. split; [exact Hw'|]. split; [exact H1|].
    split; [exact H2|]. split; [exact H3|]. split; [exact H4|exact H5].
Defined.

Lemma toplevel_configure_stores_past_capacity_witness :
  (exists s',
     sl_internal_xdg_toplevel_configure identity_transform no_rescale 5%nat
       0 0 [XDG_TOPLEVEL_STATE_MAXIMIZED; XDG_TOPLEVEL_STATE_ACTIVATED]
       unplaced_world
     = Ok tt s')
  /\ stores_out_of_bounds
       (sl_internal_xdg_toplevel_configure identity_transform no_rescale
          5%nat 0 0
          [XDG_TOPLEVEL_STATE_MAXIMIZED; XDG_TOPLEVEL_STATE_MAXIMIZED]
          unplaced_world).
Proof.
  split.
  - apply (proj2 (toplevel_configure_stores_past_capacity
                    identity_transform no_rescale unplaced_world 5%nat
                    unplaced_window 0 0
                    [XDG_TOPLEVEL_STATE_MAXIMIZED;
                     XDG_TOPLEVEL_STATE_ACTIVATED]
                    eq_refl ltac:(discriminate) (or_introl eq_refl))).
    vm_compute. lia.
  - apply (proj2 (proj1 (toplevel_configure_stores_past_capacity
                           identity_transform no_rescale unplaced_world
                           5%nat unplaced_window 0 0
                           [XDG_TOPLEVEL_STATE_MAXIMIZED;
                            XDG_TOPLEVEL_STATE_MAXIMIZED]
                           eq_refl ltac:(discriminate)
                           (or_introl eq_refl)))).
    vm_compute. lia.
Defined.

Lemma toplevel_configure_only_stages_witness :
  let s' :=
    final (sl_internal_xdg_toplevel_configure identity_transform no_rescale
             5%nat 800 600
             [XDG_TOPLEVEL_STATE_MAXIMIZED; XDG_TOPLEVEL_STATE_ACTIVATED]
             unplaced_world) in
  st_requests s' = []
  /\ (applied_state <$> st_windows s' !! 5%nat)
     = Some (applied_state unplaced_window).
Proof.
  pose proof (toplevel_configure_only_stages identity_transform no_rescale
                unplaced_world 5%nat 800 600
                [XDG_TOPLEVEL_STATE_MAXIMIZED; XDG_TOPLEVEL_STATE_ACTIVATED])
    as H.
  cbv zeta in H |- *. destruct H as (Hlog & Happlied & _).
  - vm_compute. lia.
  - split; [exact Hlog|]. rewrite Happlied. reflexivity.
Defined.

Lemma toplevel_configure_focus_witness :
  ctx_host_focus_window
    (st_ctx (final (sl_internal_xdg_toplevel_configure identity_transform
                      no_rescale 5%nat 0 0 [XDG_TOPLEVEL_STATE_ACTIVATED]
                      unplaced_world)))
  = Some 5%nat.
Proof.
  destruct (toplevel_configure_focus identity_transform no_rescale
              unplaced_world 5%nat unplaced_window 0 0
              [XDG_TOPLEVEL_STATE_ACTIVATED]
              (final (sl_internal_xdg_toplevel_configure identity_transform
                        no_rescale 5%nat 0 0 [XDG_TOPLEVEL_STATE_ACTIVATED]
                        unplaced_world)))
    as [_ H].
  - reflexivity.
  - discriminate.
  - vm_compute. reflexivity.
  - destruct H as [H _]; [discriminate|]. apply H. reflexivity.
Defined.

Lemma toplevel_configure_stages_geometry_witness :
  exists w',
    st_windows
      (final (sl_internal_xdg_toplevel_configure identity_transform
                no_rescale 5%nat 800 600 [] unplaced_world)) !! 5%nat
    = Some w'
    /\ cfg_mask (win_next_config w') = 31
    /\ cfg_values (win_next_config w') = [560; 240; 800; 600; 0].
Proof.
  destruct (toplevel_configure_stages_geometry identity_transform no_rescale
              unplaced_world 5%nat unplaced_window 800 600 []
              (final (sl_internal_xdg_toplevel_configure identity_transform
                        no_rescale 5%nat 800 600 [] unplaced_world)))
    as (w' & Hw' & H).
  - reflexivity.
  - discriminate.
  - discriminate.
  - discriminate.
  - reflexivity.
  - vm_compute. reflexivity.
  - exists w'. split; [exact Hw'|]. exact H.
Defined.

Lemma toplevel_configure_then_configure_window_witness :
  exists s2 w2,
    sl_configure_window 5%nat
      (final (sl_internal_xdg_toplevel_configure identity_transform
                no_rescale 5%nat 800 600 [] unplaced_world)) = Ok tt s2
    /\ st_windows s2 !! 5%nat = Some w2
    /\ win_x w2 = 560 /\ win_y w2 = 240
    /\ win_width w2 = 800 /\ win_height w2 = 600
    /\ win_border_width w2 = 0.
Proof.
  exact (toplevel_configure_then_configure_window identity_transform
           no_rescale unplaced_world 5%nat unplaced_window 800 600 []
           (final (sl_internal_xdg_toplevel_configure identity_transform
                     no_rescale 5%nat 800 600 [] unplaced_world))
           eq_refl ltac:(discriminate) ltac:(discriminate)
           ltac:(discriminate) eq_refl eq_refl
           ltac:(vm_compute; reflexivity)).
Defined.

Lemma window_update_tears_down_witness :
  exists s' w',
    sl_window_update false identity_transform no_rescale depth_24 5%nat
      decorated_world = Ok tt s'
    /\ st_windows s' !! 5%nat = Some w'
    /\ st_requests s' = [zaura_surface_destroy 4%nat]
    /\ win_aura_surface w' = None.
Proof.
  destruct (window_update_tears_down false identity_transform no_rescale
              depth_24 decorated_world 5%nat decorated_window eq_refl)
    as (s' & w' & E & Hwindows & _ & Hrq & Haura & _).
  - left. reflexivity.
  - exists s', w'. split; [exact E|]. split.
    + rewrite Hwindows. apply lookup_insert_eq.
    + split; [exact Hrq|exact Haura].
Defined.

Lemma window_update_commits_last_witness :
  last (st_requests
          (final (sl_window_update false identity_transform no_rescale
                    depth_24 5%nat (transient_world 1 1))))
  = Some (wl_surface_commit 2%nat).
Proof.
  destruct (window_update_commits_last false identity_transform no_rescale
              depth_24 (transient_world 1 1) 5%nat
              (example_window 70 4 1 80 P_POSITION)
              (final (sl_window_update false identity_transform no_rescale
                        depth_24 5%nat (transient_world 1 1))))
    as (hp & h & Hobj & Hh & Hlast).
  - reflexivity.
  - reflexivity.
  - intros [H|H]; [discriminate H|vm_compute in H; discriminate H].
  - vm_compute. reflexivity.
  - rewrite Hlast. vm_compute in Hobj. injection Hobj as <-.
    vm_compute in Hh. injection Hh as <-. reflexivity.
Defined.

Lemma operations_keep_lists_consistent_witness :
  lists_consistent
    (final (run_operation false identity_transform identity_transform
              no_rescale depth_24 (op_window_update 5%nat) orphaned_world)).
Proof.
  apply operations_keep_lists_consistent.
  intros q w Hq. unfold orphaned_world in Hq. cbn [st_windows] in Hq.
  apply lookup_singleton_Some in Hq as [<- <-]. cbn.
  split; [apply list_elem_of_here|apply not_elem_of_nil].
Defined.

Lemma window_update_parent_choice_witness :
  6%nat ∈ ctx_windows (st_ctx (transient_world 1 0))
  /\ exists serial,
       eligible_parent (transient_world 1 0)
         (example_window 70 4 0 80 P_POSITION) 6%nat serial.
Proof.
  destruct (window_update_parent_choice (transient_world 1 0) 5%nat
              (example_window 70 4 0 80 P_POSITION) (Some 6%nat)
              (transient_world 1 0) eq_refl)
    as (_ & _ & H).
  - vm_compute. reflexivity.
  - destruct (H 6%nat eq_refl) as [Hin [(Hg & _)|(serial & He & _)]].
    + exfalso. apply Hg. reflexivity.
    + split; [exact Hin|]. exists serial. exact He.
Defined.

Lemma transient_parent_is_first_match_witness :
  window_update_parent 5%nat (transient_world 1 1)
  = Ok (Some 6%nat) (transient_world 1 1).
Proof.
  apply (transient_parent_is_first_match (transient_world 1 1) 5%nat
           (example_window 70 4 1 80 P_POSITION) [] 6%nat [] sibling_window).
  - reflexivity.
  - discriminate.
  - discriminate.
  - reflexivity.
  - constructor.
  - reflexivity.
  - reflexivity.
  - discriminate.
Defined.

Lemma operations_keep_serials_ordered_witness :
  serials_ordered
    (final (run_operation false identity_transform identity_transform
              no_rescale depth_24 (op_xdg_surface_configure 5%nat 8)
              (pending_world 0 (Some 3%nat) 7 0 0))).
Proof.
  apply (operations_keep_serials_ordered false identity_transform
           identity_transform no_rescale depth_24
           (op_xdg_surface_configure 5%nat 8)
           (pending_world 0 (Some 3%nat) 7 0 0)).
  - apply map_Forall_singleton. discriminate.
  - vm_compute. reflexivity.
Defined.

Lemma window_update_keeps_handles_witness :
  exists w',
    st_windows
      (final (sl_window_update false identity_transform no_rescale depth_24
                5%nat (transient_world 1 1))) !! 6%nat = Some w'
    /\ win_xdg_surface w' = Some 30%nat
    /\ win_xdg_toplevel w' = Some 31%nat.
Proof.
  destruct (window_update_keeps_handles false identity_transform no_rescale
              depth_24 (transient_world 1 1) 5%nat
              (example_window 70 4 1 80 P_POSITION) eq_refl)
    with (q := 6%nat) (w := sibling_window)
    as (w' & Hw' & Hsurface & Htoplevel & _).
  - intros [H|H]; [discriminate H|vm_compute in H; discriminate H].
  - reflexivity.
  - exists w'. split; [exact Hw'|].
    split; [apply Hsurface|apply Htoplevel]; reflexivity.
Defined.

Lemma window_update_asserts_witness :
  exists s',
    sl_window_update false identity_transform no_rescale depth_24 5%nat
      taken_surface_world
    = Crash AssertionFailed s'.
Proof.
  apply (window_update_asserts false identity_transform no_rescale depth_24
           taken_surface_world 5%nat (example_window 70 4 1 80 P_POSITION)
           (Some 9%nat)).
  - reflexivity.
  - discriminate.
  - reflexivity.
  - exists taken_surface. split; [reflexivity|]. left. discriminate.
Defined.

Lemma toplevel_configure_ignores_unmanaged_witness :
  sl_internal_xdg_toplevel_configure identity_transform no_rescale 5%nat
    800 600 [XDG_TOPLEVEL_STATE_FULLSCREEN] queued_geometry_world
  = Ok tt queued_geometry_world.
Proof.
  apply (toplevel_configure_ignores_unmanaged identity_transform no_rescale
           queued_geometry_world 5%nat queued_geometry_window).
  - reflexivity.
  - reflexivity.
Defined.
